(** * DSEW Community Profile report parser: [pull.py]

    A shallow embedding of
    [dsew_community_profile/delphi_dsew_community_profile/pull.py]
    and the properties of its header parsers, column filters, sheet
    extraction, report listing and download.

    Conventions of the embedding:
    - a Python [str] is a [string]; its characters are the code points
      below 256 (ASCII and Latin-1);
    - a Python [int] is a [Z];
    - a Python exception is an [exn]; a function that can raise returns
      a [result];
    - a [dict] is a [gmap];
    - a compiled [re] pattern is a [regex] run by a backtracking
      matcher with the priorities of Python's [re] module. *)

From Stdlib Require Import ZArith Lia Ascii String DecimalString.
From Stdlib Require DecimalZ DecimalFacts QArith.
From stdpp Require Import base option list gmap strings.

Set Default Proof Using "Type".
Set Warnings "-clear-no-such-hyp".

(** ** Exceptions and results *)

(** The exceptions [pull.py] and its libraries raise here. A message
    keeps its literal text and the strings formatted into it; the
    [repr] of a tuple, a record or a list of headers that the source
    appends to some assertion messages is left out. *)
Inductive exn : Type :=
| AssertionError (msg : string)
| IndexError
| KeyError (key : string)
| ValueError (msg : string).

Inductive result (A : Type) : Type :=
| Ok (a : A)
| Raise (e : exn).
Arguments Ok {A} a.
Arguments Raise {A} e.

Global Instance result_bind : MBind result := λ A B f r,
  match r with
  | Ok a => f a
  | Raise e => Raise e
  end.

Definition is_ok {A} (r : result A) : bool :=
  match r with Ok _ => true | Raise _ => false end.

Definition raises {A} (r : result A) : Prop := ∃ e, r = Raise e.

(** [assert cond, msg] *)
Definition assert (cond : bool) (msg : string) : result unit :=
  if cond then Ok tt else Raise (AssertionError msg).

(** ** Python strings *)

Module Str.

Definition code (c : ascii) : N := N_of_ascii c.

Definition is_digit (c : ascii) : bool :=
  (48 <=? code c)%N && (code c <=? 57)%N.

Definition is_alpha (c : ascii) : bool :=
  ((65 <=? code c)%N && (code c <=? 90)%N)
  || ((97 <=? code c)%N && (code c <=? 122)%N).

(** [.] of a pattern compiled without [re.DOTALL]: anything but a
    newline. *)
Definition not_newline (c : ascii) : bool :=
  negb (code c =? 10)%N.

Definition is_space_char (c : ascii) : bool := (code c =? 32)%N.

(** [str.lower] on one character: the ASCII capitals and the Latin-1
    capitals (U+00C0 to U+00DE but the multiplication sign U+00D7)
    move up by 32. *)
Definition lower_char (c : ascii) : ascii :=
  let n := code c in
  if ((65 <=? n)%N && (n <=? 90)%N)
     || ((192 <=? n)%N && (n <=? 222)%N && negb (n =? 215)%N)
  then ascii_of_N (n + 32) else c.

Fixpoint lower (s : string) : string :=
  match s with
  | EmptyString => EmptyString
  | String c s' => String (lower_char c) (lower s')
  end.

(** [s.startswith(p)] *)
Fixpoint startswith (s p : string) {struct p} : bool :=
  match p, s with
  | EmptyString, _ => true
  | String a p', String b s' => Ascii.eqb a b && startswith s' p'
  | String _ _, EmptyString => false
  end.

(** The index of the first occurrence of [sub] in [s], if any. *)
Fixpoint index_of (s sub : string) : option nat :=
  if startswith s sub then Some 0
  else match s with
       | EmptyString => None
       | String _ s' => S <$> index_of s' sub
       end.

(** [s.find(sub)]: the lowest index where [sub] occurs, [-1] when it
    does not. *)
Definition find (s sub : string) : Z :=
  match index_of s sub with
  | Some i => Z.of_nat i
  | None => (-1)%Z
  end.

(** [s.endswith(p)] *)
Fixpoint endswith (s p : string) : bool :=
  String.eqb s p
  || match s with
     | EmptyString => false
     | String _ s' => endswith s' p
     end.

(** Truth value of a string: non-empty. *)
Definition truthy (s : string) : bool :=
  match s with EmptyString => false | _ => true end.

Fixpoint forallb (p : ascii → bool) (s : string) : bool :=
  match s with
  | EmptyString => true
  | String c s' => p c && forallb p s'
  end.

(** [s] with its last [String.length rest] characters removed: what
    a matcher consumed when it went from [s] to [rest]. *)
Definition consumed (s rest : string) : string :=
  substring 0 (String.length s - String.length rest) s.

(** [sub] occurs in [s]. *)
Definition occurs_in (sub s : string) : Prop :=
  ∃ pre post, s = pre +:+ sub +:+ post.

(** [int(s)] for a decimal numeral, possibly signed. The other
    spellings Python accepts (surrounding blanks, [+], [_]) never
    reach it here: its arguments are digit groups of a pattern. *)
Definition to_int (s : string) : result Z :=
  match NilZero.int_of_string s with
  | Some d => Ok (Z.of_int d)
  | None => Raise (ValueError ("invalid literal for int() with base 10: '" +:+ s +:+ "'"))
  end.

(** [str(n)] of an [int]. *)
Definition of_int (n : Z) : string := NilZero.string_of_int (Z.to_int n).

(** [s.partition(sep)]: the text before the first occurrence of
    [sep], [sep], and the text after it; [s] and two empty texts when
    [sep] does not occur. *)
Definition partition (s sep : string) : string * string * string :=
  match index_of s sep with
  | Some i =>
      (substring 0 i s, sep,
       substring (i + String.length sep)
                 (String.length s - (i + String.length sep)) s)
  | None => (s, EmptyString, EmptyString)
  end.

End Str.

(** ** Paths *)

Module Os.

(** [os.path.join(a, b)] of [posixpath]: [b] alone when it begins
    with a slash, else [a] and [b] with a slash between them unless
    [a] is empty or ends with one. *)
Definition path_join (a b : string) : string :=
  if Str.startswith b "/" then b
  else if negb (Str.truthy a) || Str.endswith a "/" then a +:+ b
  else a +:+ "/" +:+ b.

End Os.

(** ** A backtracking matcher for the patterns of [pull.py]

    The three patterns use literals, character sets, [.], greedy [*]
    and [{m,n}] over a set, greedy optional groups and capturing
    groups. The matcher is written in continuation-passing style: the
    continuation stands for the rest of the pattern, and a greedy
    operator tries the longest alternative first and falls back when
    the continuation fails, as [re] does. *)

Module Re.

Inductive regex : Type :=
| Eps
| Lit (l : string)
| Cls (p : ascii → bool)
| StarCls (p : ascii → bool)
| RepCls (p : ascii → bool) (lo hi : nat)
| Seq (r1 r2 : regex)
| Opt (r : regex)
| Grp (i : nat) (r : regex).

(** Group number to captured text; the most recent binding first. *)
Definition captures := list (nat * string).

Fixpoint capture_lookup (caps : captures) (i : nat) : option string :=
  match caps with
  | [] => None
  | (j, v) :: caps' => if Nat.eqb i j then Some v else capture_lookup caps' i
  end.

(** What [findall] reports for a group: its text, [''] when it took
    no part in the match. *)
Definition group (caps : captures) (i : nat) : string :=
  default EmptyString (capture_lookup caps i).

Fixpoint strip_prefix (l s : string) {struct l} : option string :=
  match l, s with
  | EmptyString, _ => Some s
  | String a l', String b s' => if Ascii.eqb a b then strip_prefix l' s' else None
  | String _ _, EmptyString => None
  end.

Section Matcher.
Context {A : Type}.

Fixpoint star_greedy (p : ascii → bool) (s : string)
    (k : string → option A) : option A :=
  match s with
  | String c s' =>
      if p c then
        match star_greedy p s' k with
        | Some a => Some a
        | None => k s
        end
      else k s
  | EmptyString => k s
  end.

Definition stop_here (lo : nat) (s : string) (k : string → option A) : option A :=
  match lo with O => k s | S _ => None end.

Fixpoint rep_greedy (p : ascii → bool) (lo hi : nat) (s : string)
    (k : string → option A) : option A :=
  match hi with
  | O => stop_here lo s k
  | S hi' =>
      match s with
      | String c s' =>
          if p c then
            match rep_greedy p (Nat.pred lo) hi' s' k with
            | Some a => Some a
            | None => stop_here lo s k
            end
          else stop_here lo s k
      | EmptyString => stop_here lo s k
      end
  end.

Fixpoint rmatch (r : regex) (s : string) (caps : captures)
    (k : string → captures → option A) : option A :=
  match r with
  | Eps => k s caps
  | Lit l =>
      match strip_prefix l s with
      | Some s' => k s' caps
      | None => None
      end
  | Cls p =>
      match s with
      | String c s' => if p c then k s' caps else None
      | EmptyString => None
      end
  | StarCls p => star_greedy p s (fun s' => k s' caps)
  | RepCls p lo hi => rep_greedy p lo hi s (fun s' => k s' caps)
  | Seq r1 r2 => rmatch r1 s caps (fun s' caps' => rmatch r2 s' caps' k)
  | Opt r' =>
      match rmatch r' s caps k with
      | Some a => Some a
      | None => k s caps
      end
  | Grp i r' =>
      rmatch r' s caps
        (fun s' caps' => k s' ((i, Str.consumed s s') :: caps'))
  end.
End Matcher.

(** [pattern.match(s)]: a match starting at the first character; the
    captures and the unread rest of [s]. *)
Definition match_ (r : regex) (s : string) : option (captures * string) :=
  rmatch r s [] (fun rest caps => Some (caps, rest)).

(** The groups [1..n] of a match, as [findall] lists them. *)
Definition groups (n : nat) (caps : captures) : list string :=
  map (group caps) (seq 1 n).

(** [pattern.findall(s)] for a pattern with [n] groups: the matches
    found scanning [s] from left to right, each the tuple of its
    groups (for a pattern with one group Python lists the group
    itself, here a tuple of one element). After a match the scan
    resumes where it ended (one character further when the match was
    empty; none of the patterns here matches the empty string). *)
Fixpoint findall_from (fuel : nat) (r : regex) (n : nat) (s : string)
    : list (list string) :=
  match fuel with
  | O => []
  | S fuel' =>
      match match_ r s with
      | Some (caps, rest) =>
          groups n caps ::
            (if Nat.eqb (String.length rest) (String.length s)
             then match s with
                  | EmptyString => []
                  | String _ s' => findall_from fuel' r n s'
                  end
             else findall_from fuel' r n rest)
      | None =>
          match s with
          | EmptyString => []
          | String _ s' => findall_from fuel' r n s'
          end
      end
  end.

Definition findall (r : regex) (n : nat) (s : string) : list (list string) :=
  findall_from (S (String.length s)) r n s.

End Re.

Import Re.

(** ** The patterns of [pull.py] *)

(** [RE_DATE_FROM_FILENAME]: any text, groups of four, two and two
    digits ([YYYYMMDD]), any text and the literal [xlsx]. *)
Definition RE_DATE_FROM_FILENAME : regex :=
  Seq (StarCls Str.not_newline)
   (Seq (Grp 1 (RepCls Str.is_digit 4 4))
    (Seq (Grp 2 (RepCls Str.is_digit 2 2))
     (Seq (Grp 3 (RepCls Str.is_digit 2 2))
      (Seq (StarCls Str.not_newline) (Lit "xlsx"))))).

(** [DATE_EXP]: optionally a word of ASCII letters (group [m]) and a
    blank, then one or two digits (group [d]). *)
Definition DATE_EXP (m d : nat) : regex :=
  Seq (Opt (Seq (Grp m (StarCls Str.is_alpha)) (Lit " ")))
      (Grp d (RepCls Str.is_digit 1 2)).

(** [DATE_RANGE_EXP]: two [DATE_EXP] with a hyphen between them, the
    four groups numbered from [g]. *)
Definition DATE_RANGE_EXP (g : nat) : regex :=
  Seq (DATE_EXP g (g + 1)) (Seq (Lit "-") (DATE_EXP (g + 2) (g + 3))).

(** [RE_DATE_FROM_HEADER]: any text, the literal [TESTING: ], the week
    qualifier (group 1: any text), the literal [ WEEK] and an opening
    parenthesis, [DATE_RANGE_EXP] (groups 2 to 5), optionally the
    literal [, Test Volume ] and a second [DATE_RANGE_EXP] (group 6,
    its parts groups 7 to 10), blanks and a closing parenthesis. *)
Definition RE_DATE_FROM_HEADER : regex :=
  Seq (StarCls Str.not_newline)
   (Seq (Lit "TESTING: ")
    (Seq (Grp 1 (StarCls Str.not_newline))
     (Seq (Lit " WEEK (")
      (Seq (DATE_RANGE_EXP 2)
       (Seq (Opt (Seq (Lit ", Test Volume ") (Grp 6 (DATE_RANGE_EXP 7))))
        (Seq (StarCls Str.is_space_char) (Lit ")"))))))).

(** [RE_COLUMN_FROM_HEADER]: the literal [- ], any text (group 1) and
    the literal [ 7 days]. *)
Definition RE_COLUMN_FROM_HEADER : regex :=
  Seq (Lit "- ") (Seq (Grp 1 (StarCls Str.not_newline)) (Lit " 7 days")).

(** ** Calendar dates: [datetime.date] and [strptime] *)

Record date : Type := Date { year : Z; month : Z; day : Z }.

Global Instance date_eq_dec : EqDecision date.
Proof. solve_decision. Defined.

Module Datetime.

Definition is_leap (y : Z) : bool :=
  (y mod 4 =? 0)%Z && (negb (y mod 100 =? 0)%Z || (y mod 400 =? 0)%Z).

Definition days_in_month (y m : Z) : Z :=
  if (m =? 2)%Z then (if is_leap y then 29 else 28)%Z
  else if (m =? 4)%Z || (m =? 6)%Z || (m =? 9)%Z || (m =? 11)%Z then 30%Z
  else 31%Z.

Definition valid (y m d : Z) : bool :=
  (1 <=? y)%Z && (y <=? 9999)%Z && (1 <=? m)%Z && (m <=? 12)%Z
  && (1 <=? d)%Z && (d <=? days_in_month y m)%Z.

(** [datetime.date(y, m, d)] *)
Definition date_new (y m d : Z) : result date :=
  if negb ((1 <=? y)%Z && (y <=? 9999)%Z) then
    Raise (ValueError ("year " +:+ Str.of_int y +:+ " is out of range"))
  else if negb ((1 <=? m)%Z && (m <=? 12)%Z) then
    Raise (ValueError "month must be in 1..12")
  else if negb ((1 <=? d)%Z && (d <=? days_in_month y m)%Z) then
    Raise (ValueError "day is out of range for month")
  else Ok (Date y m d).

(** The full month names of the C locale, lower case, January first:
    what [%B] accepts, whatever the case of the input. No name is the
    beginning of another one. *)
Definition month_names : list string :=
  [ "january"; "february"; "march"; "april"; "may"; "june"; "july";
    "august"; "september"; "october"; "november"; "december" ]%string.

Definition no_match (data fmt : string) : exn :=
  ValueError ("time data '" +:+ data +:+ "' does not match format '" +:+ fmt +:+ "'").

(** The month whose name [s] begins with, and what follows the name. *)
Fixpoint month_prefix (names : list string) (n : Z) (s : string)
    : option (Z * string) :=
  match names with
  | [] => None
  | name :: names' =>
      if String.eqb (Str.lower (substring 0 (String.length name) s)) name
      then Some (n, substring (String.length name)
                              (String.length s - String.length name) s)
      else month_prefix names' (n + 1)%Z s
  end.

(** [datetime.datetime.strptime(s, "%B").month] *)
Definition strptime_B (s : string) : result Z :=
  match month_prefix month_names 1 s with
  | Some (m, EmptyString) => Ok m
  | _ => Raise (no_match s "%B")
  end.

Definition digit_value (c : ascii) : Z := (Z.of_N (Str.code c) - 48)%Z.

Definition is_digit_in (lo hi : Z) (c : ascii) : bool :=
  Str.is_digit c && (lo <=? digit_value c)%Z && (digit_value c <=? hi)%Z.

(** [%Y]: four digits, read by [int]. *)
Definition year_prefix (s : string) : option (Z * string) :=
  match s with
  | String a (String b (String c (String d rest))) =>
      if Str.is_digit a && Str.is_digit b && Str.is_digit c && Str.is_digit d
      then match Str.to_int (String a (String b (String c (String d "")))) with
           | Ok y => Some (y, rest)
           | Raise _ => None
           end
      else None
  | _ => None
  end.

(** [%d]: the first of [3[0-1]], [[1-2]\d], [0[1-9]], [[1-9]] and
    [ [1-9]] that the text begins with. *)
Definition day_prefix (s : string) : option (Z * string) :=
  match s with
  | EmptyString => None
  | String a EmptyString =>
      if is_digit_in 1 9 a then Some (digit_value a, EmptyString) else None
  | String a (String b rest) =>
      if Ascii.eqb a "3" && is_digit_in 0 1 b then Some ((30 + digit_value b)%Z, rest)
      else if is_digit_in 1 2 a && Str.is_digit b
           then Some ((10 * digit_value a + digit_value b)%Z, rest)
      else if Ascii.eqb a "0" && is_digit_in 1 9 b then Some (digit_value b, rest)
      else if is_digit_in 1 9 a then Some (digit_value a, String b rest)
      else if Ascii.eqb a " " && is_digit_in 1 9 b then Some (digit_value b, rest)
      else None
  end.

(** [datetime.datetime.strptime(s, "%Y-%B-%d").date()]: the three
    fields with a hyphen between them, nothing left over, and a day
    that exists in that month. *)
Definition strptime_YBd (s : string) : result date :=
  match year_prefix s with
  | Some (y, String "-" s1) =>
      match month_prefix month_names 1 s1 with
      | Some (m, String "-" s2) =>
          match day_prefix s2 with
          | Some (d, EmptyString) => date_new y m d
          | Some (_, rest) => Raise (ValueError ("unconverted data remains: " +:+ rest))
          | None => Raise (no_match s "%Y-%B-%d")
          end
      | _ => Raise (no_match s "%Y-%B-%d")
      end
  | _ => Raise (no_match s "%Y-%B-%d")
  end.

(** [%m]: the first of [1[0-2]], [0[1-9]] and [[1-9]] that the text
    begins with. *)
Definition month_number_prefix (s : string) : option (Z * string) :=
  match s with
  | EmptyString => None
  | String a EmptyString =>
      if is_digit_in 1 9 a then Some (digit_value a, EmptyString) else None
  | String a (String b rest) =>
      if Ascii.eqb a "1" && is_digit_in 0 2 b then Some ((10 + digit_value b)%Z, rest)
      else if Ascii.eqb a "0" && is_digit_in 1 9 b then Some (digit_value b, rest)
      else if is_digit_in 1 9 a then Some (digit_value a, String b rest)
      else None
  end.

(** [datetime.datetime.strptime(s, "%Y-%m-%d").date()] *)
Definition strptime_Ymd (s : string) : result date :=
  match year_prefix s with
  | Some (y, String "-" s1) =>
      match month_number_prefix s1 with
      | Some (m, String "-" s2) =>
          match day_prefix s2 with
          | Some (d, EmptyString) => date_new y m d
          | Some (_, rest) => Raise (ValueError ("unconverted data remains: " +:+ rest))
          | None => Raise (no_match s "%Y-%m-%d")
          end
      | _ => Raise (no_match s "%Y-%m-%d")
      end
  | _ => Raise (no_match s "%Y-%m-%d")
  end.

(** [a < b] and [a <= b] of two [datetime.date]: the order of the
    triples of year, month and day. *)
Definition ltb (a b : date) : bool :=
  (year a <? year b)%Z
  || ((year a =? year b)%Z
      && ((month a <? month b)%Z
          || ((month a =? month b)%Z && (day a <? day b)%Z))).

Definition leb (a b : date) : bool := negb (ltb b a).

End Datetime.

(** ** [DatasetTimes] *)

Record DatasetTimes : Type := mkDatasetTimes {
  column : string;
  positivity_reference_date : date;
  total_reference_date : date
}.

(** [DatasetTimes.__eq__] compares the three fields, which is equality
    of records. *)
Global Instance DatasetTimes_eq_dec : EqDecision DatasetTimes.
Proof. solve_decision. Defined.

(** [t[i]] of a tuple of strings; every index used below is within the
    tuple. *)
Definition item (t : list string) (i : nat) : string := nth i t EmptyString.

(** [t[i:j]] *)
Definition slice {A} (i j : nat) (t : list A) : list A := take (j - i) (drop i t).

(** [l[0]] of a list. *)
Definition first {A} (l : list A) : result A :=
  match l with
  | x :: _ => Ok x
  | [] => Raise IndexError
  end.

Module DatasetTimes.

(** The month [as_date] reads from a range: the one of its second day
    when it has one, else the one of its first day. *)
Definition range_month (sub_result : list string) : string :=
  if Str.truthy (item sub_result 2) then item sub_result 2 else item sub_result 0.

(** The inner function [as_date] of [from_header]; [header] and
    [publish_date] are the variables it closes over. *)
Definition as_date (header : string) (publish_date : date)
    (sub_result : list string) : result date :=
  let month_ := range_month sub_result in
  _ ← assert (Str.truthy month_) ("Bad month in header: " +:+ header);
  month_numeric ← Datetime.strptime_B month_;
  let day_ := item sub_result 3 in
  let year_ := year publish_date in
  let year_ := if (month_numeric >? month publish_date)%Z then (year_ - 1)%Z else year_ in
  Datetime.strptime_YBd (Str.of_int year_ +:+ "-" +:+ month_ +:+ "-" +:+ day_).

(** [DatasetTimes.from_header] *)
Definition from_header (header : string) (publish_date : date) : result DatasetTimes :=
  _ ← assert (bool_decide (is_Some (match_ RE_DATE_FROM_HEADER header)))
        ("Couldn't find reference date in header '" +:+ header +:+ "'");
  findall_result ← first (findall RE_DATE_FROM_HEADER 10 header);
  let column_ := Str.lower (item findall_result 0) in
  positivity ← as_date header publish_date (slice 1 5 findall_result);
  total ←
    (if Str.truthy (item findall_result 6)
     then as_date header publish_date (slice 6 10 findall_result)
     else Ok positivity);
  Ok (mkDatasetTimes column_ positivity total).

(** [DatasetTimes.__getitem__] *)
Definition __getitem__ (self : DatasetTimes) (key : string) : result date :=
  if String.eqb (Str.lower key) "positivity" then Ok (positivity_reference_date self)
  else if String.eqb (Str.lower key) "total" then Ok (total_reference_date self)
  else Raise (ValueError ("Bad reference date type request '" +:+ key
                          +:+ "'; need 'total' or 'positivity'")).

End DatasetTimes.

(** ** Loops that can raise *)

(** A list comprehension whose body can raise: the elements in order,
    the first exception ending it. *)
Fixpoint mapM {A B} (f : A → result B) (l : list A) : result (list B) :=
  match l with
  | [] => Ok []
  | x :: l' => y ← f x; ys ← mapM f l'; Ok (y :: ys)
  end.

(** A [for] loop over [l] that updates a state and can raise. *)
Fixpoint foldM {A S} (f : S → A → result S) (s : S) (l : list A) : result S :=
  match l with
  | [] => Ok s
  | x :: l' => s' ← f s x; foldM f s' l'
  end.

(** ** Spreadsheets and data frames

    [pandas] is outside the repository; what [pull.py] asks of it is
    modelled column-wise. [I] is the type of row labels, [V] the type
    of cell values, [truediv7] the element-wise [/ 7] of a column. *)

Section Frames.
Context {I V : Type}.

(** A cell of the header row read with [header=None]: a string, or
    anything else (a number, [NaN] for an empty cell). *)
Inductive cell : Type :=
| CStr (s : string)
| COther (v : V).

Record Series (A : Type) : Type := mkSeries {
  s_index : list I;
  s_values : list A
}.

Record DataFrame : Type := mkDataFrame {
  df_index : list I;
  df_data : list (string * list V)
}.

(** [list(df.columns)] *)
Definition df_columns (df : DataFrame) : list string := map fst (df_data df).

Fixpoint assoc {B} (k : string) (l : list (string * B)) : option B :=
  match l with
  | [] => None
  | (k', v) :: l' => if String.eqb k k' then Some v else assoc k l'
  end.

(** [df[h]] *)
Definition df_getitem (df : DataFrame) (h : string) : result (Series V) :=
  match assoc h (df_data df) with
  | Some vs => Ok (mkSeries V (df_index df) vs)
  | None => Raise (KeyError h)
  end.

Fixpoint mask_filter {A} (mask : list bool) (l : list A) : list A :=
  match mask, l with
  | b :: mask', x :: l' => if b then x :: mask_filter mask' l' else mask_filter mask' l'
  | _, _ => []
  end.

(** [df.loc[mask]] for a boolean mask over the rows. *)
Definition df_loc (df : DataFrame) (mask : list bool) : DataFrame :=
  mkDataFrame (mask_filter mask (df_index df))
              (map (fun c => (c.1, mask_filter mask c.2)) (df_data df)).

(** [s.apply(f)] *)
Definition series_apply {A B} (f : A → B) (s : Series A) : Series B :=
  mkSeries B (s_index A s) (map f (s_values A s)).

End Frames.

Arguments cell : clear implicits.
Arguments Series : clear implicits.
Arguments DataFrame : clear implicits.
Arguments mkSeries {I A}.
Arguments s_index {I A}.
Arguments s_values {I A}.

(** A row of an extracted table: the columns [geo_id], [timestamp],
    [val], [se] and [sample_size] under the row label. *)
Record Row (I G V : Type) : Type := mkRow {
  r_label : I;
  geo_id : G;
  timestamp : date;
  val : V;
  se : option V;
  sample_size : option V
}.
Arguments mkRow {I G V}.
Arguments r_label {I G V}.
Arguments geo_id {I G V}.
Arguments timestamp {I G V}.
Arguments val {I G V}.
Arguments se {I G V}.
Arguments sample_size {I G V}.

(** Modelled from the spec: the sheet description of [constants.py]
    (an element of [TRANSFORMS]), which is not among the sources. Its
    fields are the ones [pull.py] reads: [name], [level], [row_filter]
    (optional), [geo_id_select] and [geo_id_apply]. *)
Record SheetSpec (I V G0 G : Type) : Type := mkSheetSpec {
  name : string;
  level : string;
  row_filter : option (DataFrame I V → list bool);
  geo_id_select : DataFrame I V → Series I G0;
  geo_id_apply : G0 → G
}.
Arguments name {I V G0 G}.
Arguments level {I V G0 G}.
Arguments row_filter {I V G0 G}.
Arguments geo_id_select {I V G0 G}.
Arguments geo_id_apply {I V G0 G}.

(** What [pandas] reads from one sheet of the workbook: the cells of
    its first row ([header=None, nrows=1]) and its frame below the
    header row ([header=1, index_col=0]). *)
Record SheetData (I V : Type) : Type := mkSheetData {
  overheader_row : list (cell V);
  frame : DataFrame I V
}.
Arguments overheader_row {I V}.
Arguments frame {I V}.

(** The element of the listing a [Dataset] is built from. *)
Record Config : Type := mkConfig {
  filename : string;
  assetId : string;
  cached_filename : string
}.

(** ** [Dataset] *)

Module Dataset.
Section Dataset.
Context {I V G0 G Bytes : Type}.

(** The constants [pull.py] imports from [constants.py], which is
    not among the sources: they are parameters of the model.
    [DOWNLOAD_ATTACHMENT assetId filename] stands for
    [DOWNLOAD_ATTACHMENT.format(assetId=..., filename=...)]. *)
Context (SIGNALS : list string).
Context (TRANSFORMS : list (string * SheetSpec I V G0 G)).
Context (DOWNLOAD_ATTACHMENT : string → string → string).

(** Library functions: [urllib.parse.quote_plus], the element-wise
    [/ 7] of a [pandas] column, and the reading of a workbook
    ([pd.ExcelFile] followed by [pd.read_excel]) as a map from sheet
    names to what is read from each sheet. *)
Context (quote_as_url : string → string).
Context (truediv7 : V → V).
Context (ExcelFile : Bytes → result (gmap string (SheetData I V))).

(** The attributes of a [Dataset] instance. *)
Record t : Type := mk {
  publish_date : date;
  url : string;
  workbook : gmap string (SheetData I V);
  dfs : gmap (string * string) (list (Row I G V));
  times : gmap string DatasetTimes
}.

(** [Dataset.parse_publish_date] *)
Definition parse_publish_date (report_filename : string) : result date :=
  g ← first (findall RE_DATE_FROM_FILENAME 3 report_filename);
  y ← Str.to_int (item g 0);
  m ← Str.to_int (item g 1);
  d ← Str.to_int (item g 2);
  Datetime.date_new y m d.

(** [Dataset.skip_overheader] *)
Definition skip_overheader (header : cell V) : bool :=
  negb (match header with
        | CStr h =>
            (Str.startswith h "TESTING:"
             || Str.startswith h "VIRAL (RT-PCR) LAB TESTING:")
            && (Str.find h "WEEK (" >? 0)%Z
        | COther _ => false
        end).

(** [pd.read_excel(self.workbook, sheet_name=sheet.name, ...)] *)
Definition read_excel (self : t) (sheet : SheetSpec I V G0 G)
    : result (SheetData I V) :=
  match workbook self !! name sheet with
  | Some data => Ok data
  | None => Raise (ValueError ("Worksheet named '" +:+ name sheet +:+ "' not found"))
  end.

(** The body of the loop of [_parse_times_for_sheet] over the
    overheaders, [self.times] being the state. *)
Definition record_overheader (publish_date : date)
    (times : gmap string DatasetTimes) (h : cell V)
    : result (gmap string DatasetTimes) :=
  if skip_overheader h then Ok times
  else
    match h with
    | CStr header =>
        dt ← DatasetTimes.from_header header publish_date;
        match times !! column dt with
        | Some previous =>
            _ ← assert (bool_decide (previous = dt)) "Conflicting reference date";
            Ok times
        | None => Ok (<[column dt := dt]> times)
        end
    | COther _ => Ok times
    end.

(** The loop of [_parse_times_for_sheet] and the assertion that ends
    it, on the overheaders read from the sheet. *)
Definition times_of_overheaders (publish_date : date)
    (times : gmap string DatasetTimes) (overheaders : list (cell V))
    : result (gmap string DatasetTimes) :=
  times' ← foldM (record_overheader publish_date) times overheaders;
  _ ← assert (size times' =? 2) "No times extracted from overheaders";
  Ok times'.

(** [Dataset._parse_times_for_sheet] *)
Definition _parse_times_for_sheet (self : t) (sheet : SheetSpec I V G0 G)
    : result t :=
  data ← read_excel self sheet;
  times' ← times_of_overheaders (publish_date self) (times self) (overheader_row data);
  Ok (mk (publish_date self) (url self) (workbook self) (dfs self) times').

(** [Dataset.retain_header] *)
Definition retain_header (header : string) : bool :=
  (Str.startswith header "Total NAATs"
   || Str.startswith header "NAAT positivity rate"
   || Str.startswith header "Total RT-PCR"
   || Str.startswith header "Viral (RT-PCR)")
  && (Str.find header "7 days" >? 0)%Z
  && (Str.find header " ages" <? 0)%Z.

(** [pd.DataFrame] of a [geo_id] column, one timestamp for every
    row, a [val] column and two unset columns. Both columns come
    from the same frame and carry its index, so they are aligned
    position by position. *)
Definition make_frame (geo : Series I G) (ts : date) (vals : Series I V)
    : list (Row I G V) :=
  zip_with (fun iv g => mkRow iv.1 g ts iv.2 None None)
           (zip (s_index vals) (s_values vals)) (s_values geo).

(** An element of [select]: the week qualifier found in the header,
    the header, and the header in lower case. *)
Definition selected : Type := string * string * string.

(** The list [select] of [_parse_sheet]. A pattern with one group
    makes [findall] list the group itself. *)
Definition select_headers (df : DataFrame I V) : result (list selected) :=
  mapM (fun h =>
          g ← first (findall RE_COLUMN_FROM_HEADER 1 h);
          Ok (item g 0, h, Str.lower h))
       (List.filter retain_header (df_columns df)).

(** The frame built for one selected header and one signal. *)
Definition signal_frame (self : t) (sheet : SheetSpec I V G0 G)
    (df : DataFrame I V) (sig : string) (si : selected)
    : result (list (Row I G V)) :=
  let geo := series_apply (geo_id_apply sheet) (geo_id_select sheet df) in
  dt ← match times self !! si.1.1 with
       | Some dt => Ok dt
       | None => Raise (KeyError si.1.1)
       end;
  ts ← DatasetTimes.__getitem__ dt sig;
  vals ← df_getitem df si.1.2;
  Ok (make_frame geo ts vals).

(** The body of the loop of [_parse_sheet] over [SIGNALS],
    [self.dfs] being the state. *)
Definition extract_signal (self : t) (sheet : SheetSpec I V G0 G)
    (df : DataFrame I V) (select : list selected)
    (dfs : gmap (string * string) (list (Row I G V))) (sig : string)
    : result (gmap (string * string) (list (Row I G V))) :=
  let sig_select := List.filter (fun s => (0 <=? Str.find s.2 sig)%Z) select in
  _ ← assert (0 <? length sig_select) ("No " +:+ sig +:+ " in any of the selected headers");
  frames ← mapM (signal_frame self sheet df sig) sig_select;
  Ok (<[(level sheet, sig) := concat frames]> dfs).

Definition scale_val (r : Row I G V) : Row I G V :=
  mkRow (r_label r) (geo_id r) (timestamp r) (truediv7 (val r)) (se r) (sample_size r).

(** [Dataset._parse_sheet] *)
Definition _parse_sheet (self : t) (sheet : SheetSpec I V G0 G) : result t :=
  data ← read_excel self sheet;
  let df := frame data in
  let df := match row_filter sheet with
            | Some f => df_loc df (f df)
            | None => df
            end in
  select ← select_headers df;
  dfs' ← foldM (extract_signal self sheet df select) (dfs self) SIGNALS;
  total ← match dfs' !! (level sheet, "total") with
          | Some table => Ok table
          | None => Raise (KeyError "total")
          end;
  Ok (mk (publish_date self) (url self) (workbook self)
         (<[(level sheet, "total") := map scale_val total]> dfs')
         (times self)).

(** The body of the loop of [__init__] over the sheets. *)
Definition parse_one_sheet (self : t) (si : string) : result t :=
  sheet ← match assoc si TRANSFORMS with
          | Some sheet => Ok sheet
          | None => Raise (AssertionError ("Bad sheet requested: " +:+ si))
          end;
  self' ← _parse_times_for_sheet self sheet;
  _parse_sheet self' sheet.

(** [Dataset.__init__]. The files of the input cache are the state:
    a map from file names to contents; [requests_get] is what the
    server answers for a URL. Logging is left out. *)
Definition __init__ (requests_get : string → Bytes) (fs : gmap string Bytes)
    (config : Config) (sheets : list string)
    : gmap string Bytes * result t :=
  match parse_publish_date (filename config) with
  | Raise e => (fs, Raise e)
  | Ok publish_date_ =>
      let url_ := DOWNLOAD_ATTACHMENT (assetId config) (quote_as_url (filename config)) in
      let fs' := match fs !! cached_filename config with
                 | Some _ => fs
                 | None => <[cached_filename config := requests_get url_]> fs
                 end in
      (fs',
       match fs' !! cached_filename config with
       | None => Raise (ValueError "No such file")
       | Some content =>
           workbook_ ← ExcelFile content;
           foldM parse_one_sheet (mk publish_date_ url_ workbook_ ∅ ∅) sheets
       end)
  end.

(** The default of the parameter [sheets]: [TRANSFORMS.keys()]. *)
Definition default_sheets : list string := map fst TRANSFORMS.

End Dataset.

Arguments t : clear implicits.

End Dataset.

(** ** The listing of reports and their download *)

(** The entries of [params['indicator']] that [pull.py] reads;
    [export_start_date] is optional, and a date when it is there. *)
Record IndicatorParams : Type := mkParams {
  input_cache : string;
  reports : string;
  export_start_date : option date
}.

(** An element of the list of attachments the server answers with:
    its keys [filename] and [assetId]. *)
Record Attachment : Type := mkAttachment {
  att_filename : string;
  att_assetId : string
}.

(** An element of the listing: the attachment with the keys
    [cached_filename] and [publish_date] added. *)
Record Report : Type := mkReport {
  report_config : Config;
  report_publish_date : date
}.

(** [as_cached_filename] *)
Definition as_cached_filename (params : IndicatorParams) (config : Attachment) : string :=
  Os.path_join (input_cache params)
               (att_assetId config +:+ "--" +:+ att_filename config).

(** [fetch_listing]. [attachments] is what
    [requests.get(DOWNLOAD_LISTING).json()['metadata']['attachments']]
    holds, [fs] the files of the input cache. *)
Definition fetch_listing {Bytes : Type} (attachments : list Attachment)
    (fs : gmap string Bytes) (params : IndicatorParams) : result (list Report) :=
  listing ←
    mapM (fun el =>
            publish_date ← Dataset.parse_publish_date (att_filename el);
            Ok (mkReport (mkConfig (att_filename el) (att_assetId el)
                                   (as_cached_filename params el))
                         publish_date))
         (List.filter (fun el => Str.endswith (att_filename el) "xlsx") attachments);
  listing ←
    (if String.eqb (reports params) "new" then
       Ok (List.filter
             (fun el => negb (bool_decide
                                (is_Some (fs !! cached_filename (report_config el)))))
             listing)
     else if (Str.find (reports params) "--" >? 0)%Z then
       let '(start_str, _, end_str) := Str.partition (reports params) "--" in
       start_date ← Datetime.strptime_Ymd start_str;
       end_date ← Datetime.strptime_Ymd end_str;
       Ok (List.filter
             (fun el => Datetime.leb start_date (report_publish_date el)
                        && Datetime.leb (report_publish_date el) end_date)
             listing)
     else Ok listing);
  Ok (match export_start_date params with
      | Some start => List.filter (fun el => Datetime.ltb start (report_publish_date el)) listing
      | None => listing
      end).

Section Pull.
Context {I V G0 G Bytes : Type}.
Context (SIGNALS : list string).
Context (TRANSFORMS : list (string * SheetSpec I V G0 G)).
Context (DOWNLOAD_ATTACHMENT : string → string → string).
Context (quote_as_url : string → string).
Context (truediv7 : V → V).
Context (ExcelFile : Bytes → result (gmap string (SheetData I V))).

(** [delphi_utils.GeoMapper] is outside the sources:
    [replace_geocode table] stands for the table
    [GeoMapper().replace_geocode] makes of the state table with its
    column [geo_id] renamed, the nation in [geo_id]. *)
Context (replace_geocode : list (Row I G V) → list (Row I G V)).

(** What the server answers for the URL of a report. *)
Context (requests_get : string → Bytes).

(** The inner loop of [download_and_parse]: the table of every key of
    [d.dfs] goes to the end of the list of its key. *)
Definition collect (datasets : gmap (string * string) (list (list (Row I G V))))
    (dfs : gmap (string * string) (list (Row I G V)))
    : gmap (string * string) (list (list (Row I G V))) :=
  map_fold (fun sig df datasets =>
              <[sig := default [] (datasets !! sig) ++ [df]]> datasets)
           datasets dfs.

(** The loop of [download_and_parse] over the listing, the files of
    the input cache and [datasets] being the state. *)
Fixpoint download_and_parse_from
    (datasets : gmap (string * string) (list (list (Row I G V))))
    (fs : gmap string Bytes) (listing : list Report)
    : gmap string Bytes * result (gmap (string * string) (list (list (Row I G V)))) :=
  match listing with
  | [] => (fs, Ok datasets)
  | item_ :: listing' =>
      match Dataset.__init__ SIGNALS TRANSFORMS DOWNLOAD_ATTACHMENT quote_as_url
              truediv7 ExcelFile requests_get fs (report_config item_)
              (Dataset.default_sheets TRANSFORMS) with
      | (fs', Ok d) => download_and_parse_from (collect datasets (Dataset.dfs d)) fs' listing'
      | (fs', Raise e) => (fs', Raise e)
      end
  end.

(** [download_and_parse] *)
Definition download_and_parse (fs : gmap string Bytes) (listing : list Report)
    : gmap string Bytes * result (gmap (string * string) (list (list (Row I G V)))) :=
  download_and_parse_from ∅ fs listing.

(** The body of the loop of [fetch_new_reports] over [SIGNALS]. The
    key of the [KeyError] is written as Python prints the pair. *)
Definition add_nation (ret : gmap (string * string) (list (Row I G V))) (sig : string)
    : result (gmap (string * string) (list (Row I G V))) :=
  match ret !! ("state", sig) with
  | Some df => Ok (<[("nation", sig) := replace_geocode df]> ret)
  | None => Raise (KeyError ("('state', '" +:+ sig +:+ "')"))
  end.

(** [fetch_new_reports] *)
Definition fetch_new_reports (attachments : list Attachment)
    (fs : gmap string Bytes) (params : IndicatorParams)
    : gmap string Bytes * result (gmap (string * string) (list (Row I G V))) :=
  match fetch_listing attachments fs params with
  | Raise e => (fs, Raise e)
  | Ok listing =>
      let (fs', parsed) := download_and_parse fs listing in
      (fs', datasets ← parsed;
            foldM add_nation ((fun lst => concat lst) <$> datasets) SIGNALS)
  end.

End Pull.

(** * Properties *)

(** ** Strings *)

Module StrFacts.
Import Str.

Lemma app_nil_l s : "" +:+ s = s.
Proof. reflexivity. Qed.

Lemma app_cons c s t : String c s +:+ t = String c (s +:+ t).
Proof. reflexivity. Qed.

Lemma app_nil_r s : s +:+ "" = s.
Proof. induction s as [|c s IH]; [done|]. by rewrite app_cons, IH. Qed.

Lemma app_assoc s t u : (s +:+ t) +:+ u = s +:+ t +:+ u.
Proof. induction s as [|c s IH]; [done|]. by rewrite !app_cons, IH. Qed.

Lemma length_app s t : String.length (s +:+ t) = String.length s + String.length t.
Proof. induction s as [|c s IH]; [done|]. rewrite app_cons. simpl. by rewrite IH. Qed.

Lemma forallb_app p s t : forallb p (s +:+ t) = forallb p s && forallb p t.
Proof.
  induction s as [|c s IH]; [done|].
  rewrite app_cons. simpl. rewrite IH. by destruct (p c).
Qed.

Lemma ascii_eqb_true a b : Ascii.eqb a b = true ↔ a = b.
Proof. apply Ascii.eqb_eq. Qed.

Lemma startswith_spec s p : startswith s p = true ↔ ∃ rest, s = p +:+ rest.
Proof.
  revert s. induction p as [|a p IH]; intros s; simpl.
  - split; [intros _; by exists s | done].
  - destruct s as [|b s].
    + split; [done | intros [rest Hrest]; by rewrite app_cons in Hrest].
    + rewrite andb_true_iff, ascii_eqb_true, IH. split.
      * intros [-> [rest ->]]. by exists rest.
      * intros [rest Hrest]. rewrite app_cons in Hrest.
        injection Hrest as -> ->. eauto.
Qed.

Lemma startswith_app p rest : startswith (p +:+ rest) p = true.
Proof. apply startswith_spec. by exists rest. Qed.

Lemma occurs_in_cons sub c s : occurs_in sub s → occurs_in sub (String c s).
Proof. intros (pre & post & ->). by exists (String c pre), post. Qed.

Lemma occurs_in_tail sub c s :
  occurs_in sub (String c s) → startswith (String c s) sub = false → occurs_in sub s.
Proof.
  intros (pre & post & Heq) Hno. destruct pre as [|a pre].
  - rewrite app_nil_l in Heq. rewrite Heq, startswith_app in Hno. done.
  - rewrite app_cons in Heq. injection Heq as _ ->. by exists pre, post.
Qed.

Lemma endswith_app s p : endswith (s +:+ p) p = true.
Proof.
  induction s as [|c s IH].
  - rewrite app_nil_l. destruct p; cbn [endswith]; by rewrite String.eqb_refl.
  - rewrite app_cons. cbn [endswith]. by rewrite IH, orb_true_r.
Qed.

(** [index_of] finds an occurrence, the first one, whenever there is
    one. *)
Lemma index_of_Some s sub i :
  index_of s sub = Some i →
  ∃ pre post, s = pre +:+ sub +:+ post ∧ String.length pre = i.
Proof.
  revert i. induction s as [|c s IH]; intros i; simpl.
  - destruct (startswith "" sub) eqn:Hs; [|done].
    intros [= <-]. apply startswith_spec in Hs as [rest ->]. by exists "", rest.
  - destruct (startswith (String c s) sub) eqn:Hs.
    + intros [= <-]. apply startswith_spec in Hs as [rest ->]. by exists "", rest.
    + destruct (index_of s sub) as [j|] eqn:Hj; [|done].
      intros [= <-]. destruct (IH j eq_refl) as (pre & post & -> & <-).
      by exists (String c pre), post.
Qed.

Lemma index_of_None s sub : index_of s sub = None ↔ ¬ occurs_in sub s.
Proof.
  induction s as [|c s IH]; simpl.
  - destruct (startswith "" sub) eqn:Hs.
    + split; [done|]. intros []. apply startswith_spec in Hs as [rest Hrest].
      by exists "", rest.
    + split; [|done]. intros _ (pre & post & Heq).
      destruct pre; [|done]. rewrite app_nil_l in Heq.
      by rewrite Heq, startswith_app in Hs.
  - destruct (startswith (String c s) sub) eqn:Hs.
    + split; [done|]. intros []. apply startswith_spec in Hs as [rest Hrest].
      by exists "", rest.
    + destruct (index_of s sub) as [j|] eqn:Hj; simpl.
      * split; [done|]. intros Hn. destruct Hn.
        apply occurs_in_cons. apply index_of_Some in Hj as (pre & post & -> & _).
        by exists pre, post.
      * split; [|done]. intros _ Hocc. apply IH; [done|].
        by apply occurs_in_tail in Hocc.
Qed.

Lemma index_of_zero s sub : index_of s sub = Some 0 ↔ startswith s sub = true.
Proof.
  destruct s as [|c s]; simpl.
  - by destruct (startswith "" sub).
  - destruct (startswith (String c s) sub); [done|].
    by destruct (index_of s sub).
Qed.

(** [s.find(sub) >= 0] says that [sub] occurs in [s]. *)
Lemma find_nonneg s sub : (0 <=? find s sub)%Z = true ↔ occurs_in sub s.
Proof.
  unfold find. destruct (index_of s sub) as [i|] eqn:Hi.
  - split; [|intros _; apply Z.leb_le; lia].
    intros _. apply index_of_Some in Hi as (pre & post & -> & _). by exists pre, post.
  - apply index_of_None in Hi. split; [done | by intros ?%Hi].
Qed.

(** [s.find(sub) < 0] says that [sub] does not occur in [s]. *)
Lemma find_negative s sub : (find s sub <? 0)%Z = true ↔ ¬ occurs_in sub s.
Proof.
  rewrite <-find_nonneg. rewrite Z.ltb_lt.
  destruct (0 <=? find s sub)%Z eqn:H.
  - apply Z.leb_le in H. split; [lia | by intros []].
  - apply Z.leb_gt in H. by split.
Qed.

(** [s.find(sub) > 0] says that [sub] occurs in [s] but not at its
    beginning. *)
Lemma find_positive s sub :
  (find s sub >? 0)%Z = true ↔ occurs_in sub s ∧ startswith s sub = false.
Proof.
  rewrite Z.gtb_ltb, Z.ltb_lt. unfold find.
  destruct (index_of s sub) as [i|] eqn:Hi.
  - pose proof (index_of_zero s sub) as Hz. split.
    + intros Hpos. split.
      * apply index_of_Some in Hi as (pre & post & -> & _). by exists pre, post.
      * destruct (startswith s sub); [|done].
        destruct Hz as [_ Hz]. rewrite Hz in Hi by done. injection Hi as <-. lia.
    + intros [_ Hs]. destruct i; [|lia].
      apply Hz in Hi. congruence.
  - apply index_of_None in Hi. split; [lia | by intros [?%Hi _]].
Qed.

End StrFacts.

(** ** Letter case *)

Module CaseFacts.
Import Str.

Definition is_lower_ascii (c : ascii) : bool :=
  (97 <=? code c)%N && (code c <=? 122)%N.

(** The capital of an ASCII small letter. *)
Definition upper_ascii (c : ascii) : ascii :=
  if is_lower_ascii c then ascii_of_N (code c - 32) else c.

(** [key] is [word] up to the case of its letters: each character is
    the one of [word] or its capital. *)
Inductive casing_of : string → string → Prop :=
| casing_nil : casing_of "" ""
| casing_cons a b word key :
    b = a ∨ b = upper_ascii a →
    casing_of word key →
    casing_of (String a word) (String b key).

Lemma code_inj a b : code a = code b → a = b.
Proof.
  unfold code. intros H.
  rewrite <-(ascii_N_embedding a), <-(ascii_N_embedding b). by rewrite H.
Qed.

Lemma code_of_N n : (n < 256)%N → code (ascii_of_N n) = n.
Proof. apply N_ascii_embedding. Qed.

Lemma code_bounded c : (code c < 256)%N.
Proof. apply N_ascii_bounded. Qed.

Lemma lower_char_small a b :
  is_lower_ascii a = true →
  lower_char b = a ↔ b = a ∨ b = upper_ascii a.
Proof.
  unfold is_lower_ascii, upper_ascii, is_lower_ascii. intros Ha. rewrite Ha.
  apply andb_true_iff in Ha as [Ha1%N.leb_le Ha2%N.leb_le].
  pose proof (code_bounded b) as Hb.
  unfold lower_char. cbv zeta.
  destruct (((65 <=? code b)%N && (code b <=? 90)%N)
            || ((192 <=? code b)%N && (code b <=? 222)%N && negb (code b =? 215)%N))
    eqn:Hcap.
  - apply orb_true_iff in Hcap as [Hcap|Hcap].
    + apply andb_true_iff in Hcap as [H1%N.leb_le H2%N.leb_le]. split.
      * intros <-. right. rewrite code_of_N by lia.
        apply code_inj. rewrite code_of_N by lia. lia.
      * intros [->| ->]; [lia|].
        rewrite code_of_N by lia. apply code_inj. rewrite code_of_N by lia. lia.
    + apply andb_true_iff in Hcap as [Hcap _].
      apply andb_true_iff in Hcap as [H1%N.leb_le H2%N.leb_le]. split.
      * intros <-. rewrite code_of_N in Ha2 by lia. lia.
      * intros [->| ->]; [lia|]. rewrite code_of_N in H1 by lia. lia.
  - split; [by left|]. intros [->| ->]; [done|].
    apply orb_false_iff in Hcap as [Hcap _].
    rewrite code_of_N in Hcap by lia.
    apply andb_false_iff in Hcap as [H%N.leb_gt|H%N.leb_gt]; lia.
Qed.

(** For a word of ASCII small letters, [key.lower() == word] holds
    of the casings of [word] and of nothing else. *)
Lemma lower_eq_casing word key :
  forallb is_lower_ascii word = true →
  lower key = word ↔ casing_of word key.
Proof.
  revert key. induction word as [|a word IH]; intros key Hw.
  - split.
    + destruct key; [constructor | done].
    + by inversion 1.
  - simpl in Hw. apply andb_true_iff in Hw as [Ha Hw]. split.
    + destruct key as [|b key]; [done|]. simpl. intros [= Hb Hk].
      constructor; [by apply lower_char_small | by apply IH].
    + inversion 1 as [|? b ? key' Hb Hk]; subst. simpl. f_equal.
      * by apply lower_char_small.
      * by apply IH.
Qed.

End CaseFacts.

(** ** The matcher against the language of a pattern *)

Module ReFacts.
Import Str StrFacts.

(** [Matches r w c c']: the pattern [r] can match exactly the text
    [w], turning the captures [c] into [c']. It says which texts a
    pattern matches, with no word on which match comes first. *)
Inductive Matches : regex → string → captures → captures → Prop :=
| M_Eps c : Matches Eps "" c c
| M_Lit l c : Matches (Lit l) l c c
| M_Cls p ch c : p ch = true → Matches (Cls p) (String ch "") c c
| M_Star p w c : forallb p w = true → Matches (StarCls p) w c c
| M_Rep p lo hi w c :
    forallb p w = true → lo ≤ String.length w ≤ hi →
    Matches (RepCls p lo hi) w c c
| M_Seq r1 r2 w1 w2 c c1 c2 :
    Matches r1 w1 c c1 → Matches r2 w2 c1 c2 →
    Matches (Seq r1 r2) (w1 +:+ w2) c c2
| M_OptSome r w c c' : Matches r w c c' → Matches (Opt r) w c c'
| M_OptNone r c : Matches (Opt r) "" c c
| M_Grp i r w c c' : Matches r w c c' → Matches (Grp i r) w c ((i, w) :: c').

Lemma substring_prefix w s : substring 0 (String.length w) (w +:+ s) = w.
Proof.
  induction w as [|c w IH]; simpl.
  - by destruct ("" +:+ s).
  - by rewrite IH.
Qed.

Lemma consumed_app w s : consumed (w +:+ s) s = w.
Proof.
  unfold consumed. rewrite length_app.
  replace (String.length w + String.length s - String.length s)
    with (String.length w) by lia.
  apply substring_prefix.
Qed.

Lemma strip_prefix_Some l s s' : strip_prefix l s = Some s' ↔ s = l +:+ s'.
Proof.
  revert s. induction l as [|a l IH]; intros s; simpl.
  - rewrite app_nil_l. split; congruence.
  - destruct s as [|b s]; [by rewrite app_cons|].
    rewrite app_cons. destruct (Ascii.eqb_spec a b) as [->|Hne].
    + rewrite IH. split; congruence.
    + split; [done | congruence].
Qed.

Section Engine.
Context {A : Type}.
Implicit Types (k : string → option A).

(** *** Soundness: what the matcher finds is in the language *)

Lemma star_greedy_sound p s k a :
  star_greedy p s k = Some a →
  ∃ w s', s = w +:+ s' ∧ forallb p w = true ∧ k s' = Some a.
Proof.
  revert a. induction s as [|c s IH]; intros a; simpl.
  - intros Hk. by exists "", "".
  - destruct (p c) eqn:Hc; [|intros Hk; by exists "", (String c s)].
    destruct (star_greedy p s k) as [a'|] eqn:Hrec.
    + intros [= <-]. destruct (IH a' eq_refl) as (w & s' & -> & Hw & Hk).
      exists (String c w), s'. simpl. by rewrite Hc, Hw.
    + intros Hk. by exists "", (String c s).
Qed.

Lemma stop_here_sound lo s k a :
  stop_here lo s k = Some a → lo = 0 ∧ k s = Some a.
Proof. by destruct lo. Qed.

Lemma rep_greedy_sound p lo hi s k a :
  rep_greedy p lo hi s k = Some a →
  ∃ w s', s = w +:+ s' ∧ forallb p w = true
          ∧ lo ≤ String.length w ≤ hi ∧ k s' = Some a.
Proof.
  revert lo s a. induction hi as [|hi IH]; intros lo s a; simpl.
  - intros [-> Hk]%stop_here_sound. exists "", s. simpl. repeat split; [lia..|done].
  - assert (stop_here lo s k = Some a →
            ∃ w s', s = w +:+ s' ∧ forallb p w = true
                    ∧ lo ≤ String.length w ≤ S hi ∧ k s' = Some a) as Hstop.
    { intros [-> Hk]%stop_here_sound. exists "", s. simpl.
      repeat split; [lia..|done]. }
    destruct s as [|c s]; [done|].
    destruct (p c) eqn:Hc; [|done].
    destruct (rep_greedy p (Nat.pred lo) hi s k) as [a'|] eqn:Hrec; [|done].
    intros [= <-].
    destruct (IH _ _ _ Hrec) as (w & s' & -> & Hw & Hlen & Hk).
    exists (String c w), s'. simpl. rewrite Hc, Hw.
    repeat split; [lia..|done].
Qed.

Lemma rmatch_sound r s caps (k : string → captures → option A) a :
  rmatch r s caps k = Some a →
  ∃ w s' caps', s = w +:+ s' ∧ Matches r w caps caps' ∧ k s' caps' = Some a.
Proof.
  revert s caps k a.
  induction r as [|l|p|p|p lo hi|r1 IH1 r2 IH2|r IH|i r IH];
    intros s caps k a; simpl.
  - intros Hk. exists "", s, caps. split_and!; [done|constructor|done].
  - destruct (strip_prefix l s) as [s'|] eqn:Hs; [|done].
    apply strip_prefix_Some in Hs as ->. intros Hk.
    exists l, s', caps. split_and!; [done|constructor|done].
  - destruct s as [|c s]; [done|]. destruct (p c) eqn:Hc; [|done].
    intros Hk. exists (String c ""), s, caps.
    split_and!; [done|by constructor|done].
  - intros (w & s' & -> & Hw & Hk)%star_greedy_sound.
    exists w, s', caps. split_and!; [done|by constructor|done].
  - intros (w & s' & -> & Hw & Hlen & Hk)%rep_greedy_sound.
    exists w, s', caps. split_and!; [done|by constructor|done].
  - intros (w1 & s1 & c1 & -> & Hm1 & Hk1)%IH1.
    apply IH2 in Hk1 as (w2 & s2 & c2 & -> & Hm2 & Hk2).
    exists (w1 +:+ w2), s2, c2. rewrite app_assoc.
    split_and!; [done|by econstructor|done].
  - destruct (rmatch r s caps k) as [a'|] eqn:Hr.
    + intros [= <-]. apply IH in Hr as (w & s' & c' & -> & Hm & Hk).
      exists w, s', c'. split_and!; [done|by constructor|done].
    + intros Hk. exists "", s, caps. split_and!; [done|apply M_OptNone|done].
  - intros (w & s' & c' & -> & Hm & Hk)%IH. rewrite consumed_app in Hk.
    exists w, s', ((i, w) :: c'). split_and!; [done|by constructor|done].
Qed.

(** *** Completeness: the matcher finds a match when there is one *)

Lemma star_greedy_fallback p s k :
  is_Some (k s) → is_Some (star_greedy p s k).
Proof.
  intros Hk. destruct s as [|c s]; simpl; [done|].
  destruct (p c); [|done]. by destruct (star_greedy p s k).
Qed.

Lemma star_greedy_complete p w s k :
  forallb p w = true → is_Some (k s) → is_Some (star_greedy p (w +:+ s) k).
Proof.
  intros Hw Hk. induction w as [|c w IH].
  - by apply star_greedy_fallback.
  - simpl in Hw. apply andb_true_iff in Hw as [Hc Hw].
    rewrite app_cons. simpl. rewrite Hc.
    destruct (IH Hw) as [a Ha]. by rewrite Ha.
Qed.

Lemma rep_greedy_complete p lo hi w s k :
  forallb p w = true → lo ≤ String.length w ≤ hi → is_Some (k s) →
  is_Some (rep_greedy p lo hi (w +:+ s) k).
Proof.
  intros Hw Hlen Hk. revert lo hi Hw Hlen.
  induction w as [|c w IH]; intros lo hi Hw Hlen.
  - simpl in Hlen. assert (lo = 0) as -> by lia. rewrite app_nil_l.
    destruct hi as [|hi]; simpl; [done|].
    destruct s as [|c s]; [done|]. destruct (p c); [|done].
    by destruct (rep_greedy p 0 hi s k).
  - simpl in Hw, Hlen. apply andb_true_iff in Hw as [Hc Hw].
    destruct hi as [|hi]; [lia|].
    rewrite app_cons. simpl. rewrite Hc.
    destruct (IH (Nat.pred lo) hi Hw ltac:(lia)) as [a Ha]. by rewrite Ha.
Qed.

Lemma rmatch_complete r w caps caps' :
  Matches r w caps caps' →
  ∀ s (k : string → captures → option A),
    is_Some (k s caps') → is_Some (rmatch r (w +:+ s) caps k).
Proof.
  induction 1 as [c|l c|p ch c Hp|p w c Hw|p lo hi w c Hw Hlen
                 |r1 r2 w1 w2 c c1 c2 _ IH1 _ IH2|r w c c' _ IH|r c
                 |i r w c c' _ IH]; intros s k Hk; simpl.
  - done.
  - by rewrite (proj2 (strip_prefix_Some l (l +:+ s) s) eq_refl).
  - rewrite ?app_cons; simpl. rewrite Hp. exact Hk.
  - by apply star_greedy_complete.
  - by apply rep_greedy_complete.
  - rewrite app_assoc. apply IH1. by apply IH2.
  - destruct (IH s k Hk) as [a Ha]. by rewrite Ha.
  - rewrite app_nil_l. by destruct (rmatch r s c k).
  - apply IH. by rewrite consumed_app.
Qed.
End Engine.

(** *** [match] and [findall] *)

Lemma match_sound r s caps rest :
  match_ r s = Some (caps, rest) →
  ∃ w, s = w +:+ rest ∧ Matches r w [] caps.
Proof.
  unfold match_. intros (w & s' & c' & -> & Hm & [= <- <-])%rmatch_sound.
  by exists w.
Qed.

Lemma match_complete r w caps rest :
  Matches r w [] caps → is_Some (match_ r (w +:+ rest)).
Proof. intros Hm. unfold match_. by eapply rmatch_complete. Qed.

(** The texts a scan for [r] can start from: [s] and what is left of
    it after each of its characters. *)
Lemma findall_from_first fuel r n s g :
  first (findall_from fuel r n s) = Ok g →
  ∃ pre t caps rest,
    s = pre +:+ t ∧ match_ r t = Some (caps, rest) ∧ g = groups n caps.
Proof.
  revert s. induction fuel as [|fuel IH]; intros s; simpl; [done|].
  destruct (match_ r s) as [[caps rest]|] eqn:Hm.
  - intros [= <-]. by exists "", s, caps, rest.
  - destruct s as [|c s]; [done|].
    intros (pre & t & caps & rest & -> & Ht & ->)%IH.
    by exists (String c pre), t, caps, rest.
Qed.

Lemma findall_first_sound r n s g :
  first (findall r n s) = Ok g →
  ∃ pre w rest caps,
    s = pre +:+ w +:+ rest ∧ Matches r w [] caps ∧ g = groups n caps.
Proof.
  intros (pre & t & caps & rest & -> & Ht & ->)%findall_from_first.
  apply match_sound in Ht as (w & -> & Hm). by exists pre, w, rest, caps.
Qed.

Lemma findall_from_complete fuel r n pre t :
  String.length pre < fuel → is_Some (match_ r t) →
  is_ok (first (findall_from fuel r n (pre +:+ t))) = true.
Proof.
  revert pre. induction fuel as [|fuel IH]; intros pre Hfuel Ht; [lia|].
  simpl. destruct (match_ r (pre +:+ t)) as [[caps rest]|] eqn:Hm; [done|].
  destruct pre as [|c pre].
  - rewrite app_nil_l in Hm. rewrite Hm in Ht. by destruct Ht.
  - rewrite app_cons. apply IH; [simpl in Hfuel; lia | done].
Qed.

Lemma findall_first_complete r n pre w rest caps :
  Matches r w [] caps →
  is_ok (first (findall r n (pre +:+ w +:+ rest))) = true.
Proof.
  intros Hm. unfold findall. apply findall_from_complete.
  - rewrite length_app. lia.
  - by eapply match_complete.
Qed.

(** When [match] succeeds, the first element of [findall] is that
    match. *)
Lemma findall_first_of_match r n s caps rest :
  match_ r s = Some (caps, rest) →
  first (findall r n s) = Ok (groups n caps).
Proof. intros Hm. unfold findall. simpl. by rewrite Hm. Qed.

End ReFacts.

(** ** Numerals and dates *)

Module DateFacts.
Import Str StrFacts Datetime.

(** [int(str(n)) == n] *)
Lemma to_int_of_int z : to_int (of_int z) = Ok z.
Proof.
  unfold to_int, of_int. rewrite NilZero.isi.
  - by rewrite DecimalZ.of_to.
  - destruct z as [|p|p]; simpl; [done| |done].
    intros [= H]. by apply DecimalPos.Unsigned.to_uint_nonnil in H.
  - destruct z as [|p|p]; simpl; [done|done|].
    intros [= H]. by apply DecimalPos.Unsigned.to_uint_nonnil in H.
Qed.

Lemma string_of_uint_digits u :
  forallb is_digit (NilEmpty.string_of_uint u) = true.
Proof. induction u; simpl; by rewrite ?IHu. Qed.

Lemma nilzero_string_of_uint_digits u :
  forallb is_digit (NilZero.string_of_uint u) = true.
Proof. destruct u; try done; apply (string_of_uint_digits (_ u)). Qed.

(** [str(n)] is made of digits, after a minus sign when [n] is
    negative. *)
Lemma of_int_shape z :
  forallb is_digit (of_int z) = true ∨ ∃ s, of_int z = String "-" s.
Proof.
  unfold of_int. destruct z as [|p|p]; simpl.
  - by left.
  - left. apply nilzero_string_of_uint_digits.
  - right. eauto.
Qed.

(** The year [strptime] reads back from a text that [str(y)] begins
    is [y]. *)
Lemma year_prefix_of_int y rest y' s1 :
  year_prefix (of_int y +:+ "-" +:+ rest) = Some (y', String "-" s1) → y' = y.
Proof.
  pose proof (to_int_of_int y) as Hround.
  destruct (of_int_shape y) as [Hdig|[s Hs]].
  - assert (is_digit "-" = false) as Hminus by done.
    destruct (of_int y) as [|a [|b [|c [|d [|e t]]]]];
      rewrite ?app_cons, ?app_nil_l; unfold year_prefix.
    + destruct rest as [|? [|? [|? ?]]]; try done; by rewrite Hminus.
    + destruct rest as [|? [|? ?]]; try done; by rewrite Hminus, andb_false_r.
    + destruct rest as [|? ?]; try done; by rewrite Hminus, andb_false_r.
    + by rewrite Hminus, andb_false_r.
    + destruct (is_digit a && is_digit b && is_digit c && is_digit d); [|done].
      rewrite Hround. by intros [= <- _].
    + destruct (is_digit a && is_digit b && is_digit c && is_digit d); [|done].
      destruct (to_int (String a (String b (String c (String d ""))))); [|done].
      intros [= _ -> _]. cbn [forallb] in Hdig. rewrite Hminus in Hdig.
      by rewrite !andb_false_r in Hdig.
  - rewrite Hs, app_cons. unfold year_prefix.
    by destruct (s +:+ "-" +:+ rest) as [|? [|? [|? ?]]].
Qed.

Lemma date_new_Ok y m d dt :
  date_new y m d = Ok dt → dt = Date y m d ∧ valid y m d = true.
Proof.
  unfold date_new, valid.
  destruct (1 <=? y)%Z, (y <=? 9999)%Z, (1 <=? m)%Z, (m <=? 12)%Z,
    (1 <=? d)%Z, (d <=? days_in_month y m)%Z; simpl; try done.
  by intros [= <-].
Qed.

Lemma date_new_valid y m d : valid y m d = true → date_new y m d = Ok (Date y m d).
Proof.
  unfold date_new, valid.
  by destruct (1 <=? y)%Z, (y <=? 9999)%Z, (1 <=? m)%Z, (m <=? 12)%Z,
    (1 <=? d)%Z, (d <=? days_in_month y m)%Z.
Qed.

Lemma strptime_YBd_year y rest dt :
  strptime_YBd (of_int y +:+ "-" +:+ rest) = Ok dt → year dt = y.
Proof.
  unfold strptime_YBd.
  destruct (year_prefix _) as [[y' [|c s1]]|] eqn:Hy; [done| |done].
  destruct (Ascii.eqb_spec c "-") as [->|Hne].
  - apply year_prefix_of_int in Hy as ->.
    destruct (month_prefix _ _ _) as [[m [|c' s2]]|]; [done| |done].
    destruct c' as [[] [] [] [] [] [] [] []]; try done.
    destruct (day_prefix s2) as [[d [|? ?]]|]; [|done..].
    by intros [-> _]%date_new_Ok.
  - destruct c as [[] [] [] [] [] [] [] []]; done.
Qed.

End DateFacts.

(** ** Results *)

Lemma bind_Ok {A B} (r : result A) (f : A → result B) b :
  r ≫= f = Ok b ↔ ∃ a, r = Ok a ∧ f a = Ok b.
Proof.
  destruct r as [a|e]; simpl.
  - split; [by exists a | by intros (? & [= <-] & ?)].
  - split; [done | by intros (? & ? & ?)].
Qed.

Lemma bind_Raise {A B} (r : result A) (f : A → result B) e :
  r = Raise e → r ≫= f = Raise e.
Proof. by intros ->. Qed.

Lemma assert_Ok cond msg u : assert cond msg = Ok u ↔ cond = true.
Proof. destruct cond, u; simpl; split; done. Qed.

Lemma raises_not_Ok {A} (r : result A) : raises r ↔ ∀ a, r ≠ Ok a.
Proof.
  destruct r as [a|e]; split.
  - by intros [? ?].
  - intros H. by destruct (H a).
  - done.
  - intros _. by exists e.
Qed.

(** ** [DatasetTimes.from_header]: the year of a reference date *)

(** The year [DatasetTimes.as_date] gives to a month, for a report published on
    [publish_date]. *)
Definition year_rule (publish_date : date) (month_numeric : Z) : Z :=
  if (month_numeric >? month publish_date)%Z
  then (year publish_date - 1)%Z
  else year publish_date.

Lemma as_date_year header publish_date sub_result d :
  DatasetTimes.as_date header publish_date sub_result = Ok d →
  ∃ month_numeric,
    Datetime.strptime_B (DatasetTimes.range_month sub_result) = Ok month_numeric
    ∧ year d = year_rule publish_date month_numeric.
Proof.
  unfold DatasetTimes.as_date. intros (_ & _ & (k & Hk & Hd)%bind_Ok)%bind_Ok.
  exists k. split; [done|]. by apply DateFacts.strptime_YBd_year in Hd.
Qed.

(** C1. Whenever [DatasetTimes.from_header] resolves the reference dates of a
    header, the year of each one is the publish year less one when the
    number of the month parsed for it is greater than the publish
    month, and the publish year otherwise. The month is the one
    [strptime] finds for the month word of the range; the total
    reference date is the positivity one when the header names no
    month for a second range. *)
Theorem from_header_year_inference header publish_date dt :
  DatasetTimes.from_header header publish_date = Ok dt →
  ∃ g,
    first (findall RE_DATE_FROM_HEADER 10 header) = Ok g
    ∧ (∃ month_numeric,
         Datetime.strptime_B (DatasetTimes.range_month (slice 1 5 g)) = Ok month_numeric
         ∧ year (positivity_reference_date dt) = year_rule publish_date month_numeric)
    ∧ (if Str.truthy (item g 6)
       then ∃ month_numeric,
              Datetime.strptime_B (DatasetTimes.range_month (slice 6 10 g)) = Ok month_numeric
              ∧ year (total_reference_date dt) = year_rule publish_date month_numeric
       else total_reference_date dt = positivity_reference_date dt).
Proof.
  unfold DatasetTimes.from_header.
  intros (_ & _ & (g & Hg & (pos & Hpos & (tot & Htot & [= <-])%bind_Ok)%bind_Ok)%bind_Ok)%bind_Ok.
  exists g. split; [done|]. simpl. split.
  - by eapply as_date_year.
  - destruct (Str.truthy (item g 6)).
    + by eapply as_date_year.
    + by injection Htot.
Qed.

(** The header of a range in December, in a report published on
    2021-01-03: the reference date is in 2020. *)
Lemma from_header_year_inference_witness :
  DatasetTimes.from_header "TESTING: LAST WEEK (December 26-31)" (Date 2021 1 3)
    = Ok (mkDatasetTimes "last" (Date 2020 12 31) (Date 2020 12 31))
  ∧ ∃ g,
      first (findall RE_DATE_FROM_HEADER 10 "TESTING: LAST WEEK (December 26-31)") = Ok g
      ∧ (∃ month_numeric,
           Datetime.strptime_B (DatasetTimes.range_month (slice 1 5 g)) = Ok month_numeric
           ∧ 2020%Z = year_rule (Date 2021 1 3) month_numeric)
      ∧ (if Str.truthy (item g 6)
         then ∃ month_numeric,
                Datetime.strptime_B (DatasetTimes.range_month (slice 6 10 g)) = Ok month_numeric
                ∧ 2020%Z = year_rule (Date 2021 1 3) month_numeric
         else Date 2020 12 31 = Date 2020 12 31).
Proof.
  split; [by vm_compute|].
  apply (from_header_year_inference "TESTING: LAST WEEK (December 26-31)"
           (Date 2021 1 3) (mkDatasetTimes "last" (Date 2020 12 31) (Date 2020 12 31))).
  by vm_compute.
Defined.

Example from_header_across_new_year :
  DatasetTimes.from_header "TESTING: LAST WEEK (December 27-January 2)" (Date 2021 1 5)
  = Ok (mkDatasetTimes "last" (Date 2021 1 2) (Date 2021 1 2)).
Proof. by vm_compute. Qed.

Example from_header_viral_label :
  DatasetTimes.from_header "VIRAL (RT-PCR) LAB TESTING: PREVIOUS WEEK (August 24-30)"
    (Date 2020 9 3)
  = Ok (mkDatasetTimes "previous" (Date 2020 8 30) (Date 2020 8 30)).
Proof. by vm_compute. Qed.

Example from_header_no_template :
  DatasetTimes.from_header "TESTING: % CHANGE FROM PREVIOUS WEEK" (Date 2021 11 4)
  = Raise (AssertionError
             "Couldn't find reference date in header 'TESTING: % CHANGE FROM PREVIOUS WEEK'").
Proof. by vm_compute. Qed.

Example from_header_short_month :
  DatasetTimes.from_header "TESTING: LAST WEEK (Oct 24-30)" (Date 2021 11 4)
  = Raise (ValueError "time data 'Oct' does not match format '%B'").
Proof. by vm_compute. Qed.

(** ** [DatasetTimes.__getitem__] *)

(** C10. The lookup by key ignores the case of the key: every casing
    of [positivity] gives the positivity reference date, every casing
    of [total] the total reference date, and any other key raises a
    [ValueError] whose message quotes the key. *)
Theorem getitem_case_insensitive (self : DatasetTimes) (key : string) :
  (CaseFacts.casing_of "positivity" key →
     DatasetTimes.__getitem__ self key = Ok (positivity_reference_date self))
  ∧ (CaseFacts.casing_of "total" key →
     DatasetTimes.__getitem__ self key = Ok (total_reference_date self))
  ∧ (¬ CaseFacts.casing_of "positivity" key → ¬ CaseFacts.casing_of "total" key →
     DatasetTimes.__getitem__ self key
     = Raise (ValueError ("Bad reference date type request '" +:+ key
                          +:+ "'; need 'total' or 'positivity'"))).
Proof.
  unfold DatasetTimes.__getitem__.
  rewrite <-!CaseFacts.lower_eq_casing by done.
  destruct (String.eqb_spec (Str.lower key) "positivity") as [Hp|Hp];
    destruct (String.eqb_spec (Str.lower key) "total") as [Ht|Ht];
    split_and!; try done; congruence.
Qed.

(** ** [Dataset.retain_header] *)

(** The labels a retained header can begin with. *)
Definition signal_prefixes : list string :=
  [ "Total NAATs"; "NAAT positivity rate"; "Total RT-PCR"; "Viral (RT-PCR)" ]%string.

(** C6. A detail header is retained exactly when it begins with one of
    the four signal labels, contains [7 days] and does not contain
    [ ages]; a header that contains [ ages] is never retained. *)
Theorem retain_header_iff (header : string) :
  (Dataset.retain_header header = true ↔
     (∃ p, p ∈ signal_prefixes ∧ ∃ rest, header = p +:+ rest)
     ∧ Str.occurs_in "7 days" header
     ∧ ¬ Str.occurs_in " ages" header)
  ∧ (Str.occurs_in " ages" header → Dataset.retain_header header = false).
Proof.
  assert (Dataset.retain_header header = true ↔
     (∃ p, p ∈ signal_prefixes ∧ ∃ rest, header = p +:+ rest)
     ∧ Str.occurs_in "7 days" header
     ∧ ¬ Str.occurs_in " ages" header) as Hiff.
  { unfold Dataset.retain_header.
    rewrite !andb_true_iff, !orb_true_iff, StrFacts.find_positive,
      StrFacts.find_negative, !StrFacts.startswith_spec.
    unfold signal_prefixes. split.
    - intros [[Hpre [Hocc _]] Hages]. split_and!; [|done..].
      destruct Hpre as [[[H|H]|H]|H];
        [exists "Total NAATs"|exists "NAAT positivity rate"
        |exists "Total RT-PCR"|exists "Viral (RT-PCR)"];
        (split; [by repeat constructor|exact H]).
    - intros [(p & Hp & rest & ->) [Hocc Hages]]. split_and!; [|done| |done].
      + set_unfold. destruct Hp as [->|[->|[->|[->|[]]]]]; eauto.
      + set_unfold. by destruct Hp as [->|[->|[->|[->|[]]]]]. }
  split; [done|].
  intros Hages. apply not_true_is_false. intros Hr.
  apply Hiff in Hr as (_ & _ & Hn). by apply Hn.
Qed.

(** ** Digit groups *)

Module DigitFacts.
Import Str StrFacts Datetime.

(** The number a text of decimal digits denotes. *)
Fixpoint decimal_acc (acc : Z) (s : string) : Z :=
  match s with
  | EmptyString => acc
  | String c s' => decimal_acc (10 * acc + digit_value c) s'
  end.

Definition decimal_value (s : string) : Z := decimal_acc 0 s.

Fixpoint uint_value (u : Decimal.uint) (acc : Z) : Z :=
  match u with
  | Decimal.Nil => acc
  | Decimal.D0 u' => uint_value u' (10 * acc)
  | Decimal.D1 u' => uint_value u' (10 * acc + 1)
  | Decimal.D2 u' => uint_value u' (10 * acc + 2)
  | Decimal.D3 u' => uint_value u' (10 * acc + 3)
  | Decimal.D4 u' => uint_value u' (10 * acc + 4)
  | Decimal.D5 u' => uint_value u' (10 * acc + 5)
  | Decimal.D6 u' => uint_value u' (10 * acc + 6)
  | Decimal.D7 u' => uint_value u' (10 * acc + 7)
  | Decimal.D8 u' => uint_value u' (10 * acc + 8)
  | Decimal.D9 u' => uint_value u' (10 * acc + 9)
  end%Z.

Lemma of_uint_acc_value u acc :
  Z.pos (Pos.of_uint_acc u acc) = uint_value u (Z.pos acc).
Proof.
  revert acc. induction u as [|u IH|u IH|u IH|u IH|u IH|u IH|u IH|u IH|u IH|u IH];
    intros acc; simpl; [done|rewrite IH; f_equal; lia..].
Qed.

Lemma of_uint_value u : Z.of_uint u = uint_value u 0.
Proof.
  unfold Z.of_uint.
  induction u as [|u IH|u IH|u IH|u IH|u IH|u IH|u IH|u IH|u IH|u IH];
    simpl; [done|exact IH|by rewrite of_uint_acc_value..].
Qed.

Lemma uint_of_char_digit c u :
  is_digit c = true →
  ∃ u', uint_of_char c (Some u) = Some u'
        ∧ ∀ acc, uint_value u' acc = uint_value u (10 * acc + digit_value c)%Z.
Proof.
  destruct c as [[] [] [] [] [] [] [] []]; intros Hc; try done;
    eexists; (split; [reflexivity|]); intros acc; simpl; f_equal;
    unfold digit_value; simpl; lia.
Qed.

Lemma uint_of_string_value s :
  forallb is_digit s = true →
  ∃ u, NilEmpty.uint_of_string s = Some u
       ∧ ∀ acc, uint_value u acc = decimal_acc acc s.
Proof.
  induction s as [|c s IH]; simpl.
  - intros _. by exists Decimal.Nil.
  - intros [Hc Hs]%andb_true_iff. destruct (IH Hs) as (u & -> & Hu).
    destruct (uint_of_char_digit c u Hc) as (u' & -> & Hu').
    exists u'. split; [done|]. intros acc. by rewrite Hu', Hu.
Qed.

(** [int] of a group of digits is the number the digits denote. *)
Lemma to_int_digits s :
  s ≠ "" → forallb is_digit s = true → to_int s = Ok (decimal_value s).
Proof.
  intros Hne Hs. destruct (uint_of_string_value s Hs) as (u & Hu & Hval).
  unfold to_int, NilZero.int_of_string. destruct s as [|c s]; [done|].
  destruct (Ascii.eqb_spec c "-") as [->|_]; [done|].
  unfold NilZero.uint_of_string. rewrite Hu. simpl.
  by rewrite of_uint_value, Hval.
Qed.

(** A group of [n] digits. *)
Definition digit_group (n : nat) (s : string) : Prop :=
  forallb is_digit s = true ∧ String.length s = n.

Lemma digit_group_nonempty n s : digit_group (S n) s → s ≠ "".
Proof. by intros [_ Hlen] ->. Qed.

End DigitFacts.

(** ** Taking a match apart *)

Module ReInv.
Import Str StrFacts ReFacts.

Lemma Matches_Seq r1 r2 w c c2 :
  Matches (Seq r1 r2) w c c2 →
  ∃ w1 w2 c1, w = w1 +:+ w2 ∧ Matches r1 w1 c c1 ∧ Matches r2 w2 c1 c2.
Proof. inversion 1; subst; eauto 10. Qed.

Lemma Matches_Lit l w c c' : Matches (Lit l) w c c' → w = l ∧ c' = c.
Proof. by inversion 1. Qed.

Lemma Matches_Star p w c c' :
  Matches (StarCls p) w c c' → forallb p w = true ∧ c' = c.
Proof. by inversion 1. Qed.

Lemma Matches_Rep p lo hi w c c' :
  Matches (RepCls p lo hi) w c c' →
  forallb p w = true ∧ lo ≤ String.length w ≤ hi ∧ c' = c.
Proof. by inversion 1. Qed.

Lemma Matches_Grp i r w c c' :
  Matches (Grp i r) w c c' → ∃ c1, Matches r w c c1 ∧ c' = (i, w) :: c1.
Proof. inversion 1; subst; eauto. Qed.

Lemma Matches_Opt r w c c' :
  Matches (Opt r) w c c' → Matches r w c c' ∨ (w = "" ∧ c' = c).
Proof. inversion 1; subst; eauto. Qed.

(** Take every hypothesis [Matches r w c c'] apart, down to the
    character sets and literals of [r]. *)
Ltac inv_matches :=
  repeat match goal with
    | H : Matches (Seq _ _) _ _ _ |- _ =>
        apply Matches_Seq in H as (? & ? & ? & -> & ? & ?)
    | H : Matches (Lit _) _ _ _ |- _ => apply Matches_Lit in H as [-> ->]
    | H : Matches (StarCls _) _ _ _ |- _ => apply Matches_Star in H as [? ->]
    | H : Matches (RepCls _ _ _) _ _ _ |- _ => apply Matches_Rep in H as (? & ? & ->)
    | H : Matches (Grp _ _) _ _ _ |- _ => apply Matches_Grp in H as (? & ? & ->)
    | H : Matches (Opt _) _ _ _ |- _ => apply Matches_Opt in H as [?|[-> ->]]
    end.

End ReInv.

(** ** [Dataset.parse_publish_date] *)

(** The file name holds the digit groups [Y], [M] and [D], of four,
    two and two digits, one after the other, and further on the same
    line the letters [xlsx]. *)
Definition dated_filename (f Y M D : string) : Prop :=
  ∃ pre mid post,
    f = pre +:+ Y +:+ M +:+ D +:+ mid +:+ "xlsx" +:+ post
    ∧ DigitFacts.digit_group 4 Y ∧ DigitFacts.digit_group 2 M
    ∧ DigitFacts.digit_group 2 D
    ∧ Str.forallb Str.not_newline mid = true.

(** [datetime.date] of three digit groups. *)
Definition date_of_groups (Y M D : string) : result date :=
  Datetime.date_new (DigitFacts.decimal_value Y) (DigitFacts.decimal_value M)
                    (DigitFacts.decimal_value D).

Lemma findall_filename_sound f g :
  first (findall RE_DATE_FROM_FILENAME 3 f) = Ok g →
  ∃ Y M D, g = [Y; M; D] ∧ dated_filename f Y M D.
Proof.
  intros (pre & w & rest & caps & -> & Hm & ->)%ReFacts.findall_first_sound.
  unfold RE_DATE_FROM_FILENAME in Hm. ReInv.inv_matches.
  match goal with
  | HY : Str.forallb _ ?Y = true, HM : Str.forallb _ ?M = true,
    HD : Str.forallb _ ?D = true, _ : _ ≤ String.length ?Y ≤ 4,
    HlM : _ ≤ String.length ?M ≤ 2, HlD : _ ≤ String.length ?D ≤ 2,
    H0 : Str.forallb Str.not_newline ?w0 = true,
    H1 : Str.forallb Str.not_newline ?w1 = true
    |- context [?w0 +:+ ?Y +:+ ?M +:+ ?D +:+ ?w1 +:+ _] =>
      exists Y, M, D; split; [done|];
      exists (pre +:+ w0), w1, rest
  end.
  unfold DigitFacts.digit_group.
  split_and!; try done; try lia.
  by rewrite !StrFacts.app_assoc.
Qed.

Lemma findall_filename_complete f Y M D :
  dated_filename f Y M D →
  is_ok (first (findall RE_DATE_FROM_FILENAME 3 f)) = true.
Proof.
  intros (pre & mid & post & -> & [HY HlY] & [HM HlM] & [HD HlD] & Hmid).
  replace (pre +:+ Y +:+ M +:+ D +:+ mid +:+ "xlsx" +:+ post)
    with (pre +:+ ("" +:+ Y +:+ M +:+ D +:+ mid +:+ "xlsx") +:+ post)
    by (by rewrite !StrFacts.app_assoc).
  eapply ReFacts.findall_first_complete.
  unfold RE_DATE_FROM_FILENAME.
  repeat first
    [ eapply ReFacts.M_Seq | eapply ReFacts.M_Grp | eapply ReFacts.M_Lit
    | eapply ReFacts.M_Star | eapply ReFacts.M_Rep ]; try done; lia.
Qed.

(** C8, as the code has it. A date [parse_publish_date] returns has
    for year, month and day three digit groups of the file name, of
    four, two and two digits, that are followed on the same line by
    the letters [xlsx]; no dot is asked before them and the name may
    go on after them. When the name has such groups the result is
    [datetime.date] of the numbers of one such triple: that date, or a
    [ValueError] when the numbers are not a calendar date. When the
    name has no such groups it raises [IndexError]. It has no default
    date. *)
Theorem parse_publish_date_spec (report_filename : string) :
  (∀ d, Dataset.parse_publish_date report_filename = Ok d →
     ∃ Y M D,
       dated_filename report_filename Y M D
       ∧ d = Date (DigitFacts.decimal_value Y) (DigitFacts.decimal_value M)
                  (DigitFacts.decimal_value D)
       ∧ Datetime.valid (year d) (month d) (day d) = true)
  ∧ ((∃ Y M D, dated_filename report_filename Y M D) →
     ∃ Y M D,
       dated_filename report_filename Y M D
       ∧ Dataset.parse_publish_date report_filename = date_of_groups Y M D)
  ∧ ((∀ Y M D, ¬ dated_filename report_filename Y M D) →
     Dataset.parse_publish_date report_filename = Raise IndexError).
Proof.
  assert (∀ g, first (findall RE_DATE_FROM_FILENAME 3 report_filename) = Ok g →
            ∃ Y M D, dated_filename report_filename Y M D
              ∧ Dataset.parse_publish_date report_filename = date_of_groups Y M D)
    as Hfound.
  { intros g Hg. destruct (findall_filename_sound _ _ Hg) as (Y & M & D & -> & Hf).
    exists Y, M, D. split; [done|].
    destruct Hf as (_ & _ & _ & _ & HY & HM & HD & _).
    unfold Dataset.parse_publish_date. rewrite Hg. simpl. unfold item. simpl.
    rewrite !DigitFacts.to_int_digits;
      eauto using DigitFacts.digit_group_nonempty; try apply HY; try apply HM; try apply HD. }
  split_and!.
  - intros d Hd.
    destruct (first (findall RE_DATE_FROM_FILENAME 3 report_filename)) as [g|e] eqn:Hg.
    + destruct (Hfound g eq_refl) as (Y & M & D & Hf & Heq).
      exists Y, M, D. rewrite Heq in Hd.
      apply DateFacts.date_new_Ok in Hd as [-> Hv]. by split_and!.
    + unfold Dataset.parse_publish_date in Hd. by rewrite Hg in Hd.
  - intros (Y & M & D & Hf). apply findall_filename_complete in Hf.
    destruct (first (findall RE_DATE_FROM_FILENAME 3 report_filename)) as [g|e] eqn:Hg;
      [|done].
    by apply (Hfound g).
  - intros Hno. unfold Dataset.parse_publish_date.
    destruct (findall RE_DATE_FROM_FILENAME 3 report_filename) as [|g l] eqn:Hg; [done|].
    destruct (findall_filename_sound report_filename g) as (Y & M & D & _ & Hf).
    { by rewrite Hg. }
    by destruct (Hno Y M D).
Qed.

(** C8 as the specification words it: the digit groups come before a
    [.xlsx] that ends the name. *)
Definition dated_xlsx_suffix (f Y M D : string) : Prop :=
  ∃ pre mid,
    f = pre +:+ Y +:+ M +:+ D +:+ mid +:+ ".xlsx"
    ∧ DigitFacts.digit_group 4 Y ∧ DigitFacts.digit_group 2 M
    ∧ DigitFacts.digit_group 2 D.

(** A name that goes on after [.xlsx] has no [.xlsx] suffix and gives
    a date all the same; a name with the digit groups before a
    [.xlsx] suffix gives no date when the digits are not one. *)
Lemma parse_publish_date_counterexample :
  Dataset.parse_publish_date "Community Profile Report 20211104.xlsx.bak"
  = Ok (Date 2021 11 4)
  ∧ (¬ ∃ Y M D, dated_xlsx_suffix "Community Profile Report 20211104.xlsx.bak" Y M D)
  ∧ dated_xlsx_suffix "Community Profile Report 20211345.xlsx" "2021" "13" "45"
  ∧ Dataset.parse_publish_date "Community Profile Report 20211345.xlsx"
    = Raise (ValueError "month must be in 1..12").
Proof.
  split_and!.
  - by vm_compute.
  - intros (Y & M & D & pre & mid & Hname & _).
    apply (f_equal (fun f => Str.endswith f ".xlsx")) in Hname.
    rewrite <-!StrFacts.app_assoc, StrFacts.endswith_app in Hname.
    by vm_compute in Hname.
  - exists "Community Profile Report ", "". by vm_compute.
  - by vm_compute.
Qed.

Example parse_publish_date_report :
  Dataset.parse_publish_date "Community Profile Report 20211104.xlsx"
  = Ok (Date 2021 11 4).
Proof. by vm_compute. Qed.

Example parse_publish_date_no_date :
  Dataset.parse_publish_date "Community Profile Report.pdf" = Raise IndexError.
Proof. by vm_compute. Qed.

Example parse_publish_date_not_a_date :
  Dataset.parse_publish_date "Community Profile Report 20211345.xlsx"
  = Raise (ValueError "month must be in 1..12").
Proof. by vm_compute. Qed.

(** ** Loops *)

Lemma mapM_Ok_cons {A B} (f : A → result B) x l ys :
  mapM f (x :: l) = Ok ys ↔ ∃ y ys', f x = Ok y ∧ mapM f l = Ok ys' ∧ ys = y :: ys'.
Proof.
  simpl. rewrite bind_Ok. split.
  - intros (y & Hy & (ys' & Hys & [= <-])%bind_Ok). eauto.
  - intros (y & ys' & Hy & Hys & ->). exists y. split; [done|].
    apply bind_Ok. eauto.
Qed.

Lemma mapM_Ok_length {A B} (f : A → result B) l ys :
  mapM f l = Ok ys → length ys = length l.
Proof.
  revert ys. induction l as [|x l IH]; intros ys.
  - by intros [= <-].
  - intros (y & ys' & _ & Hys & ->)%mapM_Ok_cons. simpl. f_equal. by apply IH.
Qed.

Lemma mapM_Ok_elem {A B} (f : A → result B) l ys y :
  mapM f l = Ok ys → y ∈ ys → ∃ x, x ∈ l ∧ f x = Ok y.
Proof.
  revert ys. induction l as [|x l IH]; intros ys.
  - intros [= <-]. by intros ?%elem_of_nil.
  - intros (y' & ys' & Hy & Hys & ->)%mapM_Ok_cons [->|Hin]%elem_of_cons.
    + exists x. split; [left|done].
    + destruct (IH _ Hys Hin) as (x' & Hx' & Hfx). exists x'. split; [by right|done].
Qed.

Lemma mapM_Ok_elem_of {A B} (f : A → result B) l ys x :
  mapM f l = Ok ys → x ∈ l → ∃ y, y ∈ ys ∧ f x = Ok y.
Proof.
  revert ys. induction l as [|x' l IH]; intros ys.
  - intros _. by intros ?%elem_of_nil.
  - intros (y' & ys' & Hy & Hys & ->)%mapM_Ok_cons [->|Hin]%elem_of_cons.
    + exists y'. split; [left|done].
    + destruct (IH _ Hys Hin) as (y & Hy' & Hfx). exists y. split; [by right|done].
Qed.

Lemma foldM_raises {A S} (f : S → A → result S) x l s :
  x ∈ l → (∀ s', raises (f s' x)) → raises (foldM f s l).
Proof.
  intros Hin Hx. revert s. induction l as [|y l IH]; intros s.
  - by apply elem_of_nil in Hin.
  - simpl. destruct (f s y) as [s'|e] eqn:Hf; [|by exists e].
    simpl. apply elem_of_cons in Hin as [->|Hin].
    + destruct (Hx s) as [e He]. congruence.
    + by apply IH.
Qed.

(** ** The reference dates of a sheet *)

Module TimesFacts.
Section TimesFacts.
Context {V : Type}.
Implicit Types (times : gmap string DatasetTimes) (dts : list DatasetTimes).
Implicit Types (ovs : list (cell V)) (pd : date).

(** The overheaders that [skip_overheader] lets through. *)
Definition relevant_headers ovs : list string :=
  omap (fun c => match c with
                 | CStr h => if Dataset.skip_overheader c then None else Some h
                 | COther _ => None
                 end) ovs.

(** The records the relevant overheaders parse to, in order. *)
Definition parsed_headers pd ovs : result (list DatasetTimes) :=
  mapM (fun h => DatasetTimes.from_header h pd) (relevant_headers ovs).

(** The category keys of a list of records. *)
Definition categories dts : gset string := list_to_set (column <$> dts).

(** Every record agrees with the one the mapping already holds for
    its category. *)
Definition recorded_agree times dts : Prop :=
  ∀ dt prev, dt ∈ dts → times !! column dt = Some prev → prev = dt.

(** Records of the same category are equal. *)
Definition repeats_agree dts : Prop :=
  ∀ dt1 dt2, dt1 ∈ dts → dt2 ∈ dts → column dt1 = column dt2 → dt1 = dt2.

Definition merge_one times (dt : DatasetTimes) : gmap string DatasetTimes :=
  match times !! column dt with
  | Some _ => times
  | None => <[column dt := dt]> times
  end.

Definition merge times dts : gmap string DatasetTimes := foldl merge_one times dts.

Fixpoint agree_in_order times dts : Prop :=
  match dts with
  | [] => True
  | dt :: dts' =>
      (∀ prev, times !! column dt = Some prev → prev = dt)
      ∧ agree_in_order (merge_one times dt) dts'
  end.

(** Before the first sheet the mapping is empty and holds no record to
    disagree with. *)
Lemma recorded_agree_empty dts : recorded_agree ∅ dts.
Proof. intros dt prev _. by rewrite lookup_empty. Qed.

Lemma merge_one_lookup times dt k v :
  times !! k = Some v → merge_one times dt !! k = Some v.
Proof.
  intros Hk. unfold merge_one. destruct (times !! column dt) eqn:Hc; [done|].
  rewrite lookup_insert_ne; [done|]. by intros <-; rewrite Hc in Hk.
Qed.

Lemma merge_one_lookup_self times dt :
  (∀ prev, times !! column dt = Some prev → prev = dt) →
  merge_one times dt !! column dt = Some dt.
Proof.
  intros Hprev. unfold merge_one. destruct (times !! column dt) as [prev|] eqn:Hc.
  - by rewrite Hc, (Hprev prev).
  - by rewrite lookup_insert_eq.
Qed.

Lemma merge_one_lookup_inv times dt k v :
  merge_one times dt !! k = Some v → times !! k = Some v ∨ (k = column dt ∧ v = dt).
Proof.
  unfold merge_one. destruct (times !! column dt) eqn:Hc; [by left|].
  destruct (decide (column dt = k)) as [<-|Hne].
  - rewrite lookup_insert_eq. intros [= <-]. by right.
  - rewrite lookup_insert_ne by done. by left.
Qed.

Lemma merge_one_dom times dt : dom (merge_one times dt) = dom times ∪ {[column dt]}.
Proof.
  unfold merge_one. destruct (times !! column dt) eqn:Hc.
  - apply (elem_of_dom_2 times) in Hc. set_solver.
  - rewrite dom_insert_L. set_solver.
Qed.

Lemma merge_dom times dts : dom (merge times dts) = dom times ∪ categories dts.
Proof.
  unfold merge, categories. revert times. induction dts as [|dt dts IH]; intros times; simpl.
  - set_solver.
  - rewrite IH, merge_one_dom. set_solver.
Qed.

Lemma agree_in_order_iff times dts :
  agree_in_order times dts ↔ recorded_agree times dts ∧ repeats_agree dts.
Proof.
  unfold recorded_agree, repeats_agree.
  revert times. induction dts as [|dt dts IH]; intros times; simpl.
  - split; [|done]. intros _. split; intros; by decompose_list_elem_of.
  - rewrite IH. split.
    + intros [Hhead [Hrec Hrep]]. split.
      * intros dt' prev [->|Hin]%elem_of_cons Hprev; [by apply Hhead|].
        eapply Hrec; [done|]. by apply merge_one_lookup.
      * assert (∀ dt', dt' ∈ dts → column dt' = column dt → dt = dt') as Hfirst.
        { intros dt' Hin Hcol. eapply Hrec; [done|].
          rewrite Hcol. by apply merge_one_lookup_self. }
        intros dt1 dt2 [->|H1]%elem_of_cons [->|H2]%elem_of_cons Hcol; [done|..].
        -- by apply Hfirst.
        -- symmetry. by apply Hfirst.
        -- by apply Hrep.
    + intros [Hrec Hrep]. split_and!.
      * intros prev Hprev. eapply Hrec; [by left|done].
      * intros dt' prev Hin [Hprev|[Hcol ->]]%merge_one_lookup_inv.
        -- eapply Hrec; [by right|done].
        -- apply Hrep; [by left|by right|done].
      * intros dt1 dt2 H1 H2. apply Hrep; by right.
Qed.

Lemma merge_lookup times dts dt :
  agree_in_order times dts → dt ∈ dts → merge times dts !! column dt = Some dt.
Proof.
  unfold merge. revert times. induction dts as [|dt' dts IH]; intros times; simpl.
  - by intros _ ?%elem_of_nil.
  - intros [Hhead Hrest] [->|Hin]%elem_of_cons; [|by apply IH].
    clear IH. apply merge_one_lookup_self in Hhead.
    revert Hhead. generalize (merge_one times dt'). clear Hrest.
    induction dts as [|dt2 dts IH]; intros t Ht; simpl; [done|].
    apply IH. by apply merge_one_lookup.
Qed.

Lemma record_overheader_skipped pd times (c : cell V) :
  match c with
  | CStr _ => Dataset.skip_overheader c = true
  | COther _ => True
  end →
  Dataset.record_overheader pd times c = Ok times.
Proof.
  unfold Dataset.record_overheader. destruct c; [by intros ->|].
  by destruct (Dataset.skip_overheader _).
Qed.

Lemma record_overheader_relevant pd times h times' :
  Dataset.skip_overheader (CStr (V:=V) h) = false →
  Dataset.record_overheader pd times (CStr (V:=V) h) = Ok times' ↔
    ∃ dt, DatasetTimes.from_header h pd = Ok dt
          ∧ (∀ prev, times !! column dt = Some prev → prev = dt)
          ∧ times' = merge_one times dt.
Proof.
  intros Hskip. unfold Dataset.record_overheader. rewrite Hskip, bind_Ok.
  unfold merge_one. split.
  - intros (dt & Hdt & Hrec). exists dt. split; [done|].
    destruct (times !! column dt) as [prev|].
    + apply bind_Ok in Hrec as (_ & ?%assert_Ok%bool_decide_eq_true & [= <-]).
      split; [by intros ? [= <-]|done].
    + injection Hrec as <-. done.
  - intros (dt & Hdt & Hprev & ->). exists dt. split; [done|].
    destruct (times !! column dt) as [prev|]; [|done].
    rewrite (Hprev prev eq_refl). unfold assert.
    by rewrite bool_decide_eq_true_2.
Qed.

(** The loop over the overheaders ends without an exception exactly
    when every relevant header parses and every record agrees with
    the mapping as it stands when the record is reached; the mapping
    is then the old one with the new categories added. *)
Lemma loop_Ok pd times ovs times' :
  foldM (Dataset.record_overheader pd) times ovs = Ok times' ↔
    ∃ dts, parsed_headers pd ovs = Ok dts
           ∧ agree_in_order times dts
           ∧ times' = merge times dts.
Proof.
  unfold parsed_headers, merge.
  revert times. induction ovs as [|c ovs IH]; intros times.
  - simpl. split; [intros [= <-]; by exists [] | by intros (? & [= <-] & _ & ->)].
  - assert (match c with
            | CStr _ => Dataset.skip_overheader c = true
            | COther _ => True
            end →
            foldM (Dataset.record_overheader pd) times (c :: ovs) = Ok times' ↔
              ∃ dts, mapM (fun h => DatasetTimes.from_header h pd) (relevant_headers (c :: ovs)) = Ok dts
                     ∧ agree_in_order times dts
                     ∧ times' = foldl merge_one times dts) as Hskipped.
    { intros Hc. simpl foldM. rewrite (record_overheader_skipped _ _ _ Hc). simpl.
      rewrite IH. unfold relevant_headers. simpl omap.
      destruct c; [rewrite Hc|]; reflexivity. }
    destruct c as [h|v]; [|by apply Hskipped].
    destruct (Dataset.skip_overheader (CStr (V:=V) h)) eqn:Hskip; [by apply Hskipped|].
    clear Hskipped. unfold relevant_headers. simpl omap. rewrite Hskip.
    fold (relevant_headers ovs). simpl foldM. rewrite bind_Ok. split.
    + intros (t1 & (dt & Hdt & Hprev & ->)%record_overheader_relevant & Hloop);
        [|done].
      apply IH in Hloop as (dts & Hdts & Hagree & ->).
      exists (dt :: dts). split_and!; [|done|done].
      apply mapM_Ok_cons. eauto.
    + intros (dts' & (dt & dts & Hdt & Hdts & ->)%mapM_Ok_cons & [Hprev Hagree] & ->).
      exists (merge_one times dt). split.
      * apply record_overheader_relevant; eauto.
      * apply IH. eauto.
Qed.

(** [times_of_overheaders] succeeds exactly when the loop does and
    the mapping then has two keys. *)
Lemma times_of_overheaders_Ok pd times ovs times' :
  Dataset.times_of_overheaders pd times ovs = Ok times' ↔
    ∃ dts, parsed_headers pd ovs = Ok dts
           ∧ recorded_agree times dts ∧ repeats_agree dts
           ∧ times' = merge times dts
           ∧ size (dom times ∪ categories dts) = 2.
Proof.
  unfold Dataset.times_of_overheaders. rewrite bind_Ok. split.
  - intros (t1 & (dts & Hdts & Hagree & ->)%loop_Ok & Hsize).
    apply bind_Ok in Hsize as (_ & Hsize%assert_Ok%Nat.eqb_eq & [= <-]).
    apply agree_in_order_iff in Hagree as [? ?].
    exists dts. split_and!; try done. by rewrite <-merge_dom, size_dom.
  - intros (dts & Hdts & Hrec & Hrep & -> & Hsize).
    exists (merge times dts). split.
    + apply loop_Ok. exists dts. split_and!; [done| |done].
      by apply agree_in_order_iff.
    + rewrite <-merge_dom, size_dom in Hsize. rewrite Hsize. done.
Qed.

End TimesFacts.
End TimesFacts.

(** ** [Dataset._parse_times_for_sheet] *)

Section SheetTimes.
Context {I V G0 G : Type}.
Implicit Types (self : Dataset.t I V G) (sheet : SheetSpec I V G0 G).
Implicit Types (data : SheetData I V).

Import TimesFacts.

(** [self] with its attribute [times] set. *)
Definition with_times self (times' : gmap string DatasetTimes) : Dataset.t I V G :=
  Dataset.mk (Dataset.publish_date self) (Dataset.url self) (Dataset.workbook self)
             (Dataset.dfs self) times'.

Lemma parse_times_for_sheet_Ok self sheet data self' :
  Dataset.read_excel self sheet = Ok data →
  Dataset._parse_times_for_sheet self sheet = Ok self' ↔
    ∃ times',
      Dataset.times_of_overheaders (Dataset.publish_date self) (Dataset.times self)
        (overheader_row data) = Ok times'
      ∧ self' = with_times self times'.
Proof.
  intros Hread. unfold Dataset._parse_times_for_sheet. rewrite Hread. simpl.
  rewrite bind_Ok. split.
  - intros (times' & Ht & [= <-]). by exists times'.
  - intros (times' & Ht & ->). by exists times'.
Qed.

Lemma parse_times_for_sheet_is_ok self sheet data :
  Dataset.read_excel self sheet = Ok data →
  is_ok (Dataset._parse_times_for_sheet self sheet) = true ↔
    ∃ dts,
      parsed_headers (Dataset.publish_date self) (overheader_row data) = Ok dts
      ∧ recorded_agree (Dataset.times self) dts ∧ repeats_agree dts
      ∧ size (dom (Dataset.times self) ∪ categories dts) = 2.
Proof.
  intros Hread. split.
  - destruct (Dataset._parse_times_for_sheet self sheet) as [self'|] eqn:Hp; [|done].
    intros _. apply (parse_times_for_sheet_Ok _ _ _ _ Hread) in Hp as (times' & Ht & _).
    apply times_of_overheaders_Ok in Ht as (dts & ? & ? & ? & _ & ?). eauto.
  - intros (dts & Hdts & Hrec & Hrep & Hsize).
    assert (Dataset._parse_times_for_sheet self sheet
            = Ok (with_times self (merge (Dataset.times self) dts))) as ->; [|done].
    apply (parse_times_for_sheet_Ok _ _ _ _ Hread). eexists. split; [|done].
    apply times_of_overheaders_Ok. exists dts. by split_and!.
Qed.


(** C4 as the specification words it, for the overheaders of one
    sheet alone: when the relevant overheaders of the sheet parse and
    the records of each category are equal, the loop over the
    overheaders raises nothing and the mapping holds every record
    under its category. *)
Definition repeats_merged_in_sheet self data : Prop :=
  ∀ dts,
    parsed_headers (Dataset.publish_date self) (overheader_row data) = Ok dts →
    repeats_agree dts →
    ∃ times',
      foldM (Dataset.record_overheader (Dataset.publish_date self))
            (Dataset.times self) (overheader_row data) = Ok times'
      ∧ ∀ dt, dt ∈ dts → times' !! column dt = Some dt.

(** C4, as the code has it. The mapping [self.times] is one for the
    whole [Dataset]: the record an earlier sheet left in it for a
    category is an occurrence of that category like the ones of this
    sheet. Two relevant overheaders of a sheet that parse to records of
    the same category with different dates make
    [_parse_times_for_sheet] raise. When every relevant overheader
    parses, every record equals the others of its category and the one
    the mapping already holds for it, the loop raises nothing and
    leaves one entry for each category, equal to its records. In the
    loop, a record equal to the one the mapping holds leaves the
    mapping as it is, a different one fails the assertion, and a new
    category is added. For the first sheet of a [Dataset], whose
    mapping is empty, equal records within the sheet are enough. A
    relevant overheader whose record differs from the one the mapping
    holds for its category makes [_parse_times_for_sheet] raise, also
    when it is the only one of its category in the sheet. *)
Theorem parse_times_for_sheet_repeats self sheet data :
  Dataset.read_excel self sheet = Ok data →
  (∀ h1 h2 dt1 dt2,
     h1 ∈ relevant_headers (overheader_row data) →
     h2 ∈ relevant_headers (overheader_row data) →
     DatasetTimes.from_header h1 (Dataset.publish_date self) = Ok dt1 →
     DatasetTimes.from_header h2 (Dataset.publish_date self) = Ok dt2 →
     column dt1 = column dt2 → dt1 ≠ dt2 →
     raises (Dataset._parse_times_for_sheet self sheet))
  ∧ (∀ dts,
       parsed_headers (Dataset.publish_date self) (overheader_row data) = Ok dts →
       recorded_agree (Dataset.times self) dts → repeats_agree dts →
       ∃ times',
         foldM (Dataset.record_overheader (Dataset.publish_date self))
               (Dataset.times self) (overheader_row data) = Ok times'
         ∧ (∀ dt, dt ∈ dts → times' !! column dt = Some dt)
         ∧ dom times' = dom (Dataset.times self) ∪ categories dts
         ∧ (size times' = 2 →
            Dataset._parse_times_for_sheet self sheet = Ok (with_times self times')))
  ∧ (∀ (times : gmap string DatasetTimes) h dt,
       Dataset.skip_overheader (CStr (V:=V) h) = false →
       DatasetTimes.from_header h (Dataset.publish_date self) = Ok dt →
       (times !! column dt = Some dt →
        Dataset.record_overheader (V:=V) (Dataset.publish_date self) times (CStr h)
        = Ok times)
       ∧ (∀ previous, times !! column dt = Some previous → previous ≠ dt →
          Dataset.record_overheader (V:=V) (Dataset.publish_date self) times (CStr h)
          = Raise (AssertionError "Conflicting reference date"))
       ∧ (times !! column dt = None →
          Dataset.record_overheader (V:=V) (Dataset.publish_date self) times (CStr h)
          = Ok (<[column dt := dt]> times)))
  ∧ (Dataset.times self = ∅ → repeats_merged_in_sheet self data)
  ∧ (∀ h dt previous,
       h ∈ relevant_headers (overheader_row data) →
       DatasetTimes.from_header h (Dataset.publish_date self) = Ok dt →
       Dataset.times self !! column dt = Some previous → previous ≠ dt →
       raises (Dataset._parse_times_for_sheet self sheet)).
Proof.
  intros Hread. split_and!.
  - intros h1 h2 dt1 dt2 Hh1 Hh2 Hdt1 Hdt2 Hcol Hne.
    apply raises_not_Ok. intros self' Hok.
    assert (is_ok (Dataset._parse_times_for_sheet self sheet) = true) as Hok'
      by (by rewrite Hok).
    apply (parse_times_for_sheet_is_ok _ _ _ Hread) in Hok' as (dts & Hdts & _ & Hrep & _).
    destruct (mapM_Ok_elem_of _ _ _ _ Hdts Hh1) as (dt1' & Hin1 & Heq1).
    destruct (mapM_Ok_elem_of _ _ _ _ Hdts Hh2) as (dt2' & Hin2 & Heq2).
    simpl in Heq1, Heq2. rewrite Hdt1 in Heq1. rewrite Hdt2 in Heq2.
    injection Heq1 as <-. injection Heq2 as <-. by apply Hne, Hrep.
  - intros dts Hdts Hrec Hrep.
    assert (agree_in_order (Dataset.times self) dts) as Hagree
      by (by apply agree_in_order_iff).
    exists (merge (Dataset.times self) dts). split_and!.
    + apply loop_Ok. eauto.
    + intros dt Hdt. by apply merge_lookup.
    + apply merge_dom.
    + intros Hsize. apply (parse_times_for_sheet_Ok _ _ _ _ Hread).
      eexists. split; [|done]. apply times_of_overheaders_Ok.
      exists dts. split_and!; try done. by rewrite <-merge_dom, size_dom.
  - intros times h dt Hskip Hdt. unfold Dataset.record_overheader.
    rewrite Hskip, Hdt. simpl. split_and!.
    + intros ->. unfold assert. by rewrite bool_decide_eq_true_2.
    + intros previous -> Hne. unfold assert. by rewrite bool_decide_eq_false_2.
    + by intros ->.
  - intros Hempty dts Hdts Hrep.
    assert (agree_in_order (Dataset.times self) dts) as Hagree.
    { apply agree_in_order_iff. split; [|done]. rewrite Hempty. apply recorded_agree_empty. }
    exists (merge (Dataset.times self) dts). split.
    + apply loop_Ok. eauto.
    + intros dt Hdt. by apply merge_lookup.
  - intros h dt previous Hh Hdt Hprev Hne.
    apply raises_not_Ok. intros self' Hok.
    assert (is_ok (Dataset._parse_times_for_sheet self sheet) = true) as Hok'
      by (by rewrite Hok).
    apply (parse_times_for_sheet_is_ok _ _ _ Hread) in Hok' as (dts & Hdts & Hrec & _ & _).
    destruct (mapM_Ok_elem_of _ _ _ _ Hdts Hh) as (dt' & Hin & Heq).
    simpl in Heq. rewrite Hdt in Heq. injection Heq as <-.
    by apply Hne, (Hrec dt).
Qed.

End SheetTimes.

(** ** [Dataset._parse_sheet] *)

Lemma filter_nil_of_false {A} (f : A → bool) (l : list A) :
  (∀ x, x ∈ l → f x = false) → List.filter f l = [].
Proof.
  induction l as [|x l IH]; intros Hl; simpl; [done|].
  rewrite (Hl x) by left. apply IH. intros y Hy. apply Hl. by right.
Qed.

Section SheetExtraction.
Context {I V G0 G : Type}.
Context (SIGNALS : list string) (truediv7 : V → V).
Implicit Types (self : Dataset.t I V G) (sheet : SheetSpec I V G0 G).
Implicit Types (data : SheetData I V) (df : DataFrame I V).
Implicit Types (select : list Dataset.selected).

(** The frame of the sheet after the row filter. *)
Definition filtered_frame sheet data : DataFrame I V :=
  match row_filter sheet with
  | Some f => df_loc (frame data) (f (frame data))
  | None => frame data
  end.

(** The detail headers [retain_header] keeps. *)
Definition retained_headers df : list string :=
  List.filter Dataset.retain_header (df_columns df).

(** The selected headers of a signal: those whose lower-case form
    contains the name of the signal. *)
Definition sig_select select (sig : string) : list Dataset.selected :=
  List.filter (fun s => (0 <=? Str.find s.2 sig)%Z) select.

Lemma select_headers_elem df select s :
  Dataset.select_headers df = Ok select → s ∈ select →
  ∃ h, h ∈ retained_headers df ∧ s.1.2 = h ∧ s.2 = Str.lower h.
Proof.
  intros Hsel Hs. destruct (mapM_Ok_elem _ _ _ _ Hsel Hs) as (h & Hh & Hf).
  exists h. split; [done|].
  apply bind_Ok in Hf as (g & _ & [= <-]). done.
Qed.

Lemma extract_signal_missing self sheet df select dfs sig :
  Dataset.select_headers df = Ok select →
  (∀ h, h ∈ retained_headers df → ¬ Str.occurs_in sig (Str.lower h)) →
  Dataset.extract_signal self sheet df select dfs sig
  = Raise (AssertionError ("No " +:+ sig +:+ " in any of the selected headers")).
Proof.
  intros Hsel Hnone. unfold Dataset.extract_signal.
  rewrite filter_nil_of_false; [done|].
  intros s Hs. destruct (select_headers_elem _ _ _ Hsel Hs) as (h & Hh & _ & ->).
  apply not_true_is_false. intros Hfind%StrFacts.find_nonneg. by apply (Hnone h).
Qed.

Lemma parse_sheet_unfold self sheet data :
  Dataset.read_excel self sheet = Ok data →
  Dataset._parse_sheet SIGNALS truediv7 self sheet =
    (select ← Dataset.select_headers (filtered_frame sheet data);
     dfs' ← foldM (Dataset.extract_signal self sheet (filtered_frame sheet data) select)
                  (Dataset.dfs self) SIGNALS;
     total ← match dfs' !! (level sheet, "total") with
             | Some table => Ok table
             | None => Raise (KeyError "total")
             end;
     Ok (Dataset.mk (Dataset.publish_date self) (Dataset.url self) (Dataset.workbook self)
           (<[(level sheet, "total") := map (Dataset.scale_val truediv7) total]> dfs')
           (Dataset.times self))).
Proof. intros Hread. unfold Dataset._parse_sheet. by rewrite Hread. Qed.

(** C7. When no retained header of the sheet contains, in lower case,
    the name of a configured signal, [_parse_sheet] raises: it returns
    no [Dataset], so no table for that signal. The assertion on the
    selected headers of the signal is what fails when the loop reaches
    the signal. *)
Theorem parse_sheet_missing_signal self sheet data sig :
  Dataset.read_excel self sheet = Ok data →
  sig ∈ SIGNALS →
  (∀ h, h ∈ retained_headers (filtered_frame sheet data) →
        ¬ Str.occurs_in sig (Str.lower h)) →
  raises (Dataset._parse_sheet SIGNALS truediv7 self sheet)
  ∧ ∀ select dfs,
      Dataset.select_headers (filtered_frame sheet data) = Ok select →
      sig_select select sig = []
      ∧ Dataset.extract_signal self sheet (filtered_frame sheet data) select dfs sig
        = Raise (AssertionError ("No " +:+ sig +:+ " in any of the selected headers")).
Proof.
  intros Hread Hsig Hnone. split.
  - rewrite (parse_sheet_unfold _ _ _ Hread).
    destruct (Dataset.select_headers (filtered_frame sheet data)) as [select|e] eqn:Hsel;
      [|by exists e].
    simpl.
    destruct (foldM_raises
                (Dataset.extract_signal self sheet (filtered_frame sheet data) select)
                sig SIGNALS (Dataset.dfs self) Hsig) as [e He].
    { intros dfs. eexists. by apply extract_signal_missing. }
    exists e. by rewrite He.
  - intros select dfs Hsel. split; [|by apply extract_signal_missing].
    apply filter_nil_of_false. intros s Hs.
    destruct (select_headers_elem _ _ _ Hsel Hs) as (h & Hh & _ & ->).
    apply not_true_is_false. intros Hfind%StrFacts.find_nonneg. by apply (Hnone h).
Qed.

Lemma extract_signal_Ok self sheet df select dfs sig dfs' :
  Dataset.extract_signal self sheet df select dfs sig = Ok dfs' →
  ∃ frames,
    mapM (Dataset.signal_frame self sheet df sig) (sig_select select sig) = Ok frames
    ∧ dfs' = <[(level sheet, sig) := concat frames]> dfs.
Proof.
  unfold Dataset.extract_signal.
  intros (_ & _ & (frames & Hframes & [= <-])%bind_Ok)%bind_Ok. eauto.
Qed.

(** After the loop over the signals, the table of each signal is the
    concatenation of the frames of its selected headers, and the other
    tables are as before. *)
Lemma extract_loop self sheet df select sigs dfs dfs' :
  foldM (Dataset.extract_signal self sheet df select) dfs sigs = Ok dfs' →
  (∀ sig, sig ∈ sigs →
     ∃ frames,
       mapM (Dataset.signal_frame self sheet df sig) (sig_select select sig) = Ok frames
       ∧ dfs' !! (level sheet, sig) = Some (concat frames))
  ∧ (∀ k, (∀ sig, sig ∈ sigs → k ≠ (level sheet, sig)) → dfs' !! k = dfs !! k).
Proof.
  revert dfs. induction sigs as [|sig0 sigs IH]; intros dfs; simpl.
  - intros [= <-]. split; [by intros ? ?%elem_of_nil | done].
  - intros (dfs1 & (frames & Hframes & ->)%extract_signal_Ok & Hloop)%bind_Ok.
    destruct (IH _ Hloop) as [Hin Hout]. split.
    + intros sig [->|Hsig]%elem_of_cons; [|by apply Hin].
      exists frames. split; [done|].
      destruct (decide (sig0 ∈ sigs)) as [Hdup|Hfresh].
      * destruct (Hin sig0 Hdup) as (frames' & Hframes' & ->).
        rewrite Hframes in Hframes'. by injection Hframes' as <-.
      * rewrite Hout, lookup_insert_eq; [done|]. intros sig Hsig [= <-]. done.
    + intros k Hk. rewrite Hout.
      * rewrite lookup_insert_ne; [done|]. intros <-. eapply Hk; [left|done].
      * intros sig Hsig. apply Hk. by right.
Qed.



End SheetExtraction.

(** ** [Dataset.__init__]: the same file twice *)

Section Idempotence.
Context {I V G0 G Bytes : Type}.
Context (SIGNALS : list string) (TRANSFORMS : list (string * SheetSpec I V G0 G)).
Context (DOWNLOAD_ATTACHMENT : string → string → string).
Context (quote_as_url : string → string) (truediv7 : V → V).
Context (ExcelFile : Bytes → result (gmap string (SheetData I V))).

(** [Dataset(config, sheets)] with the constants and the library
    functions above, for a server that answers [requests_get]. *)
Definition new_dataset (requests_get : string → Bytes) (fs : gmap string Bytes)
    (config : Config) (sheets : list string)
    : gmap string Bytes * result (Dataset.t I V G) :=
  Dataset.__init__ SIGNALS TRANSFORMS DOWNLOAD_ATTACHMENT quote_as_url truediv7 ExcelFile
    requests_get fs config sheets.

(** What [__init__] builds from the cached bytes of the report. *)
Definition dataset_of_content (publish_date : date) (config : Config)
    (sheets : list string) (content : Bytes) : result (Dataset.t I V G) :=
  workbook ← ExcelFile content;
  foldM (Dataset.parse_one_sheet SIGNALS TRANSFORMS truediv7)
        (Dataset.mk publish_date
           (DOWNLOAD_ATTACHMENT (assetId config) (quote_as_url (filename config)))
           workbook ∅ ∅)
        sheets.

Lemma new_dataset_cached requests_get fs config sheets content :
  fs !! cached_filename config = Some content →
  new_dataset requests_get fs config sheets
  = (fs, publish_date ← Dataset.parse_publish_date (filename config);
         dataset_of_content publish_date config sheets content).
Proof.
  intros Hc. unfold new_dataset, Dataset.__init__, dataset_of_content.
  destruct (Dataset.parse_publish_date (filename config)) as [pd|e]; [|done].
  rewrite Hc. cbn beta iota. by rewrite Hc.
Qed.

Lemma new_dataset_download requests_get fs config sheets :
  fs !! cached_filename config = None →
  new_dataset requests_get fs config sheets
  = match Dataset.parse_publish_date (filename config) with
    | Ok publish_date =>
        let content :=
          requests_get (DOWNLOAD_ATTACHMENT (assetId config)
                                            (quote_as_url (filename config))) in
        (<[cached_filename config := content]> fs,
         dataset_of_content publish_date config sheets content)
    | Raise e => (fs, Raise e)
    end.
Proof.
  intros Hc. unfold new_dataset, Dataset.__init__, dataset_of_content.
  destruct (Dataset.parse_publish_date (filename config)) as [pd|e]; [|done].
  rewrite Hc. cbn beta iota zeta. by rewrite lookup_insert_eq.
Qed.

(** C9. Building a [Dataset] from the same report twice gives the same
    result both times, tables and exceptions alike, whatever the
    server answers the second time: the first run leaves the file in
    the cache, the second run reads it there and leaves the cache as
    it is. More generally two runs that find the same bytes in the
    cache give the same result. The attributes [dfs] and [times] start
    empty in every run; nothing but the configuration and the cached
    bytes reaches the result. *)
Theorem new_dataset_idempotent (requests_get requests_get' : string → Bytes)
    (fs : gmap string Bytes) (config : Config) (sheets : list string) :
  (new_dataset requests_get' (new_dataset requests_get fs config sheets).1 config sheets).2
  = (new_dataset requests_get fs config sheets).2
  ∧ (new_dataset requests_get' (new_dataset requests_get fs config sheets).1 config sheets).1
    = (new_dataset requests_get fs config sheets).1
  ∧ (∀ (fs' : gmap string Bytes) content,
       fs !! cached_filename config = Some content →
       fs' !! cached_filename config = Some content →
       (new_dataset requests_get fs config sheets).2
       = (new_dataset requests_get' fs' config sheets).2).
Proof.
  split_and!.
  - destruct (fs !! cached_filename config) as [content|] eqn:Hc.
    + rewrite (new_dataset_cached requests_get _ _ _ content Hc). cbn [fst snd].
      by rewrite (new_dataset_cached requests_get' _ _ _ content Hc).
    + rewrite (new_dataset_download requests_get _ _ _ Hc).
      destruct (Dataset.parse_publish_date (filename config)) as [pd|e] eqn:Hpd.
      * cbn [fst snd]. erewrite new_dataset_cached by apply lookup_insert_eq.
        cbn [fst snd]. by rewrite Hpd.
      * cbn [fst snd]. by rewrite (new_dataset_download _ _ _ _ Hc), Hpd.
  - destruct (fs !! cached_filename config) as [content|] eqn:Hc.
    + rewrite (new_dataset_cached requests_get _ _ _ content Hc). cbn [fst snd].
      by rewrite (new_dataset_cached requests_get' _ _ _ content Hc).
    + rewrite (new_dataset_download requests_get _ _ _ Hc).
      destruct (Dataset.parse_publish_date (filename config)) as [pd|e] eqn:Hpd.
      * cbn [fst snd]. by erewrite new_dataset_cached by apply lookup_insert_eq.
      * cbn [fst snd]. by rewrite (new_dataset_download _ _ _ _ Hc), Hpd.
  - intros fs' content Hc Hc'.
    by rewrite (new_dataset_cached _ _ _ _ content Hc), (new_dataset_cached _ _ _ _ content Hc').
Qed.

End Idempotence.

(** ** [DatasetTimes.from_header]: the second range *)

Lemma from_header_Ok header publish_date dt :
  DatasetTimes.from_header header publish_date = Ok dt →
  ∃ caps rest positivity total,
    match_ RE_DATE_FROM_HEADER header = Some (caps, rest)
    ∧ DatasetTimes.as_date header publish_date (slice 1 5 (groups 10 caps)) = Ok positivity
    ∧ (if Str.truthy (group caps 7)
       then DatasetTimes.as_date header publish_date (slice 6 10 (groups 10 caps))
       else Ok positivity) = Ok total
    ∧ dt = mkDatasetTimes (Str.lower (group caps 1)) positivity total.
Proof.
  unfold DatasetTimes.from_header. intros (_ & Hm%assert_Ok%bool_decide_eq_true & Hrest)%bind_Ok.
  destruct (match_ RE_DATE_FROM_HEADER header) as [[caps rest]|] eqn:Hmatch;
    [|by destruct Hm].
  rewrite (ReFacts.findall_first_of_match _ 10 _ _ _ Hmatch) in Hrest. simpl in Hrest.
  apply bind_Ok in Hrest as (positivity & Hpos & Hrest).
  apply bind_Ok in Hrest as (total & Htot & [= <-]).
  by exists caps, rest, positivity, total.
Qed.

(** A header in which [, Test Volume ] does not occur has no second
    range: both reference dates are the one of its only range. *)
Lemma from_header_single_range header publish_date dt :
  DatasetTimes.from_header header publish_date = Ok dt →
  ¬ Str.occurs_in ", Test Volume " header →
  total_reference_date dt = positivity_reference_date dt.
Proof.
  intros (caps & rest & positivity & total & Hm & _ & Htot & ->)%from_header_Ok Hno.
  simpl. apply ReFacts.match_sound in Hm as (w & -> & Hm).
  assert (group caps 7 = "") as Hg7.
  { unfold RE_DATE_FROM_HEADER, DATE_RANGE_EXP, DATE_EXP in Hm.
    ReInv.inv_matches; try reflexivity; destruct Hno;
      match goal with
      | |- Str.occurs_in _ ((?a +:+ ?b +:+ ?c +:+ ?d +:+ ?e +:+ (", Test Volume " +:+ ?f) +:+ ?g) +:+ ?h) =>
          exists (a +:+ b +:+ c +:+ d +:+ e), (f +:+ g +:+ h);
          by rewrite !StrFacts.app_assoc
      end. }
  rewrite Hg7 in Htot. by injection Htot.
Qed.

(** A header whose second range begins with a month: the total
    reference date is the date of that range. *)
Lemma from_header_second_range header publish_date dt :
  DatasetTimes.from_header header publish_date = Ok dt →
  ∃ g,
    first (findall RE_DATE_FROM_HEADER 10 header) = Ok g
    ∧ (Str.truthy (item g 6) = true →
       DatasetTimes.as_date header publish_date (slice 6 10 g) = Ok (total_reference_date dt)).
Proof.
  intros (caps & rest & positivity & total & Hm & _ & Htot & ->)%from_header_Ok.
  exists (groups 10 caps). split; [by eapply ReFacts.findall_first_of_match|].
  change (item (groups 10 caps) 6) with (group caps 7).
  intros Ht. by rewrite Ht in Htot.
Qed.

Lemma from_header_single_range_witness :
  DatasetTimes.from_header "TESTING: LAST WEEK (October 24-30)" (Date 2021 11 4)
  = Ok (mkDatasetTimes "last" (Date 2021 10 30) (Date 2021 10 30))
  ∧ Str.find "TESTING: LAST WEEK (October 24-30)" ", Test Volume " = (-1)%Z
  ∧ total_reference_date (mkDatasetTimes "last" (Date 2021 10 30) (Date 2021 10 30))
    = positivity_reference_date (mkDatasetTimes "last" (Date 2021 10 30) (Date 2021 10 30)).
Proof.
  split; [vm_compute; reflexivity|]. split; [vm_compute; reflexivity|].
  apply (from_header_single_range "TESTING: LAST WEEK (October 24-30)" (Date 2021 11 4)).
  - vm_compute. reflexivity.
  - intros Hocc. apply StrFacts.find_nonneg in Hocc. vm_compute in Hocc. discriminate.
Defined.

Lemma from_header_second_range_witness :
  DatasetTimes.from_header
    "TESTING: LAST WEEK (October 24-30, Test Volume October 20-26)" (Date 2021 11 4)
  = Ok (mkDatasetTimes "last" (Date 2021 10 30) (Date 2021 10 26))
  ∧ ∃ g,
      first (findall RE_DATE_FROM_HEADER 10
               "TESTING: LAST WEEK (October 24-30, Test Volume October 20-26)") = Ok g
      ∧ (Str.truthy (item g 6) = true →
         DatasetTimes.as_date
           "TESTING: LAST WEEK (October 24-30, Test Volume October 20-26)"
           (Date 2021 11 4) (slice 6 10 g)
         = Ok (Date 2021 10 26)).
Proof.
  split; [vm_compute; reflexivity|].
  apply (from_header_second_range
           "TESTING: LAST WEEK (October 24-30, Test Volume October 20-26)"
           (Date 2021 11 4) (mkDatasetTimes "last" (Date 2021 10 30) (Date 2021 10 26))).
  vm_compute. reflexivity.
Defined.

(** ** A report with two sheets *)

Module Example.
Import QArith_base.

Definition q (n : Z) : Q := Qmake n 1.

(** Cell values are rationals; [/ 7] is the division by 7. *)
Definition truediv7 (v : Q) : Q := Qreduction.Qred (Qdiv v (q 7)).

Definition SIGNALS : list string := ["total"; "positivity"]%string.

Definition report_date : date := Date 2021 11 4.

Definition last_week : string :=
  "TESTING: LAST WEEK (October 24-30, Test Volume October 20-26)".

Definition previous_week : string :=
  "TESTING: PREVIOUS WEEK (October 17-23, Test Volume October 13-19)".

Definition last_times : DatasetTimes :=
  mkDatasetTimes "last" (Date 2021 10 30) (Date 2021 10 26).

Definition previous_times : DatasetTimes :=
  mkDatasetTimes "previous" (Date 2021 10 23) (Date 2021 10 19).

Definition states_overheaders : list (cell Q) :=
  [ COther (q 0); CStr last_week; CStr "TESTING: % CHANGE FROM PREVIOUS WEEK";
    CStr previous_week; CStr last_week ].

Definition total_last : string :=
  "Total NAATs - last 7 days (may be an underestimate due to delayed reporting)".

Definition positivity_last : string :=
  "NAAT positivity rate - last 7 days (may be an underestimate due to delayed reporting)".

Definition states_frame : DataFrame string Q :=
  mkDataFrame ["AL"; "AK"]%string
    [ ("State Abbreviation", [q 1; q 2]);
      (total_last, [q 70; q 140]);
      (positivity_last, [Qmake 5 100; Qmake 8 100]);
      ("Total NAATs - previous 7 days", [q 77; q 147]);
      ("NAAT positivity rate - previous 7 days", [Qmake 6 100; Qmake 9 100]);
      ("NAAT positivity rate - last 7 days - ages <5", [Qmake 1 100; Qmake 2 100]) ]%string.

Definition states_data : SheetData string Q :=
  mkSheetData string Q states_overheaders states_frame.

(** A sheet with no date range in its overheaders and no column for
    the positivity. *)
Definition regions_frame : DataFrame string Q :=
  mkDataFrame ["1"]%string [ ("Total NAATs - last 7 days", [q 700]) ]%string.

Definition regions_data : SheetData string Q :=
  mkSheetData string Q [CStr "TESTING: % CHANGE FROM PREVIOUS WEEK"] regions_frame.

(** A sheet whose two date ranges for the last week differ. *)
Definition drifted_data : SheetData string Q :=
  mkSheetData string Q
    [ CStr last_week; CStr "TESTING: LAST WEEK (October 25-31)"; CStr previous_week ]
    states_frame.

Definition index_series (df : DataFrame string Q) : Series string string :=
  mkSeries (df_index df) (df_index df).

Definition states_sheet : SheetSpec string Q string string :=
  mkSheetSpec string Q string string "States" "state" None index_series Str.lower.

Definition regions_sheet : SheetSpec string Q string string :=
  mkSheetSpec string Q string string "Regions" "hhs" None index_series Str.lower.

Definition drifted_sheet : SheetSpec string Q string string :=
  mkSheetSpec string Q string string "Drifted" "state" None index_series Str.lower.

Definition workbook : gmap string (SheetData string Q) :=
  <["States" := states_data]>
    (<["Regions" := regions_data]> (<["Drifted" := drifted_data]> ∅)).

(** The [Dataset] before its first sheet. *)
Definition fresh : Dataset.t string Q string :=
  Dataset.mk report_date "" workbook ∅ ∅.

Definition states_times : gmap string DatasetTimes :=
  <["last" := last_times]> (<["previous" := previous_times]> ∅).

(** The [Dataset] after the reference dates of the sheet [States]. *)
Definition after_states : Dataset.t string Q string :=
  Dataset.mk report_date "" workbook ∅ states_times.

Definition row (label : string) (ts : date) (v : Q) : Row string string Q :=
  mkRow label (Str.lower label) ts v None None.

Definition state_total : list (Row string string Q) :=
  [ row "AL" (Date 2021 10 26) (q 10); row "AK" (Date 2021 10 26) (q 20);
    row "AL" (Date 2021 10 19) (q 11); row "AK" (Date 2021 10 19) (q 21) ].

Definition state_positivity : list (Row string string Q) :=
  [ row "AL" (Date 2021 10 30) (Qmake 5 100); row "AK" (Date 2021 10 30) (Qmake 8 100);
    row "AL" (Date 2021 10 23) (Qmake 6 100); row "AK" (Date 2021 10 23) (Qmake 9 100) ].

(** The [Dataset] after the sheet [States]. *)
Definition states_extracted : Dataset.t string Q string :=
  Dataset.mk report_date "" workbook
    (<[("state", "total") := state_total]>
       (<[("state", "positivity") := state_positivity]> ∅))
    states_times.

End Example.

Example states_sheet_times :
  Dataset._parse_times_for_sheet Example.fresh Example.states_sheet
  = Ok Example.after_states.
Proof. by vm_compute. Qed.

Example states_sheet_extracted :
  Dataset._parse_sheet Example.SIGNALS Example.truediv7 Example.after_states
    Example.states_sheet
  = Ok Example.states_extracted.
Proof. by vm_compute. Qed.

Example regions_sheet_raises :
  Dataset._parse_sheet Example.SIGNALS Example.truediv7 Example.after_states
    Example.regions_sheet
  = Raise (AssertionError "No positivity in any of the selected headers").
Proof. by vm_compute. Qed.

Example drifted_sheet_raises :
  Dataset._parse_times_for_sheet Example.fresh Example.drifted_sheet
  = Raise (AssertionError "Conflicting reference date").
Proof. by vm_compute. Qed.



(** ** A report whose second sheet disagrees with the first *)

Module ExampleLater.
Import QArith_base.

(** A sheet with one date range, for the last week, which is not the
    range the sheet [States] gives for that week. *)
Definition later_data : SheetData string Q :=
  mkSheetData string Q [CStr "TESTING: LAST WEEK (October 25-31)"] Example.states_frame.

Definition later_sheet : SheetSpec string Q string string :=
  mkSheetSpec string Q string string "Later" "hhs" None Example.index_series Str.lower.

Definition later_times : DatasetTimes :=
  mkDatasetTimes "last" (Date 2021 10 31) (Date 2021 10 31).

Definition workbook : gmap string (SheetData string Q) :=
  <["States" := Example.states_data]> (<["Later" := later_data]> ∅).

(** The [Dataset] before its first sheet. *)
Definition fresh : Dataset.t string Q string :=
  Dataset.mk Example.report_date "" workbook ∅ ∅.

(** The [Dataset] after the reference dates of the sheet [States]. *)
Definition after_states : Dataset.t string Q string :=
  Dataset.mk Example.report_date "" workbook ∅ Example.states_times.

End ExampleLater.

(** The second sheet of a report, with one relevant overheader: its
    record is the only one of its category in the sheet, so no two
    occurrences in the sheet differ. The loop fails the assertion all
    the same, because the mapping holds the record the first sheet
    left for the category, with other dates. *)
Lemma later_sheet_counterexample :
  Dataset._parse_times_for_sheet ExampleLater.fresh Example.states_sheet
  = Ok ExampleLater.after_states
  ∧ Dataset.read_excel ExampleLater.after_states ExampleLater.later_sheet
    = Ok ExampleLater.later_data
  ∧ TimesFacts.parsed_headers Example.report_date (overheader_row ExampleLater.later_data)
    = Ok [ExampleLater.later_times]
  ∧ TimesFacts.repeats_agree [ExampleLater.later_times]
  ∧ Dataset.times ExampleLater.after_states !! "last" = Some Example.last_times
  ∧ foldM (Dataset.record_overheader Example.report_date)
          (Dataset.times ExampleLater.after_states)
          (overheader_row ExampleLater.later_data)
    = Raise (AssertionError "Conflicting reference date")
  ∧ Dataset._parse_times_for_sheet ExampleLater.after_states ExampleLater.later_sheet
    = Raise (AssertionError "Conflicting reference date")
  ∧ ¬ repeats_merged_in_sheet ExampleLater.after_states ExampleLater.later_data.
Proof.
  assert (TimesFacts.repeats_agree [ExampleLater.later_times]) as Hrep.
  { intros dt1 dt2 ->%list_elem_of_singleton ->%list_elem_of_singleton _. reflexivity. }
  split_and!; try by vm_compute.
  intros Hmerged.
  destruct (Hmerged [ExampleLater.later_times]) as (times' & Hloop & _);
    [by vm_compute|done|].
  by vm_compute in Hloop.
Qed.


Lemma parse_times_for_sheet_repeats_witness :
  Dataset.read_excel Example.fresh Example.drifted_sheet = Ok Example.drifted_data
  ∧ DatasetTimes.from_header Example.last_week Example.report_date = Ok Example.last_times
  ∧ DatasetTimes.from_header "TESTING: LAST WEEK (October 25-31)" Example.report_date
    = Ok (mkDatasetTimes "last" (Date 2021 10 31) (Date 2021 10 31))
  ∧ raises (Dataset._parse_times_for_sheet Example.fresh Example.drifted_sheet)
  ∧ Dataset.read_excel ExampleLater.after_states ExampleLater.later_sheet
    = Ok ExampleLater.later_data
  ∧ Dataset.times ExampleLater.after_states !! "last" = Some Example.last_times
  ∧ raises (Dataset._parse_times_for_sheet ExampleLater.after_states
              ExampleLater.later_sheet).
Proof.
  split_and!; try (vm_compute; reflexivity).
  - destruct (parse_times_for_sheet_repeats Example.fresh Example.drifted_sheet
                Example.drifted_data) as (Hconflict & _); [vm_compute; reflexivity|].
    apply (Hconflict Example.last_week "TESTING: LAST WEEK (October 25-31)"
             Example.last_times
             (mkDatasetTimes "last" (Date 2021 10 31) (Date 2021 10 31))).
    + vm_compute. repeat constructor.
    + vm_compute. repeat constructor.
    + vm_compute. reflexivity.
    + vm_compute. reflexivity.
    + reflexivity.
    + discriminate.
  - destruct (parse_times_for_sheet_repeats ExampleLater.after_states
                ExampleLater.later_sheet ExampleLater.later_data)
      as (_ & _ & _ & _ & Hearlier); [vm_compute; reflexivity|].
    apply (Hearlier "TESTING: LAST WEEK (October 25-31)" ExampleLater.later_times
             Example.last_times).
    + vm_compute. repeat constructor.
    + vm_compute. reflexivity.
    + vm_compute. reflexivity.
    + discriminate.
Defined.


Lemma parse_sheet_missing_signal_witness :
  Dataset.read_excel Example.after_states Example.regions_sheet
  = Ok Example.regions_data
  ∧ "positivity" ∈ Example.SIGNALS
  ∧ retained_headers (filtered_frame Example.regions_sheet Example.regions_data)
    = ["Total NAATs - last 7 days"]%string
  ∧ Str.find (Str.lower "Total NAATs - last 7 days") "positivity" = (-1)%Z
  ∧ raises (Dataset._parse_sheet Example.SIGNALS Example.truediv7 Example.after_states
              Example.regions_sheet).
Proof.
  split_and!; try (vm_compute; reflexivity).
  - vm_compute. repeat constructor.
  - apply (parse_sheet_missing_signal Example.SIGNALS Example.truediv7
             Example.after_states Example.regions_sheet Example.regions_data
             "positivity").
    + vm_compute. reflexivity.
    + vm_compute. repeat constructor.
    + intros h Hh Hocc. apply StrFacts.find_nonneg in Hocc.
      vm_compute in Hh. apply list_elem_of_singleton in Hh. subst h.
      vm_compute in Hocc. discriminate.
Defined.

(** C2. The header of the specification, with a second range that
    begins with a month, resolves to the category [last] and the dates
    2021-10-30 and 2021-10-26; a header without a second range gives
    the same date twice. The header of a report that writes the month
    of its second range before the second day only matches the
    pattern, its second range is group 6 and [DatasetTimes.as_date] resolves that
    range to 2021-10-26, but [DatasetTimes.from_header] tests the month of the
    first day of the range (group 7, empty here) and returns the
    positivity date 2021-10-30 as total reference date. *)
Theorem from_header_test_volume_without_month :
  DatasetTimes.from_header "TESTING: LAST WEEK (October 24-30, Test Volume October 20-26)"
    (Date 2021 11 4)
  = Ok (mkDatasetTimes "last" (Date 2021 10 30) (Date 2021 10 26))
  ∧ DatasetTimes.from_header "TESTING: LAST WEEK (October 24-30)" (Date 2021 11 4)
    = Ok (mkDatasetTimes "last" (Date 2021 10 30) (Date 2021 10 30))
  ∧ first (findall RE_DATE_FROM_HEADER 10
             "TESTING: LAST WEEK (October 24-30, Test Volume 20-October 26)")
    = Ok ["LAST"; "October"; "24"; ""; "30"; "20-October 26"; ""; "20"; "October"; "26"]%string
  ∧ DatasetTimes.as_date "TESTING: LAST WEEK (October 24-30, Test Volume 20-October 26)"
      (Date 2021 11 4) [""; "20"; "October"; "26"]%string
    = Ok (Date 2021 10 26)
  ∧ DatasetTimes.from_header "TESTING: LAST WEEK (October 24-30, Test Volume 20-October 26)"
      (Date 2021 11 4)
    = Ok (mkDatasetTimes "last" (Date 2021 10 30) (Date 2021 10 30)).
Proof. split_and!; by vm_compute. Qed.

(** ** More on strings: lower case, substrings *)

Module LowerFacts.
Import Str StrFacts.

Lemma lower_char_idemp c : lower_char (lower_char c) = lower_char c.
Proof. destruct c as [[] [] [] [] [] [] [] []]; vm_compute; reflexivity. Qed.

Lemma lower_idemp s : lower (lower s) = lower s.
Proof. induction s as [|c s IH]; [done|]. simpl. by rewrite lower_char_idemp, IH. Qed.

Lemma lower_app s t : lower (s +:+ t) = lower s +:+ lower t.
Proof. induction s as [|c s IH]; [done|]. rewrite app_cons. simpl. by rewrite IH. Qed.

Lemma length_lower s : String.length (lower s) = String.length s.
Proof. induction s as [|c s IH]; [done|]. simpl. by rewrite IH. Qed.

Lemma lower_substring n m s : lower (substring n m s) = substring n m (lower s).
Proof.
  revert n m. induction s as [|c s IH]; intros n m.
  - by destruct n, m.
  - destruct n as [|n]; [destruct m as [|m]|]; simpl; [done| |apply IH].
    by rewrite IH.
Qed.

(** Two texts of the same length that begin equal texts. *)
Lemma app_inj_length a a' b b' :
  String.length a = String.length a' → a +:+ b = a' +:+ b' → a = a' ∧ b = b'.
Proof.
  revert a'. induction a as [|c a IH]; intros [|c' a'] Hlen; try done.
  rewrite !app_cons. intros [= -> Heq]. simpl in Hlen.
  destruct (IH a' ltac:(lia) Heq) as [-> ->]. done.
Qed.

Lemma app_inv_head a b b' : a +:+ b = a +:+ b' → b = b'.
Proof. intros H. by apply app_inj_length in H as [_ ?]. Qed.

(** What occurs in a text in lower case is in lower case. *)
Lemma lower_of_occurs sub s : occurs_in sub (lower s) → lower sub = sub.
Proof.
  intros (pre & post & Heq).
  pose proof (lower_idemp s) as Hl. rewrite Heq in Hl at 1.
  rewrite Heq, !lower_app in Hl.
  apply app_inj_length in Hl as [_ Hl]; [|apply length_lower].
  apply app_inj_length in Hl as [Hl _]; [done|apply length_lower].
Qed.

End LowerFacts.

(** ** [Dataset.skip_overheader] *)

(** An overheader is read for its reference dates exactly when it is
    a string that begins with one of the two testing labels and holds
    the text [WEEK] followed by a blank and an opening parenthesis;
    any other cell (a number, an empty cell) is skipped. *)
Theorem skip_overheader_iff {V : Type} (header : cell V) :
  Dataset.skip_overheader header = false ↔
    ∃ h, header = CStr h
         ∧ ((∃ rest, h = "TESTING:" +:+ rest)
            ∨ (∃ rest, h = "VIRAL (RT-PCR) LAB TESTING:" +:+ rest))
         ∧ Str.occurs_in "WEEK (" h.
Proof.
  unfold Dataset.skip_overheader. rewrite negb_false_iff.
  destruct header as [h|v].
  - rewrite andb_true_iff, orb_true_iff, StrFacts.find_positive,
      !StrFacts.startswith_spec.
    split.
    + intros [Hpre [Hocc _]]. by exists h.
    + intros (h' & [= <-] & Hpre & Hocc). split_and!; [done..|].
      by destruct Hpre as [[rest ->]|[rest ->]].
  - split; [done|]. by intros (h & ? & _).
Qed.

(** ** [DatasetTimes.from_header]: the template *)

(** The text of a header that passes the assertion of [from_header]
    begins, on its first line, with some text, the label
    [TESTING: ], a week qualifier, the text [ WEEK (] and, further on, a
    closing parenthesis; the category is the qualifier in lower
    case. *)
Lemma match_header_shape header caps rest :
  match_ RE_DATE_FROM_HEADER header = Some (caps, rest) →
  ∃ pre tail,
    header = pre +:+ "TESTING: " +:+ group caps 1 +:+ " WEEK (" +:+ tail +:+ ")" +:+ rest
    ∧ Str.forallb Str.not_newline pre = true
    ∧ Str.forallb Str.not_newline (group caps 1) = true.
Proof.
  intros (w & -> & Hm)%ReFacts.match_sound.
  unfold RE_DATE_FROM_HEADER, DATE_RANGE_EXP, DATE_EXP in Hm.
  ReInv.inv_matches;
    match goal with
    | |- context [group ?c 1] =>
        let q := eval cbv in (group c 1) in change (group c 1) with q
    end;
    match goal with
    | |- ∃ pre tail,
           (?p +:+ _ +:+ _ +:+ _ +:+ ?r1 +:+ ?r2 +:+ ?sp +:+ ")") +:+ _ = _ ∧ _ =>
        exists p, (r1 +:+ r2 +:+ sp)
    end;
    (split; [by rewrite !StrFacts.app_assoc | done]).
Qed.

(** A header the pattern does not match from its beginning fails the
    assertion of [from_header]. That is so of every header without the
    label [TESTING: ] (with its blank), without [ WEEK (] or without a
    closing parenthesis. *)
Theorem from_header_rejects header publish_date :
  ¬ Str.occurs_in "TESTING: " header ∨ ¬ Str.occurs_in " WEEK (" header
  ∨ ¬ Str.occurs_in ")" header →
  DatasetTimes.from_header header publish_date
  = Raise (AssertionError ("Couldn't find reference date in header '" +:+ header +:+ "'")).
Proof.
  intros Hno. unfold DatasetTimes.from_header.
  destruct (match_ RE_DATE_FROM_HEADER header) as [[caps rest]|] eqn:Hm; [|done].
  exfalso. apply match_header_shape in Hm as (pre & tail & -> & _).
  destruct Hno as [Hno|[Hno|Hno]]; apply Hno.
  - by exists pre, (group caps 1 +:+ " WEEK (" +:+ tail +:+ ")" +:+ rest).
  - exists (pre +:+ "TESTING: " +:+ group caps 1), (tail +:+ ")" +:+ rest).
    by rewrite !StrFacts.app_assoc.
  - exists (pre +:+ "TESTING: " +:+ group caps 1 +:+ " WEEK (" +:+ tail), rest.
    by rewrite !StrFacts.app_assoc.
Qed.

Lemma from_header_rejects_witness :
  DatasetTimes.from_header "TESTING:LAST WEEK (October 24-30)" (Date 2021 11 4)
  = Raise (AssertionError
             "Couldn't find reference date in header 'TESTING:LAST WEEK (October 24-30)'").
Proof.
  apply (from_header_rejects "TESTING:LAST WEEK (October 24-30)" (Date 2021 11 4)).
  left. intros Hocc. apply StrFacts.find_nonneg in Hocc. vm_compute in Hocc. discriminate.
Defined.

(** The category of a header is its week qualifier in lower case: the
    text between the label [TESTING: ] and [ WEEK (], on the first line
    of the header. It is a text in lower case. *)
Theorem from_header_column header publish_date dt :
  DatasetTimes.from_header header publish_date = Ok dt →
  (∃ pre qualifier tail,
     header = pre +:+ "TESTING: " +:+ qualifier +:+ " WEEK (" +:+ tail
     ∧ Str.forallb Str.not_newline pre = true
     ∧ Str.forallb Str.not_newline qualifier = true
     ∧ column dt = Str.lower qualifier)
  ∧ Str.lower (column dt) = column dt.
Proof.
  intros (caps & rest & positivity & total & Hm & _ & _ & ->)%from_header_Ok.
  apply match_header_shape in Hm as (pre & tail & -> & Hpre & Hq). split.
  - exists pre, (group caps 1), (tail +:+ ")" +:+ rest). by split_and!.
  - simpl. apply LowerFacts.lower_idemp.
Qed.

Lemma from_header_column_witness :
  ∃ pre qualifier tail,
    "VIRAL (RT-PCR) LAB TESTING: Previous WEEK (August 24-30)"
    = pre +:+ "TESTING: " +:+ qualifier +:+ " WEEK (" +:+ tail
    ∧ Str.forallb Str.not_newline pre = true
    ∧ Str.forallb Str.not_newline qualifier = true
    ∧ "previous" = Str.lower qualifier.
Proof.
  apply (from_header_column "VIRAL (RT-PCR) LAB TESTING: Previous WEEK (August 24-30)"
           (Date 2020 9 3) (mkDatasetTimes "previous" (Date 2020 8 30) (Date 2020 8 30))).
  vm_compute. reflexivity.
Defined.

(** ** [strptime] on the text [as_date] formats *)

Module StrptimeFacts.
Import Str StrFacts Datetime LowerFacts.

Lemma substring_zero_app_hyphen name w x :
  forallb is_alpha name = true →
  String.eqb (substring 0 (String.length name) (w +:+ "-" +:+ x)) name
  = String.eqb (substring 0 (String.length name) w) name.
Proof.
  revert w. induction name as [|c name IH]; intros w Hname.
  - simpl. by destruct (w +:+ "-" +:+ x), w.
  - simpl in Hname. apply andb_true_iff in Hname as [Hc Hname].
    destruct w as [|a w].
    + rewrite app_nil_l. change ("-" +:+ x) with (String "-" x).
      cbn [String.length substring String.eqb].
      destruct (Ascii.eqb_spec "-" c) as [<-|_]; [by vm_compute in Hc|done].
    + rewrite app_cons. cbn [String.length substring String.eqb]. by rewrite IH.
Qed.

Lemma substring_whole s : substring 0 (String.length s) s = s.
Proof. induction s as [|c s IH]; [done|]. simpl. by rewrite IH. Qed.

Lemma substring_rest w y :
  substring (String.length w) (String.length (w +:+ y) - String.length w) (w +:+ y) = y.
Proof.
  induction w as [|c w IH].
  - rewrite app_nil_l. simpl. rewrite Nat.sub_0_r. apply substring_whole.
  - rewrite app_cons. simpl. exact IH.
Qed.

Lemma length_substring_zero n s :
  String.length (substring 0 n s) = Nat.min n (String.length s).
Proof.
  revert s. induction n as [|n IH]; intros [|c s]; simpl; try done.
  by rewrite IH.
Qed.

Lemma substring_rest_empty n s :
  n ≤ String.length s → substring n (String.length s - n) s = "" → String.length s = n.
Proof.
  revert s. induction n as [|n IH]; intros [|c s]; simpl; try done.
  - lia.
  - intros Hn Hs. f_equal. apply IH; [lia|done].
Qed.

(** The month a name stands for is still read when a hyphen and more
    text follow the name, and the text after the name is what
    follows. *)
Lemma month_prefix_app names n w k x :
  Forall (fun name => forallb is_alpha name = true) names →
  month_prefix names n w = Some (k, "") →
  month_prefix names n (w +:+ "-" +:+ x) = Some (k, "-" +:+ x).
Proof.
  intros Hnames. revert n. induction Hnames as [|name names Hname _ IH]; intros n; simpl.
  - done.
  - rewrite !lower_substring, lower_app, lower_app.
    change (lower "-") with "-".
    rewrite substring_zero_app_hyphen by done.
    destruct (String.eqb_spec (substring 0 (String.length name) (lower w)) name)
      as [Heq|_]; [|apply IH].
    intros [= <- Hrest].
    assert (String.length name ≤ String.length w) as Hle.
    { apply (f_equal String.length) in Heq.
      rewrite length_substring_zero, length_lower in Heq. lia. }
    apply substring_rest_empty in Hrest; [|done].
    rewrite <-Hrest. by rewrite substring_rest.
Qed.

Lemma month_names_alpha :
  Forall (fun name => forallb is_alpha name = true) month_names.
Proof. repeat constructor. Qed.

(** The number [%B] reads for a month name is between 1 and 12. *)
Lemma month_prefix_range names n w k rest :
  month_prefix names n w = Some (k, rest) → (n ≤ k < n + Z.of_nat (length names))%Z.
Proof.
  revert n. induction names as [|name names IH]; intros n; simpl; [done|].
  destruct (String.eqb _ _).
  - intros [= <- _]. lia.
  - intros Hk%IH. lia.
Qed.

Lemma strptime_B_Ok w k :
  strptime_B w = Ok k ↔ month_prefix month_names 1 w = Some (k, "").
Proof.
  unfold strptime_B.
  destruct (month_prefix month_names 1 w) as [[m [|c rest]]|]; split; congruence.
Qed.

Lemma strptime_B_range w k : strptime_B w = Ok k → (1 ≤ k ≤ 12)%Z.
Proof. intros Hk%strptime_B_Ok%month_prefix_range. simpl in Hk. lia. Qed.

(** What [%Y] reads back from [str(y)] followed by a hyphen: [y], and
    the text after the hyphen is left. *)
Lemma year_prefix_of_int_inv y rest y' s1 :
  year_prefix (of_int y +:+ "-" +:+ rest) = Some (y', String "-" s1) →
  y' = y ∧ s1 = rest.
Proof.
  intros Hy. split; [by eapply DateFacts.year_prefix_of_int|]. revert Hy.
  destruct (DateFacts.of_int_shape y) as [Hdig|[s Hs]].
  - assert (is_digit "-" = false) as Hminus by done.
    destruct (of_int y) as [|a [|b [|c [|d [|e t]]]]];
      rewrite ?app_cons, ?app_nil_l; unfold year_prefix.
    + destruct rest as [|? [|? [|? ?]]]; try done; by rewrite Hminus.
    + destruct rest as [|? [|? ?]]; try done; by rewrite Hminus, andb_false_r.
    + destruct rest as [|? ?]; try done; by rewrite Hminus, andb_false_r.
    + by rewrite Hminus, andb_false_r.
    + destruct (is_digit a && is_digit b && is_digit c && is_digit d); [|done].
      destruct (to_int _); [|done]. by intros [= _ <-].
    + destruct (is_digit a && is_digit b && is_digit c && is_digit d); [|done].
      destruct (to_int (String a (String b (String c (String d ""))))); [|done].
      intros [= _ -> _]. cbn [forallb] in Hdig. rewrite Hminus in Hdig.
      by rewrite !andb_false_r in Hdig.
  - rewrite Hs, app_cons. unfold year_prefix.
    by destruct (s +:+ "-" +:+ rest) as [|? [|? [|? ?]]].
Qed.

(** A day of one or two digits that [%d] reads whole is the number
    its digits denote. *)
Lemma day_prefix_digits s d :
  forallb is_digit s = true →
  day_prefix s = Some (d, "") → d = DigitFacts.decimal_value s.
Proof.
  destruct s as [|a [|b [|c s]]]; [done| | |].
  - simpl. intros _. destruct (is_digit_in 1 9 a); [|done].
    intros [= <-]. unfold DigitFacts.decimal_value. simpl. lia.
  - cbn [forallb]. rewrite andb_true_r. intros [Ha Hb]%andb_true_iff.
    unfold day_prefix, DigitFacts.decimal_value. cbn [DigitFacts.decimal_acc].
    destruct (Ascii.eqb_spec a "3") as [->|_]; cbn [andb].
    { destruct (is_digit_in 0 1 b); [intros [= <-]; unfold digit_value; simpl; lia|].
      cbn. by rewrite Hb. }
    destruct (is_digit_in 1 2 a && is_digit b); [intros [= <-]; lia|].
    destruct (Ascii.eqb_spec a "0") as [->|_]; cbn [andb].
    { destruct (is_digit_in 1 9 b); [intros [= <-]; unfold digit_value; simpl; lia|].
      done. }
    destruct (is_digit_in 1 9 a); [done|].
    destruct (Ascii.eqb_spec a " ") as [->|_]; [done|done].
  - unfold day_prefix. intros _.
    destruct (Ascii.eqb a "3" && is_digit_in 0 1 b); [done|].
    destruct (is_digit_in 1 2 a && is_digit b); [done|].
    destruct (Ascii.eqb a "0" && is_digit_in 1 9 b); [done|].
    destruct (is_digit_in 1 9 a); [done|].
    by destruct (Ascii.eqb a " " && is_digit_in 1 9 b).
Qed.

End StrptimeFacts.

(** ** [DatasetTimes.from_header]: the reference dates *)

(** The date [as_date] resolves: the month its month word names, the
    day [%d] reads from the second day of the range, in the year of
    [year_rule]; it is a date of the calendar. *)
Lemma as_date_resolved header publish_date sub_result d :
  DatasetTimes.as_date header publish_date sub_result = Ok d →
  ∃ month_numeric day_,
    Datetime.strptime_B (DatasetTimes.range_month sub_result) = Ok month_numeric
    ∧ Datetime.day_prefix (item sub_result 3) = Some (day_, "")
    ∧ d = Date (year_rule publish_date month_numeric) month_numeric day_
    ∧ Datetime.valid (year_rule publish_date month_numeric) month_numeric day_ = true.
Proof.
  unfold DatasetTimes.as_date. intros (_ & _ & (k & Hk & Hd)%bind_Ok)%bind_Ok.
  exists k. fold (year_rule publish_date k) in Hd.
  unfold Datetime.strptime_YBd in Hd.
  destruct (Datetime.year_prefix _) as [[y' [|c s1]]|] eqn:Hy; [done| |done].
  destruct (Ascii.eqb_spec c "-") as [->|Hne];
    [|by destruct c as [[] [] [] [] [] [] [] []]].
  apply StrptimeFacts.year_prefix_of_int_inv in Hy as [-> ->].
  apply StrptimeFacts.strptime_B_Ok in Hk as Hprefix.
  rewrite (StrptimeFacts.month_prefix_app _ _ _ _ _ StrptimeFacts.month_names_alpha Hprefix)
    in Hd.
  change ("-" +:+ item sub_result 3) with (String "-" (item sub_result 3)) in Hd.
  cbn iota beta in Hd.
  destruct (Datetime.day_prefix (item sub_result 3)) as [[day_ [|? ?]]|]; [|done..].
  apply DateFacts.date_new_Ok in Hd as [-> Hvalid]. by exists day_.
Qed.

(** A day group of a header: one or two digits. *)
Definition day_group (s : string) : Prop :=
  Str.forallb Str.is_digit s = true ∧ 1 ≤ String.length s ≤ 2.

(** The second day of each range of a matched header is a day group. *)
Lemma header_day_groups w caps :
  ReFacts.Matches RE_DATE_FROM_HEADER w [] caps →
  day_group (group caps 5)
  ∧ (Str.truthy (group caps 7) = true → day_group (group caps 10)).
Proof.
  unfold RE_DATE_FROM_HEADER, DATE_RANGE_EXP, DATE_EXP. intros Hm.
  ReInv.inv_matches; (split; [|try done; intros _]);
    match goal with
    | |- day_group (group ?c ?i) =>
        let q := eval cbv in (group c i) in change (group c i) with q
    end; by split.
Qed.

(** The dates [from_header] returns. The positivity reference date is
    the second day of the first range of the header, in the month
    written before that day or else before the first day, in the year
    of [year_rule]. The total reference date is the same of the second
    range when a month is written before its first day, and the
    positivity reference date otherwise. Both are dates of the
    calendar. *)
Theorem from_header_reference_dates header publish_date dt :
  DatasetTimes.from_header header publish_date = Ok dt →
  ∃ g,
    first (findall RE_DATE_FROM_HEADER 10 header) = Ok g
    ∧ (∃ m,
         Datetime.strptime_B (DatasetTimes.range_month (slice 1 5 g)) = Ok m
         ∧ positivity_reference_date dt
           = Date (year_rule publish_date m) m (DigitFacts.decimal_value (item g 4))
         ∧ Datetime.valid (year_rule publish_date m) m
             (DigitFacts.decimal_value (item g 4)) = true)
    ∧ (if Str.truthy (item g 6)
       then ∃ m,
              Datetime.strptime_B (DatasetTimes.range_month (slice 6 10 g)) = Ok m
              ∧ total_reference_date dt
                = Date (year_rule publish_date m) m (DigitFacts.decimal_value (item g 9))
              ∧ Datetime.valid (year_rule publish_date m) m
                  (DigitFacts.decimal_value (item g 9)) = true
       else total_reference_date dt = positivity_reference_date dt).
Proof.
  intros (caps & rest & positivity & total & Hm & Hpos & Htot & ->)%from_header_Ok.
  exists (groups 10 caps). split; [by eapply ReFacts.findall_first_of_match|].
  apply ReFacts.match_sound in Hm as (w & _ & Hm).
  apply header_day_groups in Hm as [[Hd5 _] Hd10].
  change (item (groups 10 caps) 6) with (group caps 7).
  change (item (groups 10 caps) 4) with (group caps 5).
  change (item (groups 10 caps) 9) with (group caps 10).
  cbn [positivity_reference_date total_reference_date].
  apply as_date_resolved in Hpos as (m & d & Hmonth & Hday & -> & Hvalid).
  change (item (slice 1 5 (groups 10 caps)) 3) with (group caps 5) in Hday.
  apply StrptimeFacts.day_prefix_digits in Hday as ->; [|done].
  split; [by exists m|].
  destruct (Str.truthy (group caps 7)); [|by injection Htot].
  apply as_date_resolved in Htot as (m' & d' & Hmonth' & Hday' & -> & Hvalid').
  change (item (slice 6 10 (groups 10 caps)) 3) with (group caps 10) in Hday'.
  destruct (Hd10 eq_refl) as [Hd10' _].
  apply StrptimeFacts.day_prefix_digits in Hday' as ->; [|done].
  by exists m'.
Qed.

Lemma from_header_reference_dates_witness :
  ∃ g,
    first (findall RE_DATE_FROM_HEADER 10
             "TESTING: LAST WEEK (December 27-January 2, Test Volume December 23-29)")
    = Ok g
    ∧ (∃ m,
         Datetime.strptime_B (DatasetTimes.range_month (slice 1 5 g)) = Ok m
         ∧ Date 2021 1 2
           = Date (year_rule (Date 2021 1 5) m) m (DigitFacts.decimal_value (item g 4))
         ∧ Datetime.valid (year_rule (Date 2021 1 5) m) m
             (DigitFacts.decimal_value (item g 4)) = true)
    ∧ (if Str.truthy (item g 6)
       then ∃ m,
              Datetime.strptime_B (DatasetTimes.range_month (slice 6 10 g)) = Ok m
              ∧ Date 2020 12 29
                = Date (year_rule (Date 2021 1 5) m) m (DigitFacts.decimal_value (item g 9))
              ∧ Datetime.valid (year_rule (Date 2021 1 5) m) m
                  (DigitFacts.decimal_value (item g 9)) = true
       else Date 2020 12 29 = Date 2021 1 2).
Proof.
  apply (from_header_reference_dates
           "TESTING: LAST WEEK (December 27-January 2, Test Volume December 23-29)"
           (Date 2021 1 5) (mkDatasetTimes "last" (Date 2021 1 2) (Date 2020 12 29))).
  vm_compute. reflexivity.
Defined.

(** ** [DatasetTimes.from_header]: the text of the second range *)

(** The header holds a second range: the text [, Test Volume ], a
    month word and a blank, the first day, a hyphen, for the second day
    either nothing or a month word and a blank, the second day, blanks
    and a closing parenthesis. *)
Definition test_volume_range (header month1 day1 month2 day2 : string) : Prop :=
  ∃ pre sep blanks post,
    header = pre +:+ ", Test Volume " +:+ month1 +:+ " " +:+ day1 +:+ "-"
                 +:+ sep +:+ day2 +:+ blanks +:+ ")" +:+ post
    ∧ ((sep = "" ∧ month2 = "") ∨ sep = month2 +:+ " ")
    ∧ Str.forallb Str.is_alpha month1 = true
    ∧ Str.forallb Str.is_alpha month2 = true
    ∧ day_group day1 ∧ day_group day2
    ∧ Str.forallb Str.is_space_char blanks = true.

Lemma header_test_volume_range w caps :
  ReFacts.Matches RE_DATE_FROM_HEADER w [] caps →
  Str.truthy (group caps 7) = true →
  ∀ rest,
    test_volume_range (w +:+ rest) (group caps 7) (group caps 8) (group caps 9)
      (group caps 10).
Proof.
  unfold RE_DATE_FROM_HEADER, DATE_RANGE_EXP, DATE_EXP. intros Hm.
  ReInv.inv_matches; try done; intros _ rest;
    repeat match goal with
      | |- context [group ?c ?i] =>
          let q := eval cbv in (group c i) in change (group c i) with q
      end;
    match goal with
    | |- test_volume_range
           ((?a +:+ ?b +:+ ?c +:+ ?d +:+ ?e
               +:+ (", Test Volume " +:+ _ +:+ "-" +:+ ?s +:+ _) +:+ ?sp +:+ ")") +:+ _)
           _ _ _ _ =>
        exists (a +:+ b +:+ c +:+ d +:+ e), s, sp, rest
    end;
    (split_and!; [by rewrite !StrFacts.app_assoc|by (left + right)|done..]).
Qed.

(** The second range of a header, in its text. When the group of the
    month before the first day of the second range is not empty, the
    header holds, after the text [, Test Volume ], that month word, a
    blank, the first day, a hyphen, the second day (with or without a
    month word and a blank before it), blanks and a closing
    parenthesis: the four groups are these parts of the header. The
    total reference date is the second day in the month written before
    it, or else before the first day, in the year of [year_rule]. Two
    reference dates that differ come from a header with such a
    range. *)
Theorem from_header_test_volume_range header publish_date dt :
  DatasetTimes.from_header header publish_date = Ok dt →
  ∃ g,
    first (findall RE_DATE_FROM_HEADER 10 header) = Ok g
    ∧ (Str.truthy (item g 6) = true →
       test_volume_range header (item g 6) (item g 7) (item g 8) (item g 9)
       ∧ ∃ m,
           Datetime.strptime_B (if Str.truthy (item g 8) then item g 8 else item g 6)
           = Ok m
           ∧ total_reference_date dt
             = Date (year_rule publish_date m) m (DigitFacts.decimal_value (item g 9)))
    ∧ (total_reference_date dt ≠ positivity_reference_date dt →
       Str.truthy (item g 6) = true).
Proof.
  intros (caps & rest & positivity & total & Hm & Hpos & Htot & ->)%from_header_Ok.
  exists (groups 10 caps). split; [by eapply ReFacts.findall_first_of_match|].
  apply ReFacts.match_sound in Hm as (w & -> & Hm).
  change (item (groups 10 caps) 6) with (group caps 7).
  change (item (groups 10 caps) 7) with (group caps 8).
  change (item (groups 10 caps) 8) with (group caps 9).
  change (item (groups 10 caps) 9) with (group caps 10).
  cbn [positivity_reference_date total_reference_date].
  split.
  - intros Ht. rewrite Ht in Htot.
    pose proof (header_test_volume_range w caps Hm Ht rest) as Hrange.
    split; [done|].
    destruct Hrange as (_ & _ & _ & _ & _ & _ & _ & _ & _ & [Hday _] & _).
    apply as_date_resolved in Htot as (m & d & Hmonth & Hday' & -> & _).
    change (item (slice 6 10 (groups 10 caps)) 3) with (group caps 10) in Hday'.
    apply StrptimeFacts.day_prefix_digits in Hday' as ->; [|done].
    by exists m.
  - intros Hne. destruct (Str.truthy (group caps 7)); [done|].
    by injection Htot.
Qed.

Lemma from_header_test_volume_range_witness :
  DatasetTimes.from_header
    "TESTING: LAST WEEK (December 27-January 2, Test Volume December 23-29)"
    (Date 2021 1 5)
  = Ok (mkDatasetTimes "last" (Date 2021 1 2) (Date 2020 12 29))
  ∧ test_volume_range
      "TESTING: LAST WEEK (December 27-January 2, Test Volume December 23-29)"
      "December" "23" "" "29"
  ∧ ∃ m,
      Datetime.strptime_B "December" = Ok m
      ∧ Date 2020 12 29 = Date (year_rule (Date 2021 1 5) m) m 29.
Proof.
  split; [vm_compute; reflexivity|].
  destruct (from_header_test_volume_range
              "TESTING: LAST WEEK (December 27-January 2, Test Volume December 23-29)"
              (Date 2021 1 5) (mkDatasetTimes "last" (Date 2021 1 2) (Date 2020 12 29)))
    as (g & Hg & Hrange & _); [vm_compute; reflexivity|].
  vm_compute in Hg. injection Hg as <-.
  destruct (Hrange eq_refl) as [Htext Hdate]. split; [exact Htext|exact Hdate].
Defined.

(** The months counted from year 0: what orders two dates by month. *)
Definition month_index (d : date) : Z := (12 * year d + month d)%Z.

Lemma year_rule_window publish_date m :
  (1 ≤ month publish_date ≤ 12)%Z → (1 ≤ m ≤ 12)%Z →
  (month_index publish_date - 12
   < month_index (Date (year_rule publish_date m) m 1)
   ≤ month_index publish_date)%Z.
Proof.
  unfold month_index, year_rule. simpl. intros Hp Hm.
  destruct (Z.gtb_spec m (month publish_date)); lia.
Qed.

(** For a report published in a month of the calendar, the month of a
    reference date is the publish month or one of the eleven months
    before it: never a later month, never a year or more back. *)
Theorem from_header_within_a_year header publish_date dt :
  DatasetTimes.from_header header publish_date = Ok dt →
  (1 ≤ month publish_date ≤ 12)%Z →
  (month_index publish_date - 12 < month_index (positivity_reference_date dt)
   ≤ month_index publish_date)%Z
  ∧ (month_index publish_date - 12 < month_index (total_reference_date dt)
     ≤ month_index publish_date)%Z.
Proof.
  intros (caps & rest & positivity & total & _ & Hpos & Htot & ->)%from_header_Ok Hp.
  cbn [positivity_reference_date total_reference_date].
  apply as_date_resolved in Hpos as (m & d & Hmonth%StrptimeFacts.strptime_B_range & _ & -> & _).
  split; [by apply (year_rule_window publish_date m)|].
  destruct (Str.truthy (group caps 7)).
  - apply as_date_resolved in Htot
      as (m' & d' & Hmonth'%StrptimeFacts.strptime_B_range & _ & -> & _).
    by apply (year_rule_window publish_date m').
  - injection Htot as <-. by apply (year_rule_window publish_date m).
Qed.

Lemma from_header_within_a_year_witness :
  (month_index (Date 2021 1 5) - 12 < month_index (Date 2021 1 2)
   ≤ month_index (Date 2021 1 5))%Z
  ∧ (month_index (Date 2021 1 5) - 12 < month_index (Date 2020 12 29)
     ≤ month_index (Date 2021 1 5))%Z.
Proof.
  apply (from_header_within_a_year
           "TESTING: LAST WEEK (December 27-January 2, Test Volume December 23-29)"
           (Date 2021 1 5) (mkDatasetTimes "last" (Date 2021 1 2) (Date 2020 12 29))).
  - vm_compute. reflexivity.
  - simpl. lia.
Defined.

(** ** More on loops *)

Lemma mapM_Raise {A B} (f : A → result B) l e :
  mapM f l = Raise e → ∃ x, x ∈ l ∧ f x = Raise e.
Proof.
  induction l as [|x l IH]; simpl; [done|].
  destruct (f x) as [y|e'] eqn:Hx; simpl.
  - destruct (mapM f l) as [ys|e'] eqn:Hl; simpl; [done|].
    intros [= ->]. destruct (IH eq_refl) as (x' & Hin & Hx'). exists x'. split; [by right|done].
  - intros [= ->]. exists x. split; [left|done].
Qed.

Lemma mapM_raises {A B} (f : A → result B) l x :
  x ∈ l → raises (f x) → raises (mapM f l).
Proof.
  intros Hin Hx. apply raises_not_Ok. intros ys Hys.
  destruct (mapM_Ok_elem_of _ _ _ _ Hys Hin) as (y & _ & Hy).
  destruct Hx as [e He]. congruence.
Qed.

Lemma mapM_is_ok {A B} (f : A → result B) l :
  Forall (fun x => is_ok (f x) = true) l → is_ok (mapM f l) = true.
Proof.
  induction 1 as [|x l Hx _ IH]; simpl; [done|].
  destruct (f x); [|done]. simpl. by destruct (mapM f l).
Qed.

(** Every step of a loop that ended without an exception ended
    without one. *)
Lemma foldM_Ok_elem {A S} (f : S → A → result S) l s s' x :
  foldM f s l = Ok s' → x ∈ l → ∃ s1 s2, f s1 x = Ok s2.
Proof.
  revert s. induction l as [|y l IH]; intros s; simpl.
  - by intros _ ?%elem_of_nil.
  - intros (s1 & Hy & Hl)%bind_Ok [->|Hin]%elem_of_cons; [eauto|by eapply IH].
Qed.

(** ** [Dataset._parse_times_for_sheet]: a header that does not parse *)

Section UnreadableHeader.
Context {I V G0 G : Type}.
Implicit Types (self : Dataset.t I V G) (sheet : SheetSpec I V G0 G).
Implicit Types (data : SheetData I V).

Lemma relevant_headers_elem (ovs : list (cell V)) h :
  CStr h ∈ ovs → Dataset.skip_overheader (CStr (V:=V) h) = false →
  h ∈ TimesFacts.relevant_headers ovs.
Proof.
  intros Hin Hskip. unfold TimesFacts.relevant_headers.
  apply list_elem_of_omap. exists (CStr h). split; [done|]. by rewrite Hskip.
Qed.

(** An overheader that [skip_overheader] lets through and
    [from_header] cannot read fails the whole sheet: the exception is
    not caught and the header is not skipped. The two tests differ: a
    header with the label [TESTING:] and [WEEK (] is let through, and
    the pattern asks for a blank after the label and before
    [WEEK]. *)
Theorem parse_times_for_sheet_unreadable_header self sheet data h :
  Dataset.read_excel self sheet = Ok data →
  CStr h ∈ overheader_row data →
  Dataset.skip_overheader (CStr (V:=V) h) = false →
  raises (DatasetTimes.from_header h (Dataset.publish_date self)) →
  raises (Dataset._parse_times_for_sheet self sheet).
Proof.
  intros Hread Hin Hskip [e He]. apply raises_not_Ok. intros self' Hok.
  assert (is_ok (Dataset._parse_times_for_sheet self sheet) = true) as Hok'
    by (by rewrite Hok).
  apply (parse_times_for_sheet_is_ok _ _ _ Hread) in Hok' as (dts & Hdts & _).
  pose proof (relevant_headers_elem _ _ Hin Hskip) as Hrel.
  destruct (mapM_Ok_elem_of _ _ _ _ Hdts Hrel) as (dt & _ & Hdt).
  simpl in Hdt. congruence.
Qed.

End UnreadableHeader.

(** ** [Dataset._parse_sheet]: the selected headers *)

(** The detail header [h] holds a hyphen and a blank, the week
    qualifier [q], a blank and [7 days], the qualifier on one
    line. *)
Definition column_header (h q : string) : Prop :=
  ∃ pre post,
    h = pre +:+ "- " +:+ q +:+ " 7 days" +:+ post
    ∧ Str.forallb Str.not_newline q = true.

Lemma findall_column_sound h g :
  first (findall RE_COLUMN_FROM_HEADER 1 h) = Ok g →
  ∃ q, g = [q] ∧ column_header h q.
Proof.
  intros (pre & w & rest & caps & -> & Hm & ->)%ReFacts.findall_first_sound.
  unfold RE_COLUMN_FROM_HEADER in Hm. ReInv.inv_matches.
  match goal with
  | Hq : Str.forallb Str.not_newline ?q = true |- _ =>
      exists q; split; [done|]; exists pre, rest; split; [|done]
  end.
  by rewrite !StrFacts.app_assoc.
Qed.

Lemma findall_column_complete h q :
  column_header h q → is_ok (first (findall RE_COLUMN_FROM_HEADER 1 h)) = true.
Proof.
  intros (pre & post & -> & Hq).
  replace (pre +:+ "- " +:+ q +:+ " 7 days" +:+ post)
    with (pre +:+ ("- " +:+ q +:+ " 7 days") +:+ post)
    by (by rewrite !StrFacts.app_assoc).
  eapply ReFacts.findall_first_complete.
  unfold RE_COLUMN_FROM_HEADER.
  repeat first
    [ eapply ReFacts.M_Seq | eapply ReFacts.M_Grp | eapply ReFacts.M_Lit
    | eapply ReFacts.M_Star ]; done.
Qed.

Section SelectedHeaders.
Context {I V : Type}.
Implicit Types (df : DataFrame I V) (select : list Dataset.selected).

Lemma select_one_Ok h s :
  (g ← first (findall RE_COLUMN_FROM_HEADER 1 h);
   Ok (item g 0, h, Str.lower h)) = Ok s →
  ∃ q, s = (q, h, Str.lower h) ∧ column_header h q.
Proof.
  intros (g & (q & -> & Hq)%findall_column_sound & [= <-])%bind_Ok. by exists q.
Qed.

(** The list [select] holds one triple for each retained header, in
    the order of the columns: a week qualifier of the header, the
    header and the header in lower case. It is built exactly when
    every retained header has a week qualifier; one retained header
    without any makes [_parse_sheet] stop with an [IndexError]. *)
Theorem select_headers_spec df :
  (∀ select,
     Dataset.select_headers df = Ok select →
     Forall2 (fun h s => ∃ q, s = (q, h, Str.lower h) ∧ column_header h q)
             (retained_headers df) select)
  ∧ (Forall (fun h => ∃ q, column_header h q) (retained_headers df) →
     is_ok (Dataset.select_headers df) = true)
  ∧ ((∃ h, h ∈ retained_headers df ∧ ∀ q, ¬ column_header h q) →
     Dataset.select_headers df = Raise IndexError).
Proof.
  unfold Dataset.select_headers. fold (retained_headers df).
  generalize (retained_headers df). intros hs. split_and!.
  - induction hs as [|h hs IH]; intros select.
    + intros [= <-]. constructor.
    + intros (s & select' & Hs & Hrest & ->)%mapM_Ok_cons.
      constructor; [by apply select_one_Ok | by apply IH].
  - intros Hall. apply mapM_is_ok. eapply Forall_impl; [exact Hall|].
    intros h [q Hq%findall_column_complete]. simpl.
    by destruct (first (findall RE_COLUMN_FROM_HEADER 1 h)).
  - intros (h & Hin & Hno).
    destruct (mapM _ hs) as [select|e] eqn:Hsel.
    + destruct (mapM_Ok_elem_of _ _ _ _ Hsel Hin) as (s & _ & Hs).
      apply select_one_Ok in Hs as (q & _ & Hq). by destruct (Hno q).
    + apply mapM_Raise in Hsel as (h' & _ & Hh'). f_equal.
      destruct (findall RE_COLUMN_FROM_HEADER 1 h') as [|g l]; simpl in Hh'; congruence.
Qed.

End SelectedHeaders.

Section SheetTables.
Context {I V G0 G : Type}.
Context (SIGNALS : list string) (truediv7 : V → V).
Implicit Types (self : Dataset.t I V G) (sheet : SheetSpec I V G0 G).
Implicit Types (data : SheetData I V) (df : DataFrame I V).
Implicit Types (select : list Dataset.selected).

Lemma parse_sheet_Ok self sheet self' :
  Dataset._parse_sheet SIGNALS truediv7 self sheet = Ok self' →
  ∃ data select dfs' total,
    Dataset.read_excel self sheet = Ok data
    ∧ Dataset.select_headers (filtered_frame sheet data) = Ok select
    ∧ foldM (Dataset.extract_signal self sheet (filtered_frame sheet data) select)
            (Dataset.dfs self) SIGNALS = Ok dfs'
    ∧ dfs' !! (level sheet, "total") = Some total
    ∧ self' = Dataset.mk (Dataset.publish_date self) (Dataset.url self)
                (Dataset.workbook self)
                (<[(level sheet, "total") := map (Dataset.scale_val truediv7) total]> dfs')
                (Dataset.times self).
Proof.
  intros Hok.
  destruct (Dataset.read_excel self sheet) as [data|e] eqn:Hread;
    [|by unfold Dataset._parse_sheet in Hok; rewrite Hread in Hok].
  rewrite (parse_sheet_unfold _ _ _ _ _ Hread) in Hok.
  apply bind_Ok in Hok as (select & Hsel & Hok).
  apply bind_Ok in Hok as (dfs' & Hloop & Hok).
  apply bind_Ok in Hok as (total & Hget & [= <-]).
  exists data, select, dfs', total. split_and!; try done.
  by destruct (dfs' !! (level sheet, "total")) as [t|]; [injection Hget as ->|].
Qed.

Lemma signal_frame_Ok self sheet df sig si rows :
  Dataset.signal_frame self sheet df sig si = Ok rows →
  ∃ dt ts vals,
    Dataset.times self !! si.1.1 = Some dt
    ∧ DatasetTimes.__getitem__ dt sig = Ok ts
    ∧ df_getitem df si.1.2 = Ok vals
    ∧ rows = Dataset.make_frame
               (series_apply (geo_id_apply sheet) (geo_id_select sheet df)) ts vals.
Proof.
  unfold Dataset.signal_frame. intros (dt & Hdt & Hrest)%bind_Ok.
  apply bind_Ok in Hrest as (ts & Hts & Hrest).
  apply bind_Ok in Hrest as (vals & Hvals & [= <-]).
  exists dt, ts, vals. split_and!; try done.
  by destruct (Dataset.times self !! si.1.1) as [dt'|]; [injection Hdt as ->|].
Qed.

Lemma getitem_Ok (dt : DatasetTimes) key d :
  DatasetTimes.__getitem__ dt key = Ok d →
  (Str.lower key = "positivity" ∧ d = positivity_reference_date dt)
  ∨ (Str.lower key = "total" ∧ d = total_reference_date dt).
Proof.
  unfold DatasetTimes.__getitem__.
  destruct (String.eqb_spec (Str.lower key) "positivity") as [Hp|_];
    [intros [= <-]; by left|].
  destruct (String.eqb_spec (Str.lower key) "total") as [Ht|_]; [|done].
  intros [= <-]. by right.
Qed.

Lemma parsed_sheet_signal self sheet self' sig :
  Dataset._parse_sheet SIGNALS truediv7 self sheet = Ok self' →
  sig ∈ SIGNALS →
  sig = "total" ∨ sig = "positivity".
Proof.
  intros (data & select & dfs' & total & _ & Hsel & Hloop & _)%parse_sheet_Ok Hsig.
  destruct (foldM_Ok_elem _ _ _ _ _ Hloop Hsig) as (dfs1 & dfs2 & Hstep).
  unfold Dataset.extract_signal in Hstep.
  apply bind_Ok in Hstep as (_ & Hlen%assert_Ok%Nat.ltb_lt & Hstep).
  apply bind_Ok in Hstep as (frames & Hframes & _).
  match type of Hframes with
  | mapM _ ?l = _ => destruct l as [|si sel] eqn:Hfilter; [simpl in Hlen; lia|]
  end.
  assert (si ∈ si :: sel) as Hsi by left. rewrite <-Hfilter in Hsi.
  apply list_elem_of_In, filter_In in Hsi as [Hin%list_elem_of_In Hfind].
  apply StrFacts.find_nonneg in Hfind.
  destruct (select_headers_elem _ _ _ Hsel Hin) as (h & _ & _ & Hlow).
  rewrite Hlow in Hfind. apply LowerFacts.lower_of_occurs in Hfind.
  apply mapM_Ok_cons in Hframes as (rows & _ & Hrows & _).
  apply signal_frame_Ok in Hrows as (dt & ts & _ & _ & Hts & _).
  apply getitem_Ok in Hts as [[Hkey _]|[Hkey _]]; rewrite Hfind in Hkey; eauto.
Qed.

(** The signals [_parse_sheet] can serve are [total] and
    [positivity], written so: the name of a signal is looked for in
    the headers in lower case, and it is the key of the reference
    date. With any other name among [SIGNALS] no sheet is ever
    parsed. *)
Theorem parse_sheet_signals self sheet self' sig :
  Dataset._parse_sheet SIGNALS truediv7 self sheet = Ok self' →
  sig ∈ SIGNALS →
  sig = "total" ∨ sig = "positivity".
Proof. apply parsed_sheet_signal. Qed.

Lemma make_frame_timestamp (geo : Series I G) ts (vals : Series I V) r :
  r ∈ Dataset.make_frame geo ts vals → timestamp r = ts.
Proof.
  unfold Dataset.make_frame. intros (i & Hi)%list_elem_of_lookup_1.
  apply lookup_zip_with_Some in Hi as (iv & g & -> & _). done.
Qed.

(** The timestamp of every row [_parse_sheet] extracts for a signal
    is a reference date that [self.times] records for a week
    qualifier: the total reference date in the table of [total], the
    positivity reference date in the table of [positivity]. *)
Theorem parse_sheet_timestamps self sheet self' sig table r :
  Dataset._parse_sheet SIGNALS truediv7 self sheet = Ok self' →
  sig ∈ SIGNALS →
  Dataset.dfs self' !! (level sheet, sig) = Some table →
  r ∈ table →
  ∃ qualifier dt,
    Dataset.times self !! qualifier = Some dt
    ∧ timestamp r = (if decide (sig = "total") then total_reference_date dt
                     else positivity_reference_date dt).
Proof.
  intros Hok Hsig Htable Hr.
  pose proof (parsed_sheet_signal _ _ _ _ Hok Hsig) as Hname.
  apply parse_sheet_Ok in Hok as (data & select & dfs' & total & _ & _ & Hloop & Htotal & ->).
  apply extract_loop in Hloop as [Hin _].
  destruct (Hin sig Hsig) as (frames & Hframes & Hlook).
  assert (∃ r', r' ∈ concat frames ∧ timestamp r = timestamp r') as (r' & Hr' & ->).
  { cbn [Dataset.dfs] in Htable. destruct (decide (sig = "total")) as [->|Hne].
    - rewrite lookup_insert_eq in Htable. injection Htable as <-.
      rewrite Hlook in Htotal. injection Htotal as <-.
      apply list_elem_of_fmap in Hr as (r' & -> & Hr'). by exists r'.
    - rewrite lookup_insert_ne in Htable by (by intros [= <-]).
      rewrite Hlook in Htable. injection Htable as <-. by exists r. }
  apply list_elem_of_In, in_concat in Hr' as (rows & Hrows%list_elem_of_In & Hr'%list_elem_of_In).
  destruct (mapM_Ok_elem _ _ _ _ Hframes Hrows) as (si & _ & Hsi).
  apply signal_frame_Ok in Hsi as (dt & ts & vals & Hdt & Hts & _ & ->).
  apply make_frame_timestamp in Hr' as ->.
  exists si.1.1, dt. split; [done|].
  apply getitem_Ok in Hts as [[Hkey ->]|[Hkey ->]];
    destruct Hname as [->| ->]; done.
Qed.

End SheetTables.

(** ** [Dataset.__init__]: the cache and the finished instance *)

Section Constructor.
Context {I V G0 G Bytes : Type}.
Context (SIGNALS : list string) (TRANSFORMS : list (string * SheetSpec I V G0 G)).
Context (DOWNLOAD_ATTACHMENT : string → string → string).
Context (quote_as_url : string → string) (truediv7 : V → V).
Context (ExcelFile : Bytes → result (gmap string (SheetData I V))).
Implicit Types (self : Dataset.t I V G) (sheet : SheetSpec I V G0 G).
Implicit Types (fs : gmap string Bytes) (config : Config).

Local Abbreviation Dataset_new :=
  (new_dataset SIGNALS TRANSFORMS DOWNLOAD_ATTACHMENT quote_as_url truediv7 ExcelFile).
Local Abbreviation parse_one_sheet :=
  (Dataset.parse_one_sheet SIGNALS TRANSFORMS truediv7).

(** The input cache after [Dataset(config)]: the cache as it was, with
    the downloaded report under [cached_filename] when the publish
    date could be read and the file was not there. *)
Lemma new_dataset_fs requests_get fs config sheets :
  (Dataset_new requests_get fs config sheets).1
  = match Dataset.parse_publish_date (filename config), fs !! cached_filename config with
    | Ok _, None =>
        <[cached_filename config :=
            requests_get (DOWNLOAD_ATTACHMENT (assetId config)
                                              (quote_as_url (filename config)))]> fs
    | _, _ => fs
    end.
Proof.
  destruct (fs !! cached_filename config) as [content|] eqn:Hc.
  - rewrite (new_dataset_cached _ _ _ _ _ _ _ _ _ _ content Hc).
    by destruct (Dataset.parse_publish_date (filename config)).
  - rewrite (new_dataset_download _ _ _ _ _ _ _ _ _ _ Hc).
    by destruct (Dataset.parse_publish_date (filename config)).
Qed.


Lemma parse_times_for_sheet_fields self sheet self' :
  Dataset._parse_times_for_sheet self sheet = Ok self' →
  Dataset.dfs self' = Dataset.dfs self
  ∧ size (Dataset.times self') = 2
  ∧ Dataset.publish_date self' = Dataset.publish_date self
  ∧ Dataset.url self' = Dataset.url self
  ∧ Dataset.workbook self' = Dataset.workbook self
  ∧ is_Some (Dataset.workbook self !! name sheet).
Proof.
  unfold Dataset._parse_times_for_sheet, Dataset.read_excel.
  destruct (Dataset.workbook self !! name sheet) as [data|]; [|done]. simpl.
  intros (times' & Ht & [= <-])%bind_Ok. simpl. split_and!; try done.
  unfold Dataset.times_of_overheaders in Ht.
  apply bind_Ok in Ht as (t & _ & Ht).
  apply bind_Ok in Ht as (_ & Hsize%assert_Ok%Nat.eqb_eq & [= <-]). done.
Qed.

Lemma parse_sheet_fields self sheet self' :
  Dataset._parse_sheet SIGNALS truediv7 self sheet = Ok self' →
  Dataset.times self' = Dataset.times self
  ∧ Dataset.publish_date self' = Dataset.publish_date self
  ∧ Dataset.url self' = Dataset.url self
  ∧ Dataset.workbook self' = Dataset.workbook self
  ∧ (∀ k, is_Some (Dataset.dfs self !! k) → is_Some (Dataset.dfs self' !! k))
  ∧ (∀ sig, sig ∈ SIGNALS → is_Some (Dataset.dfs self' !! (level sheet, sig))).
Proof.
  intros (data & select & dfs' & total & _ & _ & Hloop & _ & ->)%parse_sheet_Ok.
  apply extract_loop in Hloop as [Hin Hout]. simpl.
  assert (∀ sig, sig ∈ SIGNALS → is_Some (dfs' !! (level sheet, sig))) as Hsig.
  { intros sig Hs. destruct (Hin sig Hs) as (frames & _ & ->). done. }
  split_and!; try done.
  - intros k Hk. apply lookup_insert_is_Some'. right.
    destruct (decide (k.1 = level sheet ∧ k.2 ∈ SIGNALS)) as [[H1 H2]|Hno].
    + destruct k as [l s]. simpl in H1, H2. subst l. by apply Hsig.
    + rewrite Hout; [done|]. intros sig Hs ->. by apply Hno.
  - intros sig Hs. apply lookup_insert_is_Some'. right. by apply Hsig.
Qed.

Lemma parse_one_sheet_Ok self si self' :
  parse_one_sheet self si = Ok self' →
  ∃ sheet,
    assoc si TRANSFORMS = Some sheet
    ∧ is_Some (Dataset.workbook self !! name sheet)
    ∧ size (Dataset.times self') = 2
    ∧ Dataset.publish_date self' = Dataset.publish_date self
    ∧ Dataset.url self' = Dataset.url self
    ∧ Dataset.workbook self' = Dataset.workbook self
    ∧ (∀ k, is_Some (Dataset.dfs self !! k) → is_Some (Dataset.dfs self' !! k))
    ∧ (∀ sig, sig ∈ SIGNALS → is_Some (Dataset.dfs self' !! (level sheet, sig))).
Proof.
  unfold Dataset.parse_one_sheet.
  destruct (assoc si TRANSFORMS) as [sheet|]; [|done]. simpl.
  intros (self1 & H1 & H2)%bind_Ok. exists sheet.
  apply parse_times_for_sheet_fields in H1 as (Hd1 & Hs1 & Hp1 & Hu1 & Hw1 & Hn1).
  apply parse_sheet_fields in H2 as (Ht2 & Hp2 & Hu2 & Hw2 & Hk2 & Hsig2).
  split_and!; try congruence; try done.
  intros k Hk. apply Hk2. by rewrite Hd1.
Qed.

Lemma sheets_loop_Ok sheets self self' :
  foldM parse_one_sheet self sheets = Ok self' →
  Dataset.publish_date self' = Dataset.publish_date self
  ∧ Dataset.url self' = Dataset.url self
  ∧ Dataset.workbook self' = Dataset.workbook self
  ∧ (∀ k, is_Some (Dataset.dfs self !! k) → is_Some (Dataset.dfs self' !! k))
  ∧ (∀ si, si ∈ sheets →
       ∃ sheet,
         assoc si TRANSFORMS = Some sheet
         ∧ is_Some (Dataset.workbook self' !! name sheet)
         ∧ ∀ sig, sig ∈ SIGNALS → is_Some (Dataset.dfs self' !! (level sheet, sig)))
  ∧ (sheets ≠ [] → size (Dataset.times self') = 2)
  ∧ (sheets = [] → self' = self).
Proof.
  revert self. induction sheets as [|si sheets IH]; intros self; simpl.
  - intros [= <-]. split_and!; try done. by intros si ?%elem_of_nil.
  - intros (self1 & Hstep & Hrest)%bind_Ok.
    apply parse_one_sheet_Ok in Hstep
      as (sheet & Hsheet & Hname & Hsize & Hp & Hu & Hw & Hk & Hsig).
    destruct (IH _ Hrest) as (Hp' & Hu' & Hw' & Hk' & Hsheets & Hsize' & _).
    split_and!; try congruence.
    + intros k Hk0. by apply Hk', Hk.
    + intros si' [->|Hin]%elem_of_cons; [|by apply Hsheets].
      exists sheet. split_and!; [done|congruence|].
      intros sig Hs. by apply Hk', Hsig.
    + intros _. destruct sheets as [|si' sheets']; [|by apply Hsize'].
      simpl in Hrest. by injection Hrest as <-.
Qed.

(** A [Dataset] that was built: its publish date is the one of the
    file name, its workbook is read from the cached file, every
    requested sheet is a sheet of [TRANSFORMS] and of the workbook
    and has left a table for every signal at its geographic level,
    and [times] holds two categories as soon as one sheet was
    requested. With no sheet requested it has no table and no
    reference date. *)
Theorem new_dataset_built requests_get fs config sheets self :
  (Dataset_new requests_get fs config sheets).2 = Ok self →
  Dataset.parse_publish_date (filename config) = Ok (Dataset.publish_date self)
  ∧ Dataset.url self
    = DOWNLOAD_ATTACHMENT (assetId config) (quote_as_url (filename config))
  ∧ (∃ content,
       (Dataset_new requests_get fs config sheets).1 !! cached_filename config
       = Some content
       ∧ ExcelFile content = Ok (Dataset.workbook self))
  ∧ (∀ si, si ∈ sheets →
       ∃ sheet,
         assoc si TRANSFORMS = Some sheet
         ∧ is_Some (Dataset.workbook self !! name sheet)
         ∧ ∀ sig, sig ∈ SIGNALS → is_Some (Dataset.dfs self !! (level sheet, sig)))
  ∧ (sheets ≠ [] → size (Dataset.times self) = 2)
  ∧ (sheets = [] → Dataset.dfs self = ∅ ∧ Dataset.times self = ∅).
Proof.
  intros Hok.
  assert (∃ content publish_date,
            (Dataset_new requests_get fs config sheets).1 !! cached_filename config
            = Some content
            ∧ Dataset.parse_publish_date (filename config) = Ok publish_date
            ∧ dataset_of_content SIGNALS TRANSFORMS DOWNLOAD_ATTACHMENT quote_as_url
                truediv7 ExcelFile publish_date config sheets content = Ok self)
    as (content & publish_date & Hcontent & Hpd & Hself).
  { destruct (fs !! cached_filename config) as [content|] eqn:Hc.
    - rewrite (new_dataset_cached _ _ _ _ _ _ _ _ _ _ content Hc) in Hok |- *.
      cbn [fst snd] in Hok |- *.
      apply bind_Ok in Hok as (publish_date & Hpd & Hself). by exists content, publish_date.
    - rewrite (new_dataset_download _ _ _ _ _ _ _ _ _ _ Hc) in Hok |- *.
      destruct (Dataset.parse_publish_date (filename config)) as [publish_date|];
        [|done].
      cbn [fst snd] in Hok |- *. eexists _, publish_date.
      split_and!; [apply lookup_insert_eq|done|done]. }
  unfold dataset_of_content in Hself.
  apply bind_Ok in Hself as (workbook & Hworkbook & Hloop).
  apply sheets_loop_Ok in Hloop as (Hp & Hu & Hw & _ & Hsheets & Hsize & Hnone).
  simpl in Hp, Hu, Hw. split_and!; try congruence; try done.
  - exists content. split; [done|congruence].
  - intros Hnil. by rewrite (Hnone Hnil).
Qed.

End Constructor.

(** ** [as_cached_filename] *)

Lemma startswith_slash_app id rest :
  Str.startswith (id +:+ "--" +:+ rest) "/" = Str.startswith id "/".
Proof. by destruct id. Qed.

(** The name a report gets in the input cache tells the reports
    apart as long as the asset identifiers have one length and none
    begins with a slash: two attachments with the same cached name
    have the same identifier and the same file name. *)
Theorem as_cached_filename_inj params el1 el2 :
  String.length (att_assetId el1) = String.length (att_assetId el2) →
  Str.startswith (att_assetId el1) "/" = false →
  Str.startswith (att_assetId el2) "/" = false →
  as_cached_filename params el1 = as_cached_filename params el2 →
  el1 = el2.
Proof.
  destruct el1 as [f1 id1], el2 as [f2 id2]. cbn [att_assetId]. intros Hlen H1 H2.
  unfold as_cached_filename, Os.path_join. cbn [att_assetId att_filename].
  rewrite !startswith_slash_app, H1, H2.
  assert (id1 +:+ "--" +:+ f1 = id2 +:+ "--" +:+ f2 → mkAttachment f1 id1 = mkAttachment f2 id2)
    as Hinj.
  { intros [-> Heq]%LowerFacts.app_inj_length; [|done].
    by apply LowerFacts.app_inv_head in Heq as ->. }
  destruct (negb (Str.truthy (input_cache params)) || Str.endswith (input_cache params) "/").
  - by intros ?%LowerFacts.app_inv_head%Hinj.
  - by intros ?%LowerFacts.app_inv_head%LowerFacts.app_inv_head%Hinj.
Qed.

Lemma as_cached_filename_inj_witness :
  as_cached_filename (mkParams "cache" "new" None)
    (mkAttachment "Community Profile Report 20211104.xlsx" "6c1d-aa01")
  = "cache/6c1d-aa01--Community Profile Report 20211104.xlsx"
  ∧ (as_cached_filename (mkParams "cache" "new" None)
       (mkAttachment "Community Profile Report 20211104.xlsx" "6c1d-aa01")
     = as_cached_filename (mkParams "cache" "new" None)
         (mkAttachment "Community Profile Report 20211104.xlsx" "6c1d-aa01") →
     mkAttachment "Community Profile Report 20211104.xlsx" "6c1d-aa01"
     = mkAttachment "Community Profile Report 20211104.xlsx" "6c1d-aa01").
Proof.
  split; [vm_compute; reflexivity|].
  apply (as_cached_filename_inj (mkParams "cache" "new" None)
           (mkAttachment "Community Profile Report 20211104.xlsx" "6c1d-aa01")
           (mkAttachment "Community Profile Report 20211104.xlsx" "6c1d-aa01"));
    reflexivity.
Defined.

(** ** [fetch_listing] *)

(** The attachments that are not dropped with the PDF files. *)
Definition xlsx_attachments (attachments : list Attachment) : list Attachment :=
  List.filter (fun el => Str.endswith (att_filename el) "xlsx") attachments.

(** An attachment with its two added keys. *)
Definition as_report (params : IndicatorParams) (el : Attachment) : result Report :=
  publish_date ← Dataset.parse_publish_date (att_filename el);
  Ok (mkReport (mkConfig (att_filename el) (att_assetId el)
                         (as_cached_filename params el))
               publish_date).

(** The file name and the asset identifier of a report and of an
    attachment. *)
Definition report_key (r : Report) : string * string :=
  (filename (report_config r), assetId (report_config r)).

Definition attachment_key (el : Attachment) : string * string :=
  (att_filename el, att_assetId el).

(** The reports newer than [export_start_date], when there is one. *)
Definition after_export_start (params : IndicatorParams) (r : Report) : bool :=
  match export_start_date params with
  | Some start => Datetime.ltb start (report_publish_date r)
  | None => true
  end.

Lemma List_filter_sublist {A} (f : A → bool) (l : list A) :
  List.filter f l `sublist_of` l.
Proof.
  induction l as [|x l IH]; simpl; [constructor|].
  destruct (f x); by constructor.
Qed.

Lemma List_filter_elem {A} (f : A → bool) (l : list A) x :
  x ∈ List.filter f l ↔ x ∈ l ∧ f x = true.
Proof. by rewrite !list_elem_of_In, filter_In. Qed.

Lemma List_filter_true {A} (f : A → bool) (l : list A) :
  (∀ x, x ∈ l → f x = true) → List.filter f l = l.
Proof.
  induction l as [|x l IH]; intros Hl; simpl; [done|].
  rewrite (Hl x) by left. f_equal. apply IH. intros y Hy. apply Hl. by right.
Qed.

Lemma as_report_Ok params el r :
  as_report params el = Ok r →
  Dataset.parse_publish_date (att_filename el) = Ok (report_publish_date r)
  ∧ report_config r
    = mkConfig (att_filename el) (att_assetId el) (as_cached_filename params el).
Proof. by intros (publish_date & Hpd & [= <-])%bind_Ok. Qed.

Lemma as_report_keys params els rs :
  mapM (as_report params) els = Ok rs → report_key <$> rs = attachment_key <$> els.
Proof.
  revert rs. induction els as [|el els IH]; intros rs.
  - by intros [= <-].
  - intros (r & rs' & [_ Hr]%as_report_Ok & Hrs & ->)%mapM_Ok_cons.
    rewrite !fmap_cons, (IH _ Hrs). f_equal.
    unfold report_key. by rewrite Hr.
Qed.

Section Listing.
Context {Bytes : Type}.
Implicit Types (fs : gmap string Bytes) (params : IndicatorParams).
Implicit Types (attachments : list Attachment) (listing : list Report).

(** The reports [fetch_listing] keeps among the ones of the
    spreadsheet attachments, by the value of [reports]. *)
Definition wanted fs params (listing : list Report) : result (list Report) :=
  if String.eqb (reports params) "new" then
    Ok (List.filter
          (fun el => negb (bool_decide (is_Some (fs !! cached_filename (report_config el)))))
          listing)
  else if (Str.find (reports params) "--" >? 0)%Z then
    let '(start_str, _, end_str) := Str.partition (reports params) "--" in
    start_date ← Datetime.strptime_Ymd start_str;
    end_date ← Datetime.strptime_Ymd end_str;
    Ok (List.filter
          (fun el => Datetime.leb start_date (report_publish_date el)
                     && Datetime.leb (report_publish_date el) end_date)
          listing)
  else Ok listing.

Lemma fetch_listing_unfold attachments fs params :
  fetch_listing attachments fs params
  = (all ← mapM (as_report params) (xlsx_attachments attachments);
     listing ← wanted fs params all;
     Ok (List.filter (after_export_start params) listing)).
Proof.
  unfold fetch_listing, wanted, as_report, xlsx_attachments.
  destruct (mapM _ _) as [all|e]; [|done]. simpl.
  match goal with |- ?r ≫= _ = ?r' ≫= _ => change r' with r; destruct r as [l|e] end;
    [|done].
  simpl. f_equal. unfold after_export_start.
  destruct (export_start_date params); [done|].
  symmetry. by apply List_filter_true.
Qed.

Lemma wanted_sublist fs params all listing :
  wanted fs params all = Ok listing → listing `sublist_of` all.
Proof.
  unfold wanted. destruct (String.eqb _ _).
  - intros [= <-]. apply List_filter_sublist.
  - destruct (_ >? _)%Z; [|by intros [= <-]].
    destruct (Str.partition _ _) as [[start_str sep] end_str].
    intros (sd & _ & (ed & _ & [= <-])%bind_Ok)%bind_Ok. apply List_filter_sublist.
Qed.

Lemma fetch_listing_Ok attachments fs params listing :
  fetch_listing attachments fs params = Ok listing ↔
    ∃ all kept,
      mapM (as_report params) (xlsx_attachments attachments) = Ok all
      ∧ wanted fs params all = Ok kept
      ∧ listing = List.filter (after_export_start params) kept.
Proof.
  rewrite fetch_listing_unfold, bind_Ok. split.
  - intros (all & Hall & (kept & Hkept & [= <-])%bind_Ok). by exists all, kept.
  - intros (all & kept & Hall & Hkept & ->). exists all. split; [done|].
    apply bind_Ok. by exists kept.
Qed.

(** Every report of the listing is a spreadsheet attachment of the
    server's list with its two added keys: the name of its cached
    file and the publish date read from its file name. The reports
    come in the order of the attachments; none is listed twice unless
    the server lists it twice. *)
Theorem fetch_listing_reports attachments fs params listing :
  fetch_listing attachments fs params = Ok listing →
  (∀ r, r ∈ listing →
     ∃ el,
       el ∈ attachments
       ∧ Str.endswith (att_filename el) "xlsx" = true
       ∧ report_config r
         = mkConfig (att_filename el) (att_assetId el) (as_cached_filename params el)
       ∧ Dataset.parse_publish_date (att_filename el) = Ok (report_publish_date r))
  ∧ report_key <$> listing `sublist_of` attachment_key <$> attachments.
Proof.
  intros (all & kept & Hall & Hkept%wanted_sublist & ->)%fetch_listing_Ok.
  assert (List.filter (after_export_start params) kept `sublist_of` all) as Hsub.
  { etrans; [apply List_filter_sublist|done]. }
  split.
  - intros r Hr. apply (sublist_subseteq _ _ Hsub) in Hr.
    destruct (mapM_Ok_elem _ _ _ _ Hall Hr) as (el & [Hel Hx]%List_filter_elem & Hrep).
    apply as_report_Ok in Hrep as [Hpd Hcfg]. by exists el.
  - etrans; [by apply fmap_sublist|].
    rewrite (as_report_keys _ _ _ Hall). apply fmap_sublist, List_filter_sublist.
Qed.

(** One spreadsheet attachment whose name holds no publish date
    makes [fetch_listing] raise, whatever [reports] asks for: the
    dates are read before any report is dropped. *)
Theorem fetch_listing_undated attachments fs params el :
  el ∈ attachments →
  Str.endswith (att_filename el) "xlsx" = true →
  raises (Dataset.parse_publish_date (att_filename el)) →
  raises (fetch_listing attachments fs params).
Proof.
  intros Hel Hx [e He]. rewrite fetch_listing_unfold.
  destruct (mapM_raises (as_report params) (xlsx_attachments attachments) el)
    as [e' He'].
  - by apply List_filter_elem.
  - exists e. unfold as_report. by rewrite He.
  - exists e'. by rewrite He'.
Qed.

(** With [reports] set to [new], the listing holds exactly the
    spreadsheet attachments whose cached file does not exist and
    whose publish date is after [export_start_date]. *)
Theorem fetch_listing_new attachments fs params listing :
  reports params = "new" →
  fetch_listing attachments fs params = Ok listing →
  ∃ all,
    mapM (as_report params) (xlsx_attachments attachments) = Ok all
    ∧ listing `sublist_of` all
    ∧ ∀ r, r ∈ listing ↔
           r ∈ all
           ∧ fs !! cached_filename (report_config r) = None
           ∧ after_export_start params r = true.
Proof.
  intros Hnew (all & kept & Hall & Hkept & ->)%fetch_listing_Ok.
  exists all. split; [done|]. split.
  { etrans; [apply List_filter_sublist|by eapply wanted_sublist]. }
  unfold wanted in Hkept. rewrite Hnew in Hkept. injection Hkept as <-.
  intros r. rewrite !List_filter_elem, negb_true_iff, bool_decide_eq_false.
  rewrite <-eq_None_not_Some. tauto.
Qed.

End Listing.

(** ** [fetch_listing]: a range of publish dates *)

Module PartitionFacts.
Import Str StrFacts.

Lemma startswith_hyphens a b :
  a ≠ "" → ¬ occurs_in "--" (a +:+ "-") → startswith (a +:+ "--" +:+ b) "--" = false.
Proof.
  intros Ha Hno. apply not_true_is_false. intros (rest & Heq)%startswith_spec.
  apply Hno. change ("--" +:+ rest) with (String "-" (String "-" rest)) in Heq.
  destruct a as [|c [|d a]]; [done| |].
  - rewrite app_cons, app_nil_l in Heq. injection Heq as -> _. by exists "", "".
  - rewrite !app_cons in Heq. injection Heq as -> -> _. by exists "", (a +:+ "-").
Qed.

Lemma index_of_first a b :
  ¬ occurs_in "--" (a +:+ "-") → index_of (a +:+ "--" +:+ b) "--" = Some (String.length a).
Proof.
  induction a as [|c a IH]; intros Hno.
  - by rewrite app_nil_l.
  - rewrite (app_cons c a). cbn [index_of]. rewrite <-(app_cons c a).
    rewrite startswith_hyphens by done.
    rewrite IH; [done|]. intros Hocc. apply Hno. rewrite (app_cons c a).
    by apply occurs_in_cons.
Qed.

(** [partition] cuts a text at the first occurrence of the
    separator. *)
Lemma partition_first a b :
  ¬ occurs_in "--" (a +:+ "-") → partition (a +:+ "--" +:+ b) "--" = (a, "--", b).
Proof.
  intros Hno. unfold partition. rewrite index_of_first by done.
  rewrite ReFacts.substring_prefix. do 2 f_equal.
  rewrite <-app_assoc.
  replace (String.length a + String.length "--") with (String.length (a +:+ "--"))
    by apply length_app.
  apply StrptimeFacts.substring_rest.
Qed.

End PartitionFacts.

Section ListingRange.
Context {Bytes : Type}.
Implicit Types (fs : gmap string Bytes) (params : IndicatorParams).
Implicit Types (attachments : list Attachment) (listing : list Report).

(** With [reports] a start date, two hyphens and an end date (the
    two hyphens being the first of the text), the listing holds
    exactly the spreadsheet attachments published from the start date
    to the end date, both included, and after [export_start_date];
    both dates are read with the format of year, month and day. *)
Theorem fetch_listing_range attachments fs params listing start_str end_str :
  reports params = start_str +:+ "--" +:+ end_str →
  start_str ≠ "" →
  ¬ Str.occurs_in "--" (start_str +:+ "-") →
  fetch_listing attachments fs params = Ok listing →
  ∃ all start_date end_date,
    mapM (as_report params) (xlsx_attachments attachments) = Ok all
    ∧ Datetime.strptime_Ymd start_str = Ok start_date
    ∧ Datetime.strptime_Ymd end_str = Ok end_date
    ∧ listing `sublist_of` all
    ∧ ∀ r, r ∈ listing ↔
           r ∈ all
           ∧ Datetime.leb start_date (report_publish_date r) = true
           ∧ Datetime.leb (report_publish_date r) end_date = true
           ∧ after_export_start params r = true.
Proof.
  intros Hreports Hstart Hfirst (all & kept & Hall & Hkept & ->)%fetch_listing_Ok.
  pose proof (wanted_sublist _ _ _ _ Hkept) as Hsub.
  unfold wanted in Hkept. rewrite Hreports in Hkept.
  assert (String.eqb (start_str +:+ "--" +:+ end_str) "new" = false) as Hnew.
  { apply String.eqb_neq. intros Heq.
    assert (Str.occurs_in "--" "new") as Hocc by (rewrite <-Heq; by eexists _, _).
    apply StrFacts.find_nonneg in Hocc. by vm_compute in Hocc. }
  assert ((Str.find (start_str +:+ "--" +:+ end_str) "--" >? 0)%Z = true) as Hfind.
  { apply StrFacts.find_positive. split; [by eexists _, _|].
    by apply PartitionFacts.startswith_hyphens. }
  rewrite Hnew, Hfind, PartitionFacts.partition_first in Hkept by done.
  apply bind_Ok in Hkept as (start_date & Hsd & Hkept).
  apply bind_Ok in Hkept as (end_date & Hed & [= <-]).
  exists all, start_date, end_date. split_and!; try done.
  { etrans; [apply List_filter_sublist|done]. }
  intros r. rewrite !List_filter_elem, andb_true_iff. tauto.
Qed.

End ListingRange.

(** ** [download_and_parse] *)

Section Download.
Context {I V G0 G Bytes : Type}.
Context (SIGNALS : list string) (TRANSFORMS : list (string * SheetSpec I V G0 G)).
Context (DOWNLOAD_ATTACHMENT : string → string → string).
Context (quote_as_url : string → string) (truediv7 : V → V).
Context (ExcelFile : Bytes → result (gmap string (SheetData I V))).
Context (replace_geocode : list (Row I G V) → list (Row I G V)).
Context (requests_get : string → Bytes).
Implicit Types (fs : gmap string Bytes) (params : IndicatorParams).
Implicit Types (attachments : list Attachment) (listing : list Report).
Implicit Types (datasets : gmap (string * string) (list (list (Row I G V)))).
Implicit Types (ds : list (Dataset.t I V G)).

Local Abbreviation Dataset_of :=
  (new_dataset SIGNALS TRANSFORMS DOWNLOAD_ATTACHMENT quote_as_url truediv7 ExcelFile
     requests_get).
Local Abbreviation download_from :=
  (download_and_parse_from SIGNALS TRANSFORMS DOWNLOAD_ATTACHMENT quote_as_url truediv7
     ExcelFile requests_get).
Local Abbreviation download :=
  (download_and_parse SIGNALS TRANSFORMS DOWNLOAD_ATTACHMENT quote_as_url truediv7
     ExcelFile requests_get).
Local Abbreviation fetch_new :=
  (fetch_new_reports SIGNALS TRANSFORMS DOWNLOAD_ATTACHMENT quote_as_url truediv7
     ExcelFile replace_geocode requests_get).

(** The [Dataset] built for a report of the listing, with every sheet
    of [TRANSFORMS]. *)
Definition report_dataset fs (r : Report) : gmap string Bytes * result (Dataset.t I V G) :=
  Dataset_of fs (report_config r) (Dataset.default_sheets TRANSFORMS).

(** The tables a list of [Dataset]s holds for a key, in order. *)
Definition gather ds (k : string * string) : list (list (Row I G V)) :=
  omap (fun d => Dataset.dfs d !! k) ds.

(** A list of tables that goes on: no entry when there was none and
    nothing is added. *)
Definition joined (before : option (list (list (Row I G V))))
    (more : list (list (Row I G V))) : option (list (list (Row I G V))) :=
  match before, more with
  | None, [] => None
  | _, _ => Some (default [] before ++ more)
  end.

Lemma collect_lookup datasets (dfs : gmap (string * string) (list (Row I G V))) k :
  collect datasets dfs !! k
  = match dfs !! k with
    | Some df => Some (default [] (datasets !! k) ++ [df])
    | None => datasets !! k
    end.
Proof.
  unfold collect. revert k.
  apply (map_fold_weak_ind
           (fun acc (m : gmap (string * string) (list (Row I G V))) =>
              ∀ k, acc !! k = match m !! k with
                              | Some df => Some (default [] (datasets !! k) ++ [df])
                              | None => datasets !! k
                              end)).
  - intros k. by rewrite lookup_empty.
  - intros i x m acc Hi IH k. destruct (decide (i = k)) as [->|Hne].
    + rewrite !lookup_insert_eq. by rewrite IH, Hi.
    + rewrite !lookup_insert_ne by done. apply IH.
Qed.

Lemma download_from_cons datasets fs r listing :
  download_from datasets fs (r :: listing)
  = match report_dataset fs r with
    | (fs', Ok d) => download_from (collect datasets (Dataset.dfs d)) fs' listing
    | (fs', Raise e) => (fs', Raise e)
    end.
Proof. reflexivity. Qed.

Lemma joined_collect datasets d ds k :
  joined (collect datasets (Dataset.dfs d) !! k) (gather ds k)
  = joined (datasets !! k) (gather (d :: ds) k).
Proof.
  rewrite collect_lookup. unfold gather. cbn [omap list_omap].
  fold (gather ds k).
  destruct (Dataset.dfs d !! k) as [df|]; [|done]. unfold joined. simpl.
  rewrite <-(assoc_L (++)). simpl.
  by destruct (datasets !! k), (gather ds k).
Qed.

(** The runs of the constructor behind a finished
    [download_and_parse]: the [Dataset] of every report in turn, each
    built on the cache the one before left. *)
Fixpoint built_in_turn fs listing ds : Prop :=
  match listing, ds with
  | [], [] => True
  | r :: listing', d :: ds' =>
      (report_dataset fs r).2 = Ok d
      ∧ built_in_turn (report_dataset fs r).1 listing' ds'
  | _, _ => False
  end.

Lemma download_from_Ok datasets fs listing fs' out :
  download_from datasets fs listing = (fs', Ok out) →
  ∃ ds,
    built_in_turn fs listing ds
    ∧ ∀ k, out !! k = joined (datasets !! k) (gather ds k).
Proof.
  revert datasets fs. induction listing as [|r listing IH]; intros datasets fs.
  - intros [= <- <-]. exists []. split; [done|]. intros k. unfold joined. simpl.
    rewrite (right_id_L [] (++)). by destruct (datasets !! k).
  - rewrite download_from_cons.
    destruct (report_dataset fs r) as [fs1 [d|e]] eqn:Hd; [|done].
    intros (ds & Hds & Hout)%IH. exists (d :: ds). split.
    + simpl. rewrite Hd. done.
    + intros k. by rewrite Hout, joined_collect.
Qed.

Lemma built_in_turn_length fs listing ds :
  built_in_turn fs listing ds → length ds = length listing.
Proof.
  revert fs ds. induction listing as [|r listing IH]; intros fs [|d ds]; simpl; try done.
  intros [_ H]. f_equal. by eapply IH.
Qed.

(** When [download_and_parse] returns, the list it holds for a key is
    made of the tables the [Dataset]s of the reports hold for that
    key, in the order of the listing, one [Dataset] for each report;
    a key no report has a table for is not in the result. Every
    [Dataset] was built: one report that cannot be built leaves no
    result at all. *)
Theorem download_and_parse_tables fs listing out :
  (download fs listing).2 = Ok out →
  ∃ ds,
    length ds = length listing
    ∧ built_in_turn fs listing ds
    ∧ (∀ k, out !! k = match gather ds k with [] => None | tables => Some tables end)
    ∧ (∀ k tables, out !! k = Some tables → tables ≠ []).
Proof.
  unfold download_and_parse.
  destruct (download_from ∅ fs listing) as [fs' r] eqn:Hrun. simpl. intros ->.
  apply download_from_Ok in Hrun as (ds & Hds & Hout). exists ds.
  assert (∀ k, out !! k = match gather ds k with [] => None | tables => Some tables end)
    as Hout'.
  { intros k. rewrite Hout, lookup_empty. unfold joined. by destruct (gather ds k). }
  split_and!; [by eapply built_in_turn_length|done|done|].
  intros k tables. rewrite Hout'. by destruct (gather ds k); intros [= <-].
Qed.

Lemma download_from_fs datasets fs listing :
  (∀ k content,
     fs !! k = Some content →
     (download_from datasets fs listing).1 !! k = Some content)
  ∧ (∀ k, is_Some ((download_from datasets fs listing).1 !! k) →
          is_Some (fs !! k)
          ∨ ∃ r, r ∈ listing ∧ k = cached_filename (report_config r))
  ∧ (is_ok (download_from datasets fs listing).2 = true →
     ∀ r, r ∈ listing →
          is_Some ((download_from datasets fs listing).1 !! cached_filename (report_config r))).
Proof.
  revert datasets fs. induction listing as [|r listing IH]; intros datasets fs.
  - simpl. split_and!; [done|by left|]. by intros _ r ?%elem_of_nil.
  - rewrite download_from_cons.
    pose proof (new_dataset_fs SIGNALS TRANSFORMS DOWNLOAD_ATTACHMENT quote_as_url
                  truediv7 ExcelFile requests_get fs (report_config r)
                  (Dataset.default_sheets TRANSFORMS)) as Hfs.
    fold (report_dataset fs r) in Hfs.
    assert (∀ k content, fs !! k = Some content →
                         (report_dataset fs r).1 !! k = Some content) as Hkeep.
    { intros k content Hk. rewrite Hfs.
      destruct (Dataset.parse_publish_date _); [|done].
      destruct (fs !! cached_filename (report_config r)) eqn:Hc; [done|].
      rewrite lookup_insert_ne; [done|]. intros <-. congruence. }
    assert (∀ k, is_Some ((report_dataset fs r).1 !! k) →
                 is_Some (fs !! k) ∨ k = cached_filename (report_config r)) as Hnew.
    { intros k. rewrite Hfs.
      destruct (Dataset.parse_publish_date _); [|by left].
      destruct (fs !! cached_filename (report_config r)) eqn:Hc; [by left|].
      intros [<-|?]%lookup_insert_is_Some'; [by right|by left]. }
    assert (is_ok (report_dataset fs r).2 = true →
            is_Some ((report_dataset fs r).1 !! cached_filename (report_config r)))
      as Hcached.
    { intros Hok. rewrite Hfs.
      destruct (Dataset.parse_publish_date (filename (report_config r))) as [pd|e] eqn:Hpd.
      - destruct (fs !! cached_filename (report_config r)) eqn:Hc; [by rewrite Hc|].
        by rewrite lookup_insert_eq.
      - unfold report_dataset, new_dataset, Dataset.__init__ in Hok.
        by rewrite Hpd in Hok. }
    destruct (report_dataset fs r) as [fs1 [d|e]] eqn:Hd; simpl in *.
    + destruct (IH (collect datasets (Dataset.dfs d)) fs1) as (IH1 & IH2 & IH3).
      split_and!.
      * intros k content Hk. by apply IH1, Hkeep.
      * intros k [Hk|(r' & Hr' & ->)]%IH2.
        -- destruct (Hnew k Hk) as [?| ->]; [by left|].
           right. exists r. split; [left|done].
        -- right. exists r'. split; [by right|done].
      * intros Hok r' [->|Hr']%elem_of_cons; [|by apply IH3].
        destruct (Hcached eq_refl) as [content Hcontent].
        rewrite (IH1 _ _ Hcontent). done.
    + split_and!; [done| |done].
      intros k Hk. destruct (Hnew k Hk) as [?| ->]; [by left|].
      right. exists r. split; [left|done].
Qed.

(** What [download_and_parse] does to the input cache, whether it
    returns or raises: no file is changed or removed, and a new file
    is the cached file of a report of the listing. When it returns,
    every report of the listing is in the cache. *)
Theorem download_and_parse_cache fs listing :
  (∀ k content,
     fs !! k = Some content → (download fs listing).1 !! k = Some content)
  ∧ (∀ k, is_Some ((download fs listing).1 !! k) →
          is_Some (fs !! k)
          ∨ ∃ r, r ∈ listing ∧ k = cached_filename (report_config r))
  ∧ (is_ok (download fs listing).2 = true →
     ∀ r, r ∈ listing →
          is_Some ((download fs listing).1 !! cached_filename (report_config r))).
Proof. apply download_from_fs. Qed.

(** After a run that asked for the new reports and parsed them all,
    no report is new: the same request on the cache the run left
    lists nothing, as long as the server lists the same
    attachments. *)
Theorem fetch_listing_after_download attachments fs params listing :
  reports params = "new" →
  fetch_listing attachments fs params = Ok listing →
  is_ok (download fs listing).2 = true →
  fetch_listing attachments (download fs listing).1 params = Ok [].
Proof.
  intros Hnew (all & kept & Hall & Hkept & ->)%fetch_listing_Ok Hok.
  set (listing := List.filter (after_export_start params) kept) in *.
  destruct (download_from_fs ∅ fs listing) as (Hkeep & _ & Hcached).
  fold (download fs listing) in Hkeep, Hcached. specialize (Hcached Hok).
  apply fetch_listing_Ok. exists all. eexists. split; [done|]. split.
  { unfold wanted. rewrite Hnew. simpl. reflexivity. }
  unfold wanted in Hkept. rewrite Hnew in Hkept. simpl in Hkept. injection Hkept as <-.
  symmetry. apply filter_nil_of_false. intros r [Hr Hnot]%List_filter_elem.
  apply not_true_is_false. intros Hafter.
  apply negb_true_iff, bool_decide_eq_false in Hnot. apply Hnot.
  destruct (fs !! cached_filename (report_config r)) as [content|] eqn:Hc.
  - rewrite (Hkeep _ _ Hc). done.
  - apply Hcached. subst listing. apply List_filter_elem. split; [|done].
    apply List_filter_elem. split; [done|].
    apply negb_true_iff, bool_decide_eq_false. rewrite Hc. by intros [? ?].
Qed.

(** ** [fetch_new_reports] *)

Lemma add_nation_loop sigs ret ret' :
  foldM (add_nation replace_geocode) ret sigs = Ok ret' →
  (∀ sig, ret' !! ("state", sig) = ret !! ("state", sig))
  ∧ (∀ sig, sig ∈ sigs →
       ∃ state,
         ret !! ("state", sig) = Some state
         ∧ ret' !! ("nation", sig) = Some (replace_geocode state))
  ∧ (∀ k, (∀ sig, sig ∈ sigs → k ≠ ("nation", sig)) → ret' !! k = ret !! k).
Proof.
  revert ret. induction sigs as [|sig0 sigs IH]; intros ret; simpl.
  - intros [= <-]. split_and!; [done| |done]. by intros sig ?%elem_of_nil.
  - intros (ret1 & Hstep & Hloop)%bind_Ok. unfold add_nation in Hstep.
    destruct (ret !! ("state", sig0)) as [state0|] eqn:Hstate0; [|done].
    injection Hstep as <-.
    destruct (IH _ Hloop) as (Hstate & Hnation & Hother).
    assert (∀ sig, <[("nation", sig0) := replace_geocode state0]> ret !! ("state", sig)
                   = ret !! ("state", sig)) as Hsame.
    { intros sig. by rewrite lookup_insert_ne. }
    split_and!.
    + intros sig. by rewrite Hstate, Hsame.
    + intros sig [->|Hsig]%elem_of_cons.
      * exists state0. split; [done|].
        destruct (decide (sig0 ∈ sigs)) as [Hdup|Hfresh].
        -- destruct (Hnation sig0 Hdup) as (state & Hs & ->).
           rewrite Hsame, Hstate0 in Hs. by injection Hs as <-.
        -- rewrite Hother, lookup_insert_eq; [done|]. intros sig Hsig [= <-]. done.
      * destruct (Hnation sig Hsig) as (state & Hs & ->).
        rewrite Hsame in Hs. by exists state.
    + intros k Hk. rewrite Hother.
      * rewrite lookup_insert_ne; [done|]. intros <-. eapply Hk; [left|done].
      * intros sig Hsig. apply Hk. by right.
Qed.

(** With nothing to list (no report is new, or none is in the range)
    and at least one signal, [fetch_new_reports] does not return an
    empty result: it raises [KeyError] for the state table of the
    first signal, and the cache is as it was. *)
Theorem fetch_new_reports_nothing_listed attachments fs params sig sigs :
  fetch_listing attachments fs params = Ok [] →
  SIGNALS = sig :: sigs →
  fetch_new attachments fs params
  = (fs, Raise (KeyError ("('state', '" +:+ sig +:+ "')"))).
Proof.
  intros Hlisting Hsignals. unfold fetch_new_reports. rewrite Hlisting, Hsignals.
  simpl. unfold add_nation. by rewrite lookup_fmap, lookup_empty.
Qed.

(** When [fetch_new_reports] returns, the listing was fetched and
    every report of it parsed; the result holds, for every signal,
    the state table (the tables of the reports one after the other)
    and under the key of the nation what [replace_geocode] makes of
    that state table; every other key holds the tables of the reports
    for that key, one after the other. *)
Theorem fetch_new_reports_nation attachments fs params ret :
  (fetch_new attachments fs params).2 = Ok ret →
  ∃ listing datasets,
    fetch_listing attachments fs params = Ok listing
    ∧ download fs listing = ((fetch_new attachments fs params).1, Ok datasets)
    ∧ (∀ sig, sig ∈ SIGNALS →
         ∃ tables,
           datasets !! ("state", sig) = Some tables
           ∧ ret !! ("state", sig) = Some (concat tables)
           ∧ ret !! ("nation", sig) = Some (replace_geocode (concat tables)))
    ∧ (∀ k, (∀ sig, sig ∈ SIGNALS → k ≠ ("nation", sig)) →
            ret !! k = (fun tables => concat tables) <$> datasets !! k).
Proof.
  unfold fetch_new_reports.
  destruct (fetch_listing attachments fs params) as [listing|e]; [|done].
  destruct (download fs listing) as [fs' [datasets|e]] eqn:Hrun; [|done].
  cbn [fst snd]. intros Hloop%add_nation_loop.
  destruct Hloop as (Hstate & Hnation & Hother).
  exists listing, datasets. split_and!; [done|done| |].
  - intros sig Hsig. destruct (Hnation sig Hsig) as (state & Hs & Hn).
    rewrite lookup_fmap in Hs.
    destruct (datasets !! ("state", sig)) as [tables|] eqn:Ht; [|done].
    injection Hs as <-. exists tables. split_and!; [done| |done].
    by rewrite Hstate, lookup_fmap, Ht.
  - intros k Hk. by rewrite Hother, lookup_fmap.
Qed.

End Download.

(** ** A run on one report *)

Module ExampleRun.
Import QArith_base.

(** One sheet is configured: the sheet of the states. *)
Definition TRANSFORMS : list (string * SheetSpec string Q string string) :=
  [("States", Example.states_sheet)]%string.

Definition DOWNLOAD_ATTACHMENT (assetId filename : string) : string :=
  "https://example.org/" +:+ assetId +:+ "/" +:+ filename.

(** The file names of the example need no quoting. *)
Definition quote_as_url (s : string) : string := s.

(** The server answers with the same bytes for every report, and the
    bytes are the workbook of [Example]. *)
Definition requests_get (url : string) : string := "workbook".

Definition ExcelFile (content : string) : result (gmap string (SheetData string Q)) :=
  if String.eqb content "workbook" then Ok Example.workbook
  else Raise (ValueError "File is not a zip file").

(** Every state is in the one nation. *)
Definition replace_geocode (table : list (Row string string Q))
    : list (Row string string Q) :=
  map (fun r => mkRow (r_label r) "us"%string (timestamp r) (val r) (se r) (sample_size r))
      table.

Definition params : IndicatorParams := mkParams "cache" "new" None.

Definition attachments : list Attachment :=
  [ mkAttachment "Community Profile Report 20211104.pdf" "a1";
    mkAttachment "Community Profile Report 20211104.xlsx" "a2" ].

Definition report : Report :=
  mkReport (mkConfig "Community Profile Report 20211104.xlsx" "a2"
                     "cache/a2--Community Profile Report 20211104.xlsx")
           (Date 2021 11 4).

(** The constructor, [download_and_parse] and [fetch_new_reports]
    with these constants. *)
Definition dataset (fs : gmap string string) (config : Config) (sheets : list string)
    : gmap string string * result (Dataset.t string Q string) :=
  new_dataset Example.SIGNALS TRANSFORMS DOWNLOAD_ATTACHMENT quote_as_url
    Example.truediv7 ExcelFile requests_get fs config sheets.

Definition download (fs : gmap string string) (listing : list Report)
    : gmap string string
      * result (gmap (string * string) (list (list (Row string string Q)))) :=
  download_and_parse Example.SIGNALS TRANSFORMS DOWNLOAD_ATTACHMENT quote_as_url
    Example.truediv7 ExcelFile requests_get fs listing.

Definition fetch (fs : gmap string string)
    : gmap string string * result (gmap (string * string) (list (Row string string Q))) :=
  fetch_new_reports Example.SIGNALS TRANSFORMS DOWNLOAD_ATTACHMENT quote_as_url
    Example.truediv7 ExcelFile replace_geocode requests_get attachments fs params.

(** The [Dataset] of the report. *)
Definition built : Dataset.t string Q string :=
  Dataset.mk (Date 2021 11 4) "https://example.org/a2/Community Profile Report 20211104.xlsx"
    Example.workbook (Dataset.dfs Example.states_extracted) Example.states_times.

(** What [download_and_parse] returns for the report. *)
Definition datasets : gmap (string * string) (list (list (Row string string Q))) :=
  (fun table => [table]) <$> Dataset.dfs Example.states_extracted.

(** What [fetch_new_reports] returns. *)
Definition ret : gmap (string * string) (list (Row string string Q)) :=
  <[("nation", "positivity") := replace_geocode Example.state_positivity]>
    (<[("nation", "total") := replace_geocode Example.state_total]>
       (Dataset.dfs Example.states_extracted)).

(** A sheet whose overheader has the label and no blank after it. *)
Definition glued_data : SheetData string Q :=
  mkSheetData string Q [CStr "TESTING:LAST WEEK (October 24-30)"] Example.states_frame.

Definition glued : Dataset.t string Q string :=
  Dataset.mk Example.report_date "" (<["States" := glued_data]> ∅) ∅ ∅.

End ExampleRun.

Example example_listing :
  fetch_listing ExampleRun.attachments (∅ : gmap string string) ExampleRun.params
  = Ok [ExampleRun.report].
Proof. vm_compute. reflexivity. Qed.

Example example_dataset :
  ExampleRun.dataset ∅ (report_config ExampleRun.report) ["States"]%string
  = (<["cache/a2--Community Profile Report 20211104.xlsx" := "workbook"]> ∅,
     Ok ExampleRun.built).
Proof. vm_compute. reflexivity. Qed.

Example example_download :
  ExampleRun.download ∅ [ExampleRun.report]
  = (<["cache/a2--Community Profile Report 20211104.xlsx" := "workbook"]> ∅,
     Ok ExampleRun.datasets).
Proof. vm_compute. reflexivity. Qed.

Example example_fetch :
  ExampleRun.fetch ∅
  = (<["cache/a2--Community Profile Report 20211104.xlsx" := "workbook"]> ∅,
     Ok ExampleRun.ret).
Proof. vm_compute. reflexivity. Qed.

(** ** The properties above on the example *)

Lemma parse_times_for_sheet_unreadable_header_witness :
  Dataset.skip_overheader (CStr (V:=QArith_base.Q) "TESTING:LAST WEEK (October 24-30)") = false
  ∧ raises (Dataset._parse_times_for_sheet ExampleRun.glued Example.states_sheet).
Proof.
  split; [vm_compute; reflexivity|].
  apply (parse_times_for_sheet_unreadable_header ExampleRun.glued Example.states_sheet
           ExampleRun.glued_data "TESTING:LAST WEEK (October 24-30)").
  - vm_compute. reflexivity.
  - vm_compute. left.
  - vm_compute. reflexivity.
  - exists (AssertionError
              "Couldn't find reference date in header 'TESTING:LAST WEEK (October 24-30)'").
    vm_compute. reflexivity.
Defined.

Lemma parse_sheet_signals_witness :
  Dataset._parse_sheet Example.SIGNALS Example.truediv7 Example.after_states
    Example.states_sheet = Ok Example.states_extracted
  ∧ ("positivity" = "total" ∨ "positivity" = "positivity").
Proof.
  split; [vm_compute; reflexivity|].
  apply (parse_sheet_signals Example.SIGNALS Example.truediv7 Example.after_states
           Example.states_sheet Example.states_extracted "positivity").
  - vm_compute. reflexivity.
  - vm_compute. repeat constructor.
Defined.

Lemma parse_sheet_timestamps_witness :
  ∃ qualifier dt,
    Dataset.times Example.after_states !! qualifier = Some dt
    ∧ Date 2021 10 19 = total_reference_date dt.
Proof.
  apply (parse_sheet_timestamps Example.SIGNALS Example.truediv7 Example.after_states
           Example.states_sheet Example.states_extracted "total" Example.state_total
           (Example.row "AK" (Date 2021 10 19) (Example.q 21))).
  - vm_compute. reflexivity.
  - vm_compute. repeat constructor.
  - vm_compute. reflexivity.
  - vm_compute. repeat constructor.
Defined.

Lemma new_dataset_built_witness :
  Dataset.parse_publish_date "Community Profile Report 20211104.xlsx" = Ok (Date 2021 11 4)
  ∧ size (Dataset.times ExampleRun.built) = 2
  ∧ ∀ si, si ∈ ["States"]%string →
      ∃ sheet,
        assoc si ExampleRun.TRANSFORMS = Some sheet
        ∧ is_Some (Dataset.workbook ExampleRun.built !! name sheet)
        ∧ ∀ sig, sig ∈ Example.SIGNALS →
                 is_Some (Dataset.dfs ExampleRun.built !! (level sheet, sig)).
Proof.
  destruct (new_dataset_built Example.SIGNALS ExampleRun.TRANSFORMS
              ExampleRun.DOWNLOAD_ATTACHMENT ExampleRun.quote_as_url Example.truediv7
              ExampleRun.ExcelFile ExampleRun.requests_get ∅
              (report_config ExampleRun.report) ["States"]%string ExampleRun.built)
    as (Hdate & _ & _ & Hsheets & Hsize & _); [vm_compute; reflexivity|].
  split; [exact Hdate|]. split; [by apply Hsize|exact Hsheets].
Defined.

Lemma fetch_listing_reports_witness :
  report_key <$> [ExampleRun.report] `sublist_of` attachment_key <$> ExampleRun.attachments.
Proof.
  apply (fetch_listing_reports ExampleRun.attachments (∅ : gmap string string)
           ExampleRun.params [ExampleRun.report]).
  vm_compute. reflexivity.
Defined.

Lemma fetch_listing_undated_witness :
  raises (fetch_listing [mkAttachment "Community Profile Report 20211104.xlsx" "a2";
                         mkAttachment "contents.xlsx" "a3"]
            (∅ : gmap string string) ExampleRun.params).
Proof.
  apply (fetch_listing_undated _ _ _ (mkAttachment "contents.xlsx" "a3")).
  - right. left.
  - vm_compute. reflexivity.
  - exists IndexError. vm_compute. reflexivity.
Defined.

Lemma fetch_listing_new_witness :
  ∃ all,
    mapM (as_report ExampleRun.params) (xlsx_attachments ExampleRun.attachments) = Ok all
    ∧ [ExampleRun.report] `sublist_of` all
    ∧ ∀ r, r ∈ [ExampleRun.report] ↔
           r ∈ all
           ∧ (∅ : gmap string string) !! cached_filename (report_config r) = None
           ∧ after_export_start ExampleRun.params r = true.
Proof.
  apply (fetch_listing_new ExampleRun.attachments (∅ : gmap string string)
           ExampleRun.params [ExampleRun.report]).
  - reflexivity.
  - vm_compute. reflexivity.
Defined.

Lemma fetch_listing_range_witness :
  ∃ all start_date end_date,
    mapM (as_report (mkParams "cache" "2021-11-01--2021-11-04" (Some (Date 2021 10 31))))
         (xlsx_attachments ExampleRun.attachments) = Ok all
    ∧ Datetime.strptime_Ymd "2021-11-01" = Ok start_date
    ∧ Datetime.strptime_Ymd "2021-11-04" = Ok end_date
    ∧ [ExampleRun.report] `sublist_of` all
    ∧ ∀ r, r ∈ [ExampleRun.report] ↔
           r ∈ all
           ∧ Datetime.leb start_date (report_publish_date r) = true
           ∧ Datetime.leb (report_publish_date r) end_date = true
           ∧ after_export_start
               (mkParams "cache" "2021-11-01--2021-11-04" (Some (Date 2021 10 31))) r = true.
Proof.
  apply (fetch_listing_range ExampleRun.attachments (∅ : gmap string string)
           (mkParams "cache" "2021-11-01--2021-11-04" (Some (Date 2021 10 31)))
           [ExampleRun.report] "2021-11-01" "2021-11-04").
  - reflexivity.
  - discriminate.
  - intros Hocc. apply StrFacts.find_nonneg in Hocc. vm_compute in Hocc. discriminate.
  - vm_compute. reflexivity.
Defined.

Lemma download_and_parse_tables_witness :
  ∃ ds,
    length ds = 1
    ∧ built_in_turn Example.SIGNALS ExampleRun.TRANSFORMS ExampleRun.DOWNLOAD_ATTACHMENT
        ExampleRun.quote_as_url Example.truediv7 ExampleRun.ExcelFile ExampleRun.requests_get
        ∅ [ExampleRun.report] ds
    ∧ (∀ k, ExampleRun.datasets !! k
            = match gather ds k with [] => None | tables => Some tables end)
    ∧ (∀ k tables, ExampleRun.datasets !! k = Some tables → tables ≠ []).
Proof.
  apply (download_and_parse_tables Example.SIGNALS ExampleRun.TRANSFORMS
           ExampleRun.DOWNLOAD_ATTACHMENT ExampleRun.quote_as_url Example.truediv7
           ExampleRun.ExcelFile ExampleRun.requests_get ∅ [ExampleRun.report]
           ExampleRun.datasets).
  vm_compute. reflexivity.
Defined.

Lemma fetch_listing_after_download_witness :
  fetch_listing ExampleRun.attachments (ExampleRun.download ∅ [ExampleRun.report]).1
    ExampleRun.params
  = Ok [].
Proof.
  apply (fetch_listing_after_download Example.SIGNALS ExampleRun.TRANSFORMS
           ExampleRun.DOWNLOAD_ATTACHMENT ExampleRun.quote_as_url Example.truediv7
           ExampleRun.ExcelFile ExampleRun.requests_get ExampleRun.attachments ∅
           ExampleRun.params [ExampleRun.report]).
  - reflexivity.
  - vm_compute. reflexivity.
  - vm_compute. reflexivity.
Defined.

Lemma fetch_new_reports_nothing_listed_witness :
  fetch_new_reports Example.SIGNALS ExampleRun.TRANSFORMS ExampleRun.DOWNLOAD_ATTACHMENT
    ExampleRun.quote_as_url Example.truediv7 ExampleRun.ExcelFile ExampleRun.replace_geocode
    ExampleRun.requests_get ExampleRun.attachments
    (<["cache/a2--Community Profile Report 20211104.xlsx" := "workbook"]> ∅)
    ExampleRun.params
  = (<["cache/a2--Community Profile Report 20211104.xlsx" := "workbook"]> ∅,
     Raise (KeyError "('state', 'total')")).
Proof.
  apply (fetch_new_reports_nothing_listed Example.SIGNALS ExampleRun.TRANSFORMS
           ExampleRun.DOWNLOAD_ATTACHMENT ExampleRun.quote_as_url Example.truediv7
           ExampleRun.ExcelFile ExampleRun.replace_geocode ExampleRun.requests_get
           ExampleRun.attachments
           (<["cache/a2--Community Profile Report 20211104.xlsx" := "workbook"]> ∅)
           ExampleRun.params "total" ["positivity"]%string).
  - vm_compute. reflexivity.
  - reflexivity.
Defined.

Lemma fetch_new_reports_nation_witness :
  ∃ listing datasets,
    fetch_listing ExampleRun.attachments (∅ : gmap string string) ExampleRun.params
    = Ok listing
    ∧ ExampleRun.download ∅ listing = ((ExampleRun.fetch ∅).1, Ok datasets)
    ∧ (∀ sig, sig ∈ Example.SIGNALS →
         ∃ tables,
           datasets !! ("state", sig) = Some tables
           ∧ ExampleRun.ret !! ("state", sig) = Some (concat tables)
           ∧ ExampleRun.ret !! ("nation", sig)
             = Some (ExampleRun.replace_geocode (concat tables)))
    ∧ (∀ k, (∀ sig, sig ∈ Example.SIGNALS → k ≠ ("nation", sig)) →
            ExampleRun.ret !! k = (fun tables => concat tables) <$> datasets !! k).
Proof.
  apply (fetch_new_reports_nation Example.SIGNALS ExampleRun.TRANSFORMS
           ExampleRun.DOWNLOAD_ATTACHMENT ExampleRun.quote_as_url Example.truediv7
           ExampleRun.ExcelFile ExampleRun.replace_geocode ExampleRun.requests_get
           ExampleRun.attachments ∅ ExampleRun.params ExampleRun.ret).
  vm_compute. reflexivity.
Defined.

Lemma raises_bind_l {A B} (r : result A) (f : A → result B) :
  raises r → raises (r ≫= f).
Proof. intros [e ->]. by exists e. Qed.

Lemma raises_bind_r {A B} (r : result A) (f : A → result B) :
  (∀ a, raises (f a)) → raises (r ≫= f).
Proof. intros Hf. destruct r as [a|e]; [apply Hf|by exists e]. Qed.

(** ** [fetch_listing]: any other value of [reports] *)

Section ListingAll.
Context {Bytes : Type}.
Implicit Types (fs : gmap string Bytes) (params : IndicatorParams).
Implicit Types (attachments : list Attachment) (listing : list Report).

(** With [reports] neither [new] nor a text with two hyphens after
    its beginning ([all], or a range that begins with the two
    hyphens), no report is dropped for its cached file or its date
    but the ones [export_start_date] drops. *)
Theorem fetch_listing_all attachments fs params listing :
  reports params ≠ "new" →
  ¬ Str.occurs_in "--" (reports params) ∨ Str.startswith (reports params) "--" = true →
  fetch_listing attachments fs params = Ok listing →
  ∃ all,
    mapM (as_report params) (xlsx_attachments attachments) = Ok all
    ∧ listing `sublist_of` all
    ∧ ∀ r, r ∈ listing ↔ r ∈ all ∧ after_export_start params r = true.
Proof.
  intros Hnew Hrange (all & kept & Hall & Hkept & ->)%fetch_listing_Ok.
  unfold wanted in Hkept.
  apply String.eqb_neq in Hnew. rewrite Hnew in Hkept.
  assert ((Str.find (reports params) "--" >? 0)%Z = false) as Hfind.
  { apply not_true_is_false. intros [Hocc Hstart]%StrFacts.find_positive.
    destruct Hrange as [Hno|Hs]; [by apply Hno|congruence]. }
  rewrite Hfind in Hkept. injection Hkept as <-.
  exists all. split_and!; [done|apply List_filter_sublist|].
  intros r. by rewrite List_filter_elem.
Qed.

End ListingAll.

(** ** [Dataset._parse_sheet]: a week qualifier without reference dates *)

Section UnknownQualifier.
Context {I V G0 G : Type}.
Context (SIGNALS : list string) (truediv7 : V → V).
Implicit Types (self : Dataset.t I V G) (sheet : SheetSpec I V G0 G).
Implicit Types (data : SheetData I V) (select : list Dataset.selected).

(** A selected header of a signal whose week qualifier is not a key
    of [self.times] makes [_parse_sheet] raise. The keys of
    [self.times] are in lower case and the qualifier of a column is
    taken as it is written: a column of the last [7 days] written
    with a capital has no reference date. *)
Theorem parse_sheet_unknown_qualifier self sheet data select s sig :
  Dataset.read_excel self sheet = Ok data →
  Dataset.select_headers (filtered_frame sheet data) = Ok select →
  s ∈ select →
  sig ∈ SIGNALS →
  Str.occurs_in sig s.2 →
  Dataset.times self !! s.1.1 = None →
  raises (Dataset._parse_sheet SIGNALS truediv7 self sheet).
Proof.
  intros Hread Hsel Hs Hsig Hocc Hnone.
  rewrite (parse_sheet_unfold _ _ _ _ _ Hread), Hsel. simpl.
  destruct (foldM_raises
              (Dataset.extract_signal self sheet (filtered_frame sheet data) select)
              sig SIGNALS (Dataset.dfs self) Hsig) as [e He]; [|exists e; by rewrite He].
  intros dfs. unfold Dataset.extract_signal.
  apply raises_bind_r. intros _. apply raises_bind_l.
  apply (mapM_raises _ _ s).
  - apply List_filter_elem. split; [done|]. by apply StrFacts.find_nonneg.
  - unfold Dataset.signal_frame. rewrite Hnone. by eexists.
Qed.

End UnknownQualifier.

Lemma fetch_listing_all_witness :
  ∃ all,
    mapM (as_report (mkParams "cache" "--2021-11-01" None))
         (xlsx_attachments ExampleRun.attachments) = Ok all
    ∧ [ExampleRun.report] `sublist_of` all
    ∧ ∀ r, r ∈ [ExampleRun.report] ↔
           r ∈ all ∧ after_export_start (mkParams "cache" "--2021-11-01" None) r = true.
Proof.
  apply (fetch_listing_all ExampleRun.attachments (∅ : gmap string string)
           (mkParams "cache" "--2021-11-01" None) [ExampleRun.report]).
  - discriminate.
  - right. vm_compute. reflexivity.
  - vm_compute. reflexivity.
Defined.

Module ExampleCapital.

(** The frame of the states with the qualifier of one column
    written with a capital. *)
Definition frame : DataFrame string QArith_base.Q :=
  mkDataFrame ["AL"; "AK"]%string
    [ ("Total NAATs - Last 7 days", [Example.q 70; Example.q 140]);
      (Example.positivity_last, [QArith_base.Qmake 5 100; QArith_base.Qmake 8 100]) ]%string.

Definition data : SheetData string QArith_base.Q :=
  mkSheetData string QArith_base.Q Example.states_overheaders frame.

Definition self : Dataset.t string QArith_base.Q string :=
  Dataset.mk Example.report_date "" (<["States" := data]> ∅) ∅ Example.states_times.

End ExampleCapital.

Lemma parse_sheet_unknown_qualifier_witness :
  Dataset._parse_sheet Example.SIGNALS Example.truediv7 ExampleCapital.self
    Example.states_sheet = Raise (KeyError "Last")
  ∧ raises (Dataset._parse_sheet Example.SIGNALS Example.truediv7 ExampleCapital.self
              Example.states_sheet).
Proof.
  split; [vm_compute; reflexivity|].
  apply (parse_sheet_unknown_qualifier Example.SIGNALS Example.truediv7 ExampleCapital.self
           Example.states_sheet ExampleCapital.data
           [("Last", "Total NAATs - Last 7 days", "total naats - last 7 days");
            ("last", Example.positivity_last, Str.lower Example.positivity_last)]%string
           ("Last", "Total NAATs - Last 7 days", "total naats - last 7 days")%string
           "total").
  - vm_compute. reflexivity.
  - vm_compute. reflexivity.
  - left.
  - vm_compute. repeat constructor.
  - apply StrFacts.find_nonneg. vm_compute. reflexivity.
  - vm_compute. reflexivity.
Defined.
